(** * ku3rnel: interrupt controller, generic timer, MMU and IRQ entry

    A shallow embedding of the hardware-abstraction core of the kernel:
    - [src/arch/arm/core/gic.cpp]          the GICv2 driver and its handler table,
    - [src/arch/arm/peripherals/timer.cpp] the EL1 physical generic timer,
    - [src/arch/arm/core/mmu.cpp]          the identity page tables and MMU enable,
    - [src/arch/arm/core/exceptions.cpp]   the IRQ vector handler,
    - [src/kernel/panic.cpp]               the halt routine,
    - [src/lib/kstd/cstring.cpp]           the memory functions, on a byte memory
                                           of their own.

    Machine integers are [Z] with their wrap-around written out, pointers are
    addresses in [Z] with [0] for [nullptr], C arrays are lists indexed with
    stdpp's lookup and insert, and every externally visible action (MMIO
    access, system-register access, console output, call through a function
    pointer) is appended to a trace carried by the machine state. *)

From Stdlib Require Import ZArith String Lia.
From stdpp Require Import base list.

Local Open Scope Z_scope.

(** ** Machine integers *)

Definition wrap32 (z : Z) : Z := z mod 2 ^ 32.
Definition wrap64 (z : Z) : Z := z mod 2 ^ 64.

(** [~x] on a [uint64_t], and on an [int] read back as a [uint32_t]. *)
Definition not64 (z : Z) : Z := Z.lxor (Z.ones 64) z.
Definition not32 (z : Z) : Z := Z.lxor (Z.ones 32) z.

Definition nullptr : Z := 0.

(** ** Observable actions *)

Inductive SysReg :=
  | SCTLR_EL1 | MAIR_EL1 | TCR_EL1 | TTBR0_EL1
  | CNTFRQ_EL0 | CNTP_CTL_EL0 | CNTP_TVAL_EL0 | DAIFSET.

Global Instance SysReg_eq_dec : EqDecision SysReg.
Proof. solve_decision. Defined.

Inductive Event :=
  | MmioRead (addr : Z)
  | MmioWrite (addr value : Z)
  | Mrs (reg : SysReg)
  | Msr (reg : SysReg) (value : Z)
  | DsbIsh
  | Isb
  | TlbiVmalle1is
  | EnableCpuInterrupts
  | DisableCpuInterrupts
  | Kprintf (fmt : string) (args : list Z)
  | ConsolePrint (s : string)
  | ConsolePrintln (s : string)
  | Call (fn irq_num context : Z).

(** ** Data model *)

(** [include/kernel/interrupt.h] *)
Definition MAX_IRQS : Z := 256.

Record InterruptRegistration := {
  handler : Z;
  context : Z;
  is_registered : bool
}.

Global Instance InterruptRegistration_inhabited : Inhabited InterruptRegistration :=
  populate {| handler := nullptr; context := nullptr; is_registered := false |}.

(** [arch/arm/core/gic.h] *)
Definition GICD_BASE : Z := 0xFF841000.
Definition GICC_BASE : Z := 0xFF842000.

Definition GICD_CTLR : Z := 0x000.
Definition GICD_TYPER : Z := 0x004.
Definition GICD_ISENABLER0 : Z := 0x100.
Definition GICD_ICENABLER0 : Z := 0x180.
Definition GICD_IPRIORITYR0 : Z := 0x400.
Definition GICD_ITARGETSR0 : Z := 0x800.
Definition GICD_ICFGR0 : Z := 0xC00.

Definition GICC_CTLR : Z := 0x00.
Definition GICC_PMR : Z := 0x04.
Definition GICC_BPR : Z := 0x08.
Definition GICC_IAR : Z := 0x0C.
Definition GICC_EOIR : Z := 0x10.

Record GICDriver := {
  gicd_base_addr : Z;
  gicc_base_addr : Z;
  handlers : list InterruptRegistration;
  num_irq_lines : Z
}.

(** [arch/arm/peripherals/timer.h] *)
Record GenericTimer := {
  user_handler : Z;
  user_context : Z;
  irq_number : Z;
  current_interval_ticks : Z
}.

(** [arch/arm/core/mmu.h]: the three statically allocated tables. *)
Record PageTables := {
  l1_page_table : list Z;
  l2_page_table_0 : list Z;
  l2_page_table_1 : list Z
}.

(** Addresses fixed by the linker: the kernel image bounds used by the MMU
    classification, the page-table arrays, the timer object and its
    trampoline. *)
Record LinkMap := {
  KERNEL_START : Z;
  KERNEL_END : Z;
  l1_page_table_addr : Z;
  l2_page_table_0_addr : Z;
  l2_page_table_1_addr : Z;
  generic_timer_irq_trampoline : Z;
  global_el1_timer_instance_addr : Z
}.

(** The machine: the kernel's static objects, what the devices and the core
    answer to reads, and the trace of actions performed so far. *)
Record World := {
  g_gic_driver : GICDriver;
  global_el1_timer_instance : GenericTimer;
  page_tables : PageTables;
  mmio : Z -> Z;
  sysreg : SysReg -> Z;
  trace : list Event
}.

Definition set_gic (f : GICDriver -> GICDriver) (w : World) : World :=
  {| g_gic_driver := f (g_gic_driver w);
     global_el1_timer_instance := global_el1_timer_instance w;
     page_tables := page_tables w;
     mmio := mmio w; sysreg := sysreg w; trace := trace w |}.

Definition set_timer (f : GenericTimer -> GenericTimer) (w : World) : World :=
  {| g_gic_driver := g_gic_driver w;
     global_el1_timer_instance := f (global_el1_timer_instance w);
     page_tables := page_tables w;
     mmio := mmio w; sysreg := sysreg w; trace := trace w |}.

Definition set_page_tables (f : PageTables -> PageTables) (w : World) : World :=
  {| g_gic_driver := g_gic_driver w;
     global_el1_timer_instance := global_el1_timer_instance w;
     page_tables := f (page_tables w);
     mmio := mmio w; sysreg := sysreg w; trace := trace w |}.

Definition set_sysreg (f : (SysReg -> Z) -> SysReg -> Z) (w : World) : World :=
  {| g_gic_driver := g_gic_driver w;
     global_el1_timer_instance := global_el1_timer_instance w;
     page_tables := page_tables w;
     mmio := mmio w; sysreg := f (sysreg w); trace := trace w |}.

Definition record (evs : list Event) (w : World) : World :=
  {| g_gic_driver := g_gic_driver w;
     global_el1_timer_instance := global_el1_timer_instance w;
     page_tables := page_tables w;
     mmio := mmio w; sysreg := sysreg w; trace := trace w ++ evs |}.

(** ** Computations that may halt

    [Kernel::panic] is [[noreturn]]: a computation either returns a value
    with the new machine state, or halts in a state it never leaves. *)

Inductive Outcome (A : Type) :=
  | Ret (a : A) (w : World)
  | Halt (w : World).
Arguments Ret {A} a w.
Arguments Halt {A} w.

Definition M (A : Type) : Type := World -> Outcome A.

Global Instance M_ret : MRet M := fun A a w => Ret a w.
Global Instance M_bind : MBind M := fun A B f m w =>
  match m w with
  | Ret a w' => f a w'
  | Halt w' => Halt w'
  end.

Definition final {A} (o : Outcome A) : World :=
  match o with Ret _ w => w | Halt w => w end.

Definition returns {A} (o : Outcome A) : bool :=
  match o with Ret _ _ => true | Halt _ => false end.

Definition gets {A} (f : World -> A) : M A := fun w => Ret (f w) w.
Definition modify (f : World -> World) : M unit := fun w => Ret tt (f w).
Definition emit (e : Event) : M unit := modify (record [e]).

Definition kprintf (fmt : string) (args : list Z) : M unit := emit (Kprintf fmt args).

(** ** [kernel/panic.cpp] *)

(** [Kernel::panic]: masks all CPU interrupts, prints the diagnostic and the
    halt notice, then loops on [wfi] forever; the loop is the [Halt]
    outcome. [message] is [None] for a null pointer. *)
Definition panic {A} (message : option string) : M A := fun w =>
  Halt (record
          ([Msr DAIFSET 0xf; ConsolePrintln "\n*** KERNEL PANIC ***"]
           ++ match message with
              | Some m => [ConsolePrint "Message: "; ConsolePrintln m]
              | None => [ConsolePrintln "No message provided."]
              end
           ++ [ConsolePrintln "System halted."]) w).

(** ** [arch/arm/core/gic.cpp] *)

(** [GICDriver::GICDriver]: stores the two bases and zeroes the handler
    table with [kmemset]; [num_irq_lines] has its default initialiser [0]. *)
Definition GICDriver_ctor (dist_base cpu_if_base : Z) : GICDriver :=
  {| gicd_base_addr := dist_base;
     gicc_base_addr := cpu_if_base;
     handlers := replicate (Z.to_nat MAX_IRQS)
                   {| handler := nullptr; context := nullptr; is_registered := false |};
     num_irq_lines := 0 |}.

(** MMIO helpers of the driver; reads yield a [uint32_t]. *)
Definition gicd_write (offset value : Z) : M unit :=
  base ← gets (fun w => gicd_base_addr (g_gic_driver w));
  emit (MmioWrite (wrap64 (base + offset)) value).

Definition gicd_read (offset : Z) : M Z :=
  base ← gets (fun w => gicd_base_addr (g_gic_driver w));
  emit (MmioRead (wrap64 (base + offset)));;
  gets (fun w => wrap32 (mmio w (wrap64 (base + offset)))).

Definition gicc_write (offset value : Z) : M unit :=
  base ← gets (fun w => gicc_base_addr (g_gic_driver w));
  emit (MmioWrite (wrap64 (base + offset)) value).

Definition gicc_read (offset : Z) : M Z :=
  base ← gets (fun w => gicc_base_addr (g_gic_driver w));
  emit (MmioRead (wrap64 (base + offset)));;
  gets (fun w => wrap32 (mmio w (wrap64 (base + offset)))).

Definition handler_slot (irq_num : Z) : M InterruptRegistration :=
  gets (fun w => handlers (g_gic_driver w) !!! Z.to_nat irq_num).

(** [handlers[irq_num] = r] *)
Definition put_slot (irq_num : Z) (r : InterruptRegistration) (w : World) : World :=
  set_gic (fun d =>
    {| gicd_base_addr := gicd_base_addr d;
       gicc_base_addr := gicc_base_addr d;
       handlers := <[Z.to_nat irq_num := r]> (handlers d);
       num_irq_lines := num_irq_lines d |}) w.

Definition store_handler_slot (irq_num : Z) (r : InterruptRegistration) : M unit :=
  modify (put_slot irq_num r).

Definition set_irq_target_cpu0 (spi_num : Z) : M unit :=
  if spi_num <? 32 then mret tt
  else
    let reg_offset := GICD_ITARGETSR0 + (spi_num / 4) * 4 in
    let shift := (spi_num mod 4) * 8 in
    val ← gicd_read reg_offset;
    let val := Z.land val (not32 (wrap32 (Z.shiftl 0xFF shift))) in
    let val := Z.lor val (wrap32 (Z.shiftl 0x01 shift)) in
    gicd_write reg_offset val.

Definition configure_irq_trigger (irq_num : Z) (edge_triggered : bool) : M unit :=
  if irq_num <? 16 then mret tt
  else if (irq_num <? 32) && (16 <=? irq_num) then mret tt
  else
    let reg_offset := GICD_ICFGR0 + (irq_num / 16) * 4 in
    let shift := (irq_num mod 16) * 2 + 1 in
    val ← gicd_read reg_offset;
    let val := if edge_triggered then Z.lor val (wrap32 (Z.shiftl 1 shift))
               else Z.land val (not32 (wrap32 (Z.shiftl 1 shift))) in
    gicd_write reg_offset val.

(** The loop of [GICDriver::init] over the shared lines, from [i] on. It
    stops at [MAX_IRQS] at the latest, so [MAX_IRQS] rounds of fuel are
    never used up ([init_spi_loop_fuel]). *)
Fixpoint init_spi_loop (fuel : nat) (i : Z) : M unit :=
  match fuel with
  | O => mret tt
  | S fuel' =>
      n ← gets (fun w => num_irq_lines (g_gic_driver w));
      if (i <? n) && (i <? MAX_IRQS) then
        gicd_write (GICD_IPRIORITYR0 + (i / 4) * 4 + (i mod 4)) 0xA0;;
        configure_irq_trigger i false;;
        set_irq_target_cpu0 i;;
        gicd_write (GICD_ICENABLER0 + (i / 32) * 4) (wrap32 (Z.shiftl 1 (i mod 32)));;
        init_spi_loop fuel' (i + 1)
      else mret tt
  end.

Definition GICDriver_init : M unit :=
  d ← gets g_gic_driver;
  kprintf "Initializing GIC Driver (Dist: 0x%llx, CPUIf: 0x%llx)...\n"
          [gicd_base_addr d; gicc_base_addr d];;
  gicd_write GICD_CTLR 0x00000000;;
  typer ← gicd_read GICD_TYPER;
  let n := wrap32 ((Z.land typer 0x1F + 1) * 32) in
  modify (set_gic (fun d =>
    {| gicd_base_addr := gicd_base_addr d;
       gicc_base_addr := gicc_base_addr d;
       handlers := handlers d;
       num_irq_lines := n |}));;
  kprintf "GICD_TYPER: 0x%x, Num IRQ lines: %u\n" [typer; n];;
  (if (n =? 0) || (MAX_IRQS * 8 <? n) then
     kprintf "Warning: GIC reports %u lines, clamping or check MAX_IRQS.\n" [n]
   else mret tt);;
  init_spi_loop (Z.to_nat MAX_IRQS) 32;;
  gicd_write GICD_CTLR 0x00000001;;
  gicc_write GICC_PMR 0xFF;;
  gicc_write GICC_BPR 0x03;;
  gicc_write GICC_CTLR 0x00000001;;
  kprintf "GIC Driver Initialized.\n" [].

Definition disable_cpu_interrupts : M unit := emit DisableCpuInterrupts.


Definition enable_irq (irq_num : Z) : M unit :=
  n ← gets (fun w => num_irq_lines (g_gic_driver w));
  if (n <=? irq_num) || (MAX_IRQS <=? irq_num) then
    kprintf "GIC: enable_irq: Invalid IRQ %u\n" [irq_num]
  else
    gicd_write (GICD_ISENABLER0 + (irq_num / 32) * 4)
               (wrap32 (Z.shiftl 1 (irq_num mod 32))).

Definition disable_irq (irq_num : Z) : M unit :=
  n ← gets (fun w => num_irq_lines (g_gic_driver w));
  if (n <=? irq_num) || (MAX_IRQS <=? irq_num) then
    kprintf "GIC: disable_irq: Invalid IRQ %u\n" [irq_num]
  else
    gicd_write (GICD_ICENABLER0 + (irq_num / 32) * 4)
               (wrap32 (Z.shiftl 1 (irq_num mod 32))).

Definition end_of_interrupt (irq_num : Z) : M unit :=
  gicc_write GICC_EOIR irq_num.

(** [GICDriver::register_handler] (gic.cpp:140): refuses a line beyond the
    table and a line whose slot is flagged; otherwise fills the slot. *)
Definition register_handler (irq_num h ctx : Z) : M bool :=
  if MAX_IRQS <=? irq_num then
    kprintf "GIC: register_handler: IRQ %u out of bounds for handler array (max %u)\n"
            [irq_num; MAX_IRQS - 1];;
    mret false
  else
    slot ← handler_slot irq_num;
    if is_registered slot then
      kprintf "GIC: register_handler: IRQ %u already has a handler.\n" [irq_num];;
      mret false
    else
      store_handler_slot irq_num
        {| handler := h; context := ctx; is_registered := true |};;
      mret true.

(** [GICDriver::unregister_handler] (gic.cpp:156). *)
Definition unregister_handler (irq_num : Z) : M bool :=
  if MAX_IRQS <=? irq_num then mret false
  else
    slot ← handler_slot irq_num;
    if negb (is_registered slot) then mret false
    else
      store_handler_slot irq_num
        {| handler := nullptr; context := nullptr; is_registered := false |};;
      mret true.

(** [Kernel::get_interrupt_controller]: the address of the one statically
    constructed driver. A pointer to a controller is [None] when null. *)
Inductive ControllerRef := the_gic_driver.

Definition get_interrupt_controller : option ControllerRef := Some the_gic_driver.

Section Kernel.

(** The code behind a function pointer that is not part of the modelled
    units: [invoke fn irq_num context] runs the function at address [fn]. It
    may change any part of the machine, and it may halt. *)
Variable invoke : Z -> Z -> Z -> M unit.

Variable ld : LinkMap.

(** What the core does with a system-register write: [msr_effect r v regs]
    is what reads return after [v] was written to [r]. *)
Variable msr_effect : SysReg -> Z -> (SysReg -> Z) -> SysReg -> Z.

Definition call (fn irq_num ctx : Z) : M unit :=
  emit (Call fn irq_num ctx);;
  invoke fn irq_num ctx.

(** [GICDriver::dispatch_interrupt] (gic.cpp:166). The argument is ignored;
    the ID comes from [GICC_IAR]. The slot is read once to decide on the
    call and once more, after the call, to decide on the end-of-interrupt. *)
Definition dispatch_interrupt (dummy_irq_num : Z) : M unit :=
  iar_val ← gicc_read GICC_IAR;
  let irq_id := Z.land iar_val 0x3FF in
  if (1020 <=? irq_id) && (irq_id <=? 1023) then
    kprintf "GIC: Spurious interrupt or special ID %u. Ignoring.\n" [irq_id];;
    if negb (irq_id =? 1023) then gicc_write GICC_EOIR irq_id else mret tt
  else
    n ← gets (fun w => num_irq_lines (g_gic_driver w));
    if (n <=? irq_id) && (irq_id <? 1020) then
      kprintf "GIC: IRQ ID %u out of expected range (max %u from TYPER).\n" [irq_id; n];;
      gicc_write GICC_EOIR irq_id
    else if MAX_IRQS <=? irq_id then
      kprintf "GIC: IRQ ID %u out of bounds for handler array (max %u).\n"
              [irq_id; MAX_IRQS - 1];;
      gicc_write GICC_EOIR irq_id
    else
      slot ← handler_slot irq_id;
      (if is_registered slot && negb (handler slot =? nullptr) then
         call (handler slot) irq_id (context slot)
       else
         kprintf "GIC: Unhandled IRQ %u\n" [irq_id]);;
      slot' ← handler_slot irq_id;
      if negb (is_registered slot') || (handler slot' =? nullptr) then
        gicc_write GICC_EOIR irq_id
      else mret tt.

(** The virtual call [ic->dispatch_interrupt]; the driver is the one
    implementation of the interface. *)
Definition ic_dispatch_interrupt (ic : ControllerRef) (irq_num : Z) : M unit :=
  match ic with the_gic_driver => dispatch_interrupt irq_num end.

(** ** [arch/arm/core/exceptions.cpp] *)

(** The body of [c_irq_handler] once [ic] holds the accessor's result. *)
Definition c_irq_handler_with (ic : option ControllerRef) : M unit :=
  match ic with
  | Some c => ic_dispatch_interrupt c 0
  | None => kprintf "IRQ: No interrupt controller available!\n" []
  end.

Definition c_irq_handler : M unit :=
  c_irq_handler_with get_interrupt_controller.

(** ** System registers *)

Definition mrs (r : SysReg) : M Z :=
  emit (Mrs r);;
  gets (fun w => wrap64 (sysreg w r)).

Definition msr (r : SysReg) (v : Z) : M unit :=
  emit (Msr r v);;
  modify (set_sysreg (msr_effect r v)).

(** ** [arch/arm/peripherals/timer.cpp] *)

Definition EL1_PHYSICAL_TIMER_IRQ : Z := 30.

Definition GenericTimer_ctor : GenericTimer :=
  {| user_handler := nullptr; user_context := nullptr;
     irq_number := EL1_PHYSICAL_TIMER_IRQ; current_interval_ticks := 0 |}.

Definition GenericTimer_get_timer_frequency_hz : M Z := mrs CNTFRQ_EL0.

Definition GenericTimer_set_control (enable imask : bool) : M unit :=
  let ctl_val := 0 in
  let ctl_val := if enable then Z.lor ctl_val (Z.shiftl 1 0) else ctl_val in
  let ctl_val := if imask then Z.lor ctl_val (Z.shiftl 1 1) else ctl_val in
  msr CNTP_CTL_EL0 ctl_val.

Definition GenericTimer_set_interval_ticks (ticks : Z) : M unit :=
  modify (set_timer (fun t =>
    {| user_handler := user_handler t; user_context := user_context t;
       irq_number := irq_number t; current_interval_ticks := ticks |}));;
  msr CNTP_TVAL_EL0 ticks.

(** [GenericTimer::init] (timer.cpp:60). The handler registered with the
    controller is the trampoline, with the timer object as its context. *)
Definition GenericTimer_init (frequency_hz h ctx : Z) : M unit :=
  if frequency_hz =? 0 then
    kprintf "GenericTimer: Cannot initialize with 0 Hz frequency.\n" []
  else
    modify (set_timer (fun t =>
      {| user_handler := h; user_context := ctx;
         irq_number := irq_number t;
         current_interval_ticks := current_interval_ticks t |}));;
    match get_interrupt_controller with
    | None =>
        kprintf "GenericTimer: Interrupt controller not available!\n" [];;
        panic (Some "Timer init failed: no IC."%string)
    | Some the_gic_driver =>
        irq ← gets (fun w => irq_number (global_el1_timer_instance w));
        ok ← register_handler irq (generic_timer_irq_trampoline ld)
               (global_el1_timer_instance_addr ld);
        if negb ok then
          kprintf "GenericTimer: Failed to register IRQ %u with GIC.\n" [irq];;
          panic (Some "Timer init failed: GIC registration."%string)
        else
          kprintf "GenericTimer: Registered handler for IRQ %u.\n" [irq];;
          counter_freq ← GenericTimer_get_timer_frequency_hz;
          if counter_freq =? 0 then
            kprintf "GenericTimer: Counter frequency (CNTFRQ_EL0) is 0! Cannot set timer.\n" [];;
            panic (Some "Timer init failed: CNTFRQ_EL0 is 0."%string)
          else
            kprintf "GenericTimer: CNTFRQ_EL0 = %llu Hz.\n" [counter_freq];;
            ticks ← (let ticks := counter_freq / frequency_hz in
                     if ticks =? 0 then
                       kprintf "GenericTimer: Calculated ticks are 0 (frequency too high or counter too slow).\n" [];;
                       mret 1
                     else mret ticks);
            kprintf "GenericTimer: Setting interval to %llu ticks for %u Hz.\n"
                    [ticks; frequency_hz];;
            GenericTimer_set_interval_ticks ticks;;
            GenericTimer_set_control true false;;
            enable_irq irq;;
            kprintf "GenericTimer initialized for %u Hz (IRQ %u).\n" [frequency_hz; irq]
    end.

Definition GenericTimer_stop : M unit :=
  GenericTimer_set_control false true;;
  match get_interrupt_controller with
  | Some the_gic_driver =>
      irq ← gets (fun w => irq_number (global_el1_timer_instance w));
      disable_irq irq
  | None => mret tt
  end.

(** [GenericTimer::handle_interrupt] (timer.cpp:121): re-arm or stop, then
    the user callback if any, then end-of-interrupt. *)
Definition GenericTimer_handle_interrupt : M unit :=
  ticks ← gets (fun w => current_interval_ticks (global_el1_timer_instance w));
  (if 0 <? ticks then msr CNTP_TVAL_EL0 ticks
   else GenericTimer_set_control false true);;
  t ← gets global_el1_timer_instance;
  (if negb (user_handler t =? nullptr) then
     call (user_handler t) (irq_number t) (user_context t)
   else mret tt);;
  match get_interrupt_controller with
  | Some the_gic_driver =>
      irq ← gets (fun w => irq_number (global_el1_timer_instance w));
      end_of_interrupt irq
  | None => mret tt
  end.


(** ** [arch/arm/core/mmu.h] *)

Definition PTE_VALID : Z := Z.shiftl 1 0.
Definition PTE_TABLE_OR_PAGE : Z := Z.shiftl 1 1.
Definition PTE_ATTR_INDX (idx : Z) : Z := Z.shiftl (Z.land idx 7) 2.
Definition PTE_AP_EL1_RW_EL0_NONE : Z := Z.shiftl 0 6.
Definition PTE_SH_INNER_SHAREABLE : Z := Z.shiftl 3 8.
Definition PTE_AF : Z := Z.shiftl 1 10.
Definition PTE_PXN : Z := Z.shiftl 1 53.
Definition PTE_UXN : Z := Z.shiftl 1 54.

Definition MAIR_IDX_DEVICE_NGNRNE : Z := 0.
Definition MAIR_IDX_NORMAL_NC : Z := 1.
Definition MAIR_IDX_NORMAL_C : Z := 2.

Definition MAIR_ATTR_DEVICE_NGNRNE : Z := 0x00.
Definition MAIR_ATTR_NORMAL_NC : Z := 0x44.
Definition MAIR_ATTR_NORMAL_C : Z := 0xFF.

Definition PAGE_TABLE_ENTRIES : Z := 512.
Definition PAGE_SIZE_4KB : Z := 4096.
Definition PAGE_SIZE_2MB : Z := 2 * 1024 * 1024.
Definition PAGE_SIZE_1GB : Z := 1 * 1024 * 1024 * 1024.

(** Output address of a level-2 block descriptor: bits 47:21. *)
Definition block_output_address (descriptor : Z) : Z :=
  Z.land descriptor 0x0000FFFFFFE00000.

(** ** [arch/arm/core/mmu.cpp] *)

Definition RPI4_PERIPHERAL_BASE_PHYS : Z := 0xFE000000.
Definition RPI4_PERIPHERAL_END_PHYS : Z := 0xFFFFFFFF.

(** The flags chosen by each of the three classification branches. *)
Definition device_flags (flags : Z) : Z :=
  let flags := Z.lor flags (PTE_ATTR_INDX MAIR_IDX_DEVICE_NGNRNE) in
  let flags := Z.lor flags PTE_AP_EL1_RW_EL0_NONE in
  Z.lor flags (Z.lor PTE_PXN PTE_UXN).

Definition kernel_image_flags (flags : Z) : Z :=
  let flags := Z.lor flags (PTE_ATTR_INDX MAIR_IDX_NORMAL_C) in
  let flags := Z.lor flags PTE_AP_EL1_RW_EL0_NONE in
  let flags := Z.land flags (not64 PTE_PXN) in
  Z.lor flags PTE_UXN.

Definition general_ram_flags (flags : Z) : Z :=
  let flags := Z.lor flags (PTE_ATTR_INDX MAIR_IDX_NORMAL_C) in
  let flags := Z.lor flags PTE_AP_EL1_RW_EL0_NONE in
  Z.lor flags (Z.lor PTE_PXN PTE_UXN).

Definition in_peripheral_window (current_pa : Z) : bool :=
  (RPI4_PERIPHERAL_BASE_PHYS <=? current_pa)
  && (wrap64 (current_pa + PAGE_SIZE_2MB - 1) <=? RPI4_PERIPHERAL_END_PHYS).

Definition overlaps_kernel_image (current_pa : Z) : bool :=
  ((KERNEL_START ld <=? current_pa) && (current_pa <? KERNEL_END ld))
  || ((KERNEL_START ld <=? wrap64 (current_pa + PAGE_SIZE_2MB - 1))
      && (wrap64 (current_pa + PAGE_SIZE_2MB - 1) <? KERNEL_END ld)).

(** Body of the first loop: the descriptor stored in [l2_page_table_0[i]]. *)
Definition l2_table_0_entry (i : Z) : Z :=
  let current_pa := wrap64 (i * PAGE_SIZE_2MB) in
  let flags := Z.lor (Z.lor PTE_VALID PTE_AF) PTE_SH_INNER_SHAREABLE in
  let flags :=
    if in_peripheral_window current_pa then device_flags flags
    else if overlaps_kernel_image current_pa then kernel_image_flags flags
    else general_ram_flags flags in
  Z.lor current_pa flags.

(** Body of the second loop: the descriptor stored in [l2_page_table_1[i]]. *)
Definition l2_table_1_entry (i : Z) : Z :=
  let va_base_for_this_table := PAGE_SIZE_1GB in
  let current_pa := wrap64 (va_base_for_this_table + wrap64 (i * PAGE_SIZE_2MB)) in
  let flags := Z.lor (Z.lor PTE_VALID PTE_AF) PTE_SH_INNER_SHAREABLE in
  let flags :=
    if in_peripheral_window current_pa then device_flags flags
    else general_ram_flags flags in
  Z.lor current_pa flags.

(** [for (i = first; n more iterations; ++i) table[i] = entry(i);] *)
Fixpoint fill_table (entry : Z -> Z) (n : nat) (i : Z) (table : list Z) : list Z :=
  match n with
  | O => table
  | S n' => fill_table entry n' (i + 1) (<[Z.to_nat i := entry i]> table)
  end.

Definition zeroed_table : list Z := replicate (Z.to_nat PAGE_TABLE_ENTRIES) 0.

(** [MMU::setup_page_tables] (mmu.cpp:32). *)
Definition MMU_setup_page_tables : M unit :=
  kprintf "MMU: Setting up page tables...\n" [];;
  modify (set_page_tables (fun _ =>
    {| l1_page_table := zeroed_table;
       l2_page_table_0 := zeroed_table;
       l2_page_table_1 := zeroed_table |}));;
  let l2_pt0_phys := l2_page_table_0_addr ld in
  let l2_pt1_phys := l2_page_table_1_addr ld in
  modify (set_page_tables (fun pt =>
    {| l1_page_table :=
         <[1%nat := Z.lor (Z.lor l2_pt1_phys PTE_VALID) PTE_TABLE_OR_PAGE]>
           (<[0%nat := Z.lor (Z.lor l2_pt0_phys PTE_VALID) PTE_TABLE_OR_PAGE]>
              (l1_page_table pt));
       l2_page_table_0 := l2_page_table_0 pt;
       l2_page_table_1 := l2_page_table_1 pt |}));;
  kprintf "MMU: L1 table populated (0: -> L2_0@0x%llx, 1: -> L2_1@0x%llx)\n"
          [l2_pt0_phys; l2_pt1_phys];;
  modify (set_page_tables (fun pt =>
    {| l1_page_table := l1_page_table pt;
       l2_page_table_0 :=
         fill_table l2_table_0_entry (Z.to_nat PAGE_TABLE_ENTRIES) 0 (l2_page_table_0 pt);
       l2_page_table_1 := l2_page_table_1 pt |}));;
  kprintf "MMU: L2_TABLE_0 (0GB-1GB) populated.\n" [];;
  modify (set_page_tables (fun pt =>
    {| l1_page_table := l1_page_table pt;
       l2_page_table_0 := l2_page_table_0 pt;
       l2_page_table_1 :=
         fill_table l2_table_1_entry (Z.to_nat PAGE_TABLE_ENTRIES) 0 (l2_page_table_1 pt) |}));;
  kprintf "MMU: L2_TABLE_1 (1GB-2GB) populated.\n" [].

Definition MMU_configure_translation_control : M unit :=
  kprintf "MMU: Configuring TCR_EL1 and MAIR_EL1...\n" [];;
  let mair_val := 0 in
  let mair_val := Z.lor mair_val (Z.shiftl MAIR_ATTR_DEVICE_NGNRNE (MAIR_IDX_DEVICE_NGNRNE * 8)) in
  let mair_val := Z.lor mair_val (Z.shiftl MAIR_ATTR_NORMAL_NC (MAIR_IDX_NORMAL_NC * 8)) in
  let mair_val := Z.lor mair_val (Z.shiftl MAIR_ATTR_NORMAL_C (MAIR_IDX_NORMAL_C * 8)) in
  msr MAIR_EL1 mair_val;;
  kprintf "MMU: MAIR_EL1 set to 0x%llx\n" [mair_val];;
  let tcr_val := 0 in
  let tcr_val := Z.lor tcr_val (Z.shiftl 16 0) in
  let tcr_val := Z.lor tcr_val (Z.shiftl 0 14) in
  let tcr_val := Z.lor tcr_val (Z.shiftl 3 12) in
  let tcr_val := Z.lor tcr_val (Z.shiftl 1 10) in
  let tcr_val := Z.lor tcr_val (Z.shiftl 1 8) in
  let tcr_val := Z.lor tcr_val (Z.shiftl 1 23) in
  let tcr_val := Z.lor tcr_val (Z.shiftl 2 32) in
  msr TCR_EL1 tcr_val;;
  kprintf "MMU: TCR_EL1 set to 0x%llx\n" [tcr_val];;
  let l1_pt_phys := l1_page_table_addr ld in
  msr TTBR0_EL1 l1_pt_phys;;
  kprintf "MMU: TTBR0_EL1 set to 0x%llx (L1 Table Physical Address)\n" [l1_pt_phys].

(** The value [enable_mmu_and_caches] computes from the [SCTLR_EL1] it read. *)
Definition sctlr_with_mmu_and_caches (sctlr_val : Z) : Z :=
  let sctlr_val := Z.lor sctlr_val (Z.shiftl 1 0) in
  let sctlr_val := Z.lor sctlr_val (Z.shiftl 1 2) in
  Z.lor sctlr_val (Z.shiftl 1 12).

(** [MMU::enable_mmu_and_caches] (mmu.cpp:169). [SCTLR_EL1] is read a second
    time for the log line, written, and read back for the check. *)
Definition MMU_enable_mmu_and_caches : M unit :=
  kprintf "MMU: Enabling MMU and caches...\n" [];;
  emit DsbIsh;; emit Isb;;
  emit TlbiVmalle1is;;
  emit DsbIsh;; emit Isb;;
  sctlr_val ← mrs SCTLR_EL1;
  let sctlr_val := sctlr_with_mmu_and_caches sctlr_val in
  r ← mrs SCTLR_EL1;
  kprintf "MMU: Writing 0x%llx to SCTLR_EL1 (current: read 0x%llx before modification)\n"
          [sctlr_val; r];;
  msr SCTLR_EL1 sctlr_val;;
  emit Isb;;
  kprintf "MMU: MMU and Caches Enabled (SCTLR_EL1 written).\n" [];;
  final_sctlr ← mrs SCTLR_EL1;
  kprintf "MMU: SCTLR_EL1 after enable: 0x%llx\n" [final_sctlr];;
  if Z.land final_sctlr 1 =? 0 then panic (Some "MMU FAILED TO ENABLE!"%string)
  else mret tt.

Definition MMU_init_and_enable : M unit :=
  sctlr_val ← mrs SCTLR_EL1;
  (if negb (Z.land sctlr_val 1 =? 0) then
     kprintf "MMU: Warning - MMU already enabled (SCTLR_EL1.M = 1).\n" []
   else mret tt);;
  MMU_setup_page_tables;;
  MMU_configure_translation_control;;
  MMU_enable_mmu_and_caches;;
  kprintf "MMU Initialization Complete.\n" [].

End Kernel.

(** ** The machine at reset *)

(** The static objects as their constructors leave them ([.bss] arrays are
    zero), quiet devices, nothing done yet. *)
Definition boot_world : World :=
  {| g_gic_driver := GICDriver_ctor GICD_BASE GICC_BASE;
     global_el1_timer_instance := GenericTimer_ctor;
     page_tables :=
       {| l1_page_table := zeroed_table;
          l2_page_table_0 := zeroed_table;
          l2_page_table_1 := zeroed_table |};
     mmio := fun _ => 0;
     sysreg := fun _ => 0;
     trace := [] |}.

(** ** Reading the trace *)

Definition iar_addr (w : World) : Z :=
  wrap64 (gicc_base_addr (g_gic_driver w) + GICC_IAR).

Definition eoir_addr (w : World) : Z :=
  wrap64 (gicc_base_addr (g_gic_driver w) + GICC_EOIR).

(** The interrupt ID the CPU interface hands out at the next acknowledge. *)
Definition pending_irq_id (w : World) : Z :=
  Z.land (wrap32 (mmio w (iar_addr w))) 0x3FF.

(** The values written to the register at [addr], in order. *)
Definition writes_to (addr : Z) (evs : list Event) : list Z :=
  omap (fun e => match e with
                 | MmioWrite a v => if a =? addr then Some v else None
                 | _ => None
                 end) evs.

(** The calls made through function pointers, in order. *)
Definition calls_in (evs : list Event) : list (Z * Z * Z) :=
  omap (fun e => match e with
                 | Call fn irq ctx => Some (fn, irq, ctx)
                 | _ => None
                 end) evs.

(** The values written to the system register [r], in order. *)
Definition msr_writes (r : SysReg) (evs : list Event) : list Z :=
  omap (fun e => match e with
                 | Msr r' v => if decide (r' = r) then Some v else None
                 | _ => None
                 end) evs.

(** The C++ array type fixes the number of slots. *)
Definition table_ok (d : GICDriver) : Prop :=
  length (handlers d) = Z.to_nat MAX_IRQS.

Definition empty_slot : InterruptRegistration :=
  {| handler := nullptr; context := nullptr; is_registered := false |}.

Definition slot_of (w : World) (irq_num : Z) : InterruptRegistration :=
  handlers (g_gic_driver w) !!! Z.to_nat irq_num.

(** A line has a handler when its slot is flagged and the pointer is not
    null: the test [dispatch_interrupt] makes. *)
Definition has_handler (w : World) (irq_num : Z) : bool :=
  is_registered (slot_of w irq_num) && negb (handler (slot_of w irq_num) =? nullptr).

(** ** Clients of the driver *)

(** What a client may call on the driver, apart from [dispatch_interrupt]
    (which runs handlers, that is, arbitrary code). *)
Inductive DriverCall :=
  | DoInit
  | DoEnableIrq (irq_num : Z)
  | DoDisableIrq (irq_num : Z)
  | DoEndOfInterrupt (irq_num : Z)
  | DoRegisterHandler (irq_num h ctx : Z)
  | DoUnregisterHandler (irq_num : Z).

Definition do_call (c : DriverCall) : M unit :=
  match c with
  | DoInit => GICDriver_init
  | DoEnableIrq irq_num => enable_irq irq_num
  | DoDisableIrq irq_num => disable_irq irq_num
  | DoEndOfInterrupt irq_num => end_of_interrupt irq_num
  | DoRegisterHandler irq_num h ctx => register_handler irq_num h ctx;; mret tt
  | DoUnregisterHandler irq_num => unregister_handler irq_num;; mret tt
  end.

Fixpoint do_calls (cs : list DriverCall) : M unit :=
  match cs with
  | [] => mret tt
  | c :: cs' => do_call c;; do_calls cs'
  end.

(** The line number passed, an [unsigned int]. *)
Definition line_of (c : DriverCall) : Z :=
  match c with
  | DoInit => 0
  | DoEnableIrq irq_num | DoDisableIrq irq_num | DoEndOfInterrupt irq_num
  | DoRegisterHandler irq_num _ _ | DoUnregisterHandler irq_num => irq_num
  end.

Definition unregisters (line : Z) (c : DriverCall) : bool :=
  match c with
  | DoUnregisterHandler irq_num => irq_num =? line
  | _ => false
  end.

(** The table has its 256 slots and [line] holds [r]. *)
Definition line_holds (line : Z) (r : InterruptRegistration) (w : World) : Prop :=
  table_ok (g_gic_driver w) /\ slot_of w line = r.

(** A computation that returns and leaves the handler table as it was. *)
Definition keeps_handlers {A} (m : M A) : Prop :=
  forall w, exists a w',
    m w = Ret a w' /\ handlers (g_gic_driver w') = handlers (g_gic_driver w).

(** The flags every block descriptor starts from. *)
Definition block_flags : Z := Z.lor (Z.lor PTE_VALID PTE_AF) PTE_SH_INNER_SHAREABLE.

(** ** A controller with 64 lines and line 30 pending *)

Definition gic_with_64_lines (table : list InterruptRegistration) : GICDriver :=
  {| gicd_base_addr := GICD_BASE; gicc_base_addr := GICC_BASE;
     handlers := table; num_irq_lines := 64 |}.

(** The machine at reset, except that the driver is [d] and the CPU
    interface answers [id] to a read of [GICC_IAR]. *)
Definition world_with_pending (d : GICDriver) (id : Z) : World :=
  {| g_gic_driver := d;
     global_el1_timer_instance := GenericTimer_ctor;
     page_tables := page_tables boot_world;
     mmio := fun a => if a =? GICC_BASE + GICC_IAR then id else 0;
     sysreg := fun _ => 0;
     trace := [] |}.

Definition line30_unhandled : World :=
  world_with_pending (gic_with_64_lines (handlers (GICDriver_ctor GICD_BASE GICC_BASE))) 30.

Definition line30_handled : World :=
  put_slot 30 {| handler := 0x1000; context := 0x1008; is_registered := true |}
    line30_unhandled.

(** The machine at reset in front of a distributor that reports 64 lines
    ([GICD_TYPER] reads 1) and a CPU interface with line 30 pending. *)
Definition world_with_mock_gic : World :=
  {| g_gic_driver := GICDriver_ctor GICD_BASE GICC_BASE;
     global_el1_timer_instance := GenericTimer_ctor;
     page_tables := page_tables boot_world;
     mmio := fun a => if a =? GICD_BASE + GICD_TYPER then 1
                      else if a =? GICC_BASE + GICC_IAR then 30 else 0;
     sysreg := fun _ => 0;
     trace := [] |}.

(** A handler that signals end-of-interrupt itself and returns. *)
Definition acking_handler (fn irq_num ctx : Z) : M unit := end_of_interrupt irq_num.

(** A handler that does nothing and returns. *)
Definition idle_handler (fn irq_num ctx : Z) : M unit := mret tt.

(** A handler that unregisters its own line and returns. *)
Definition one_shot_handler (fn irq_num ctx : Z) : M unit :=
  unregister_handler irq_num;; mret tt.


(** Section 8 of the specification, end to end: bring the controller up,
    register a handler on line 30, enable the line, take the interrupt. *)
Definition scenario_line_30 : M unit :=
  GICDriver_init;;
  register_handler 30 0x1000 0x1008;;
  enable_irq 30;;
  dispatch_interrupt acking_handler 0.

(** ** A linked image and a core whose registers hold what is written *)

Definition sample_link_map : LinkMap :=
  {| KERNEL_START := 0x80000;
     KERNEL_END := 0x200000;
     l1_page_table_addr := 0x100000;
     l2_page_table_0_addr := 0x101000;
     l2_page_table_1_addr := 0x102000;
     generic_timer_irq_trampoline := 0x90000;
     global_el1_timer_instance_addr := 0x180000 |}.

Definition latching_msr (r : SysReg) (v : Z) (regs : SysReg -> Z) : SysReg -> Z :=
  fun r' => if decide (r' = r) then v else regs r'.

(** The machine at reset with a counter running at [cntfrq] Hz. *)
Definition world_with_counter (cntfrq : Z) : World :=
  set_sysreg (fun _ r => match r with CNTFRQ_EL0 => cntfrq | _ => 0 end) boot_world.

(** The machine at reset, except that a user callback is stored in the
    timer object while its reload value is still zero. *)
Definition world_with_callback_no_reload : World :=
  set_timer (fun t =>
    {| user_handler := 0x3000; user_context := 0x3008;
       irq_number := irq_number t; current_interval_ticks := 0 |}) boot_world.

(** ** Hardware accesses in a trace *)

Definition is_hardware_access (e : Event) : bool :=
  match e with
  | MmioRead _ | MmioWrite _ _ | Mrs _ | Msr _ _
  | DsbIsh | Isb | TlbiVmalle1is | EnableCpuInterrupts | DisableCpuInterrupts => true
  | Kprintf _ _ | ConsolePrint _ | ConsolePrintln _ | Call _ _ _ => false
  end.

(** The trace without its log lines and call marks. *)
Definition hardware_accesses (evs : list Event) : list Event :=
  omap (fun e => if is_hardware_access e then Some e else None) evs.

(** ** The timer's interrupt path *)

Section InterruptPath.

(** The code behind the function pointers of the kernel's clients. *)
Variable user_code : Z -> Z -> Z -> M unit.
Variable ld : LinkMap.
Variable msr_effect : SysReg -> Z -> (SysReg -> Z) -> SysReg -> Z.

(** [generic_timer_irq_trampoline] (timer.cpp:25): casts the context back to
    the timer and runs its [handle_interrupt]. The kernel has one
    [GenericTimer], the global instance [init] registers as context; any
    other non-null context is no object of the model and is left to
    [user_code]. The callback the timer calls is client code, run by
    [user_code]; a callback that is the trampoline itself is outside the
    model. *)
Definition generic_timer_irq_trampoline_code (irq_num ctx : Z) : M unit :=
  if ctx =? nullptr then mret tt
  else if ctx =? global_el1_timer_instance_addr ld then
    GenericTimer_handle_interrupt user_code msr_effect
  else user_code (generic_timer_irq_trampoline ld) irq_num ctx.

(** What a call through a function pointer runs: the trampoline at its own
    address, client code anywhere else. *)
Definition code_at (fn irq_num ctx : Z) : M unit :=
  if fn =? generic_timer_irq_trampoline ld then
    generic_timer_irq_trampoline_code irq_num ctx
  else user_code fn irq_num ctx.

End InterruptPath.

(** A controller with 64 lines, line 30 pending, and a counter at 1 MHz:
    the machine on which the timer is brought up at 100 Hz. *)
Definition world_before_timer_init : World :=
  set_sysreg (fun _ r => match r with CNTFRQ_EL0 => 1000000 | _ => 0 end) line30_unhandled.

Definition world_with_timer_running : World :=
  final (GenericTimer_init sample_link_map latching_msr 100 0x3000 0x3008
           world_before_timer_init).

(** ** Distributor registers of a line *)

(** Address of the distributor register at [offset]. *)
Definition gicd_addr (w : World) (offset : Z) : Z :=
  wrap64 (gicd_base_addr (g_gic_driver w) + offset).

(** What the distributor answers to a read at [offset]. *)
Definition gicd_value (w : World) (offset : Z) : Z :=
  wrap32 (mmio w (gicd_addr w offset)).

(** The configuration word of a line and, in it, the bit that makes the
    line edge-triggered. *)
Definition icfgr_offset (irq_num : Z) : Z := GICD_ICFGR0 + irq_num / 16 * 4.
Definition icfgr_bit (irq_num : Z) : Z := irq_num mod 16 * 2 + 1.

(** The target word of a line and, in it, the first bit of the line's byte. *)
Definition itargetsr_offset (spi_num : Z) : Z := GICD_ITARGETSR0 + spi_num / 4 * 4.
Definition itargetsr_shift (spi_num : Z) : Z := spi_num mod 4 * 8.

(** A computation that returns having done nothing but append events to
    the trace, each of which satisfies [P]. *)
Definition appends (P : GICDriver -> Event -> Prop) {A} (m : M A) : Prop :=
  forall w, exists a evs,
    m w = Ret a (record evs w) /\ Forall (P (g_gic_driver w)) evs.

(** A write to one of the set-enable registers of the distributor at
    [GICD_BASE]. *)
Definition writes_set_enable (e : Event) : bool :=
  match e with
  | MmioWrite a _ => (GICD_BASE + GICD_ISENABLER0 <=? a) && (a <? GICD_BASE + GICD_ICENABLER0)
  | _ => false
  end.

(** The driver is the one the kernel constructs, at the GIC-400's bases. *)
Definition at_platform_bases (d : GICDriver) : Prop :=
  gicd_base_addr d = GICD_BASE /\ gicc_base_addr d = GICC_BASE.

(** An event that is no write to a set-enable register, on the platform's
    driver. *)
Definition leaves_lines_masked (d : GICDriver) (e : Event) : Prop :=
  at_platform_bases d -> writes_set_enable e = false.



(** ** Fields of a descriptor *)

(** The AttrIndx field, bits 4:2: the index [PTE_ATTR_INDX] stores. *)
Definition attr_indx (descriptor : Z) : Z := Z.land (Z.shiftr descriptor 2) 7.

(** The attribute byte [MAIR_EL1] holds for index [idx]. *)
Definition mair_attr (mair_val idx : Z) : Z := Z.land (Z.shiftr mair_val (idx * 8)) 0xFF.

(** An image of half a megabyte loaded at [0x80000]: it begins after the
    first byte of the first 2 MiB block and ends before that block's last. *)
Definition small_image_link_map : LinkMap :=
  {| KERNEL_START := 0x80000;
     KERNEL_END := 0x100000;
     l1_page_table_addr := 0xC0000;
     l2_page_table_0_addr := 0xC1000;
     l2_page_table_1_addr := 0xC2000;
     generic_timer_irq_trampoline := 0x90000;
     global_el1_timer_instance_addr := 0xB0000 |}.


(** ** [lib/kstd/cstring.cpp]: the memory functions *)

(** Memory as the functions see it: one [unsigned char] per address.
    Pointers are addresses; [p[i]] is the byte at [p + i]. *)
Definition Memory := Z -> Z.

Definition store_byte (mem : Memory) (addr value : Z) : Memory :=
  fun a => if a =? addr then value else mem a.

(** [for (i = first; n more iterations; ++i) d[i] = val;] *)
Fixpoint kmemset_loop (n : nat) (d val i : Z) (mem : Memory) : Memory :=
  match n with
  | O => mem
  | S n' => kmemset_loop n' d val (i + 1) (store_byte mem (d + i) val)
  end.

(** [kmemset] (cstring.cpp:39): the value is converted to [unsigned char];
    the result is [dest]. *)
Definition kmemset (dest ch count : Z) (mem : Memory) : Z * Memory :=
  let val := ch mod 256 in
  (dest, kmemset_loop (Z.to_nat count) dest val 0 mem).

(** [for (i = first; n more iterations; ++i) d[i] = s[i];] *)
Fixpoint copy_forwards (n : nat) (d s i : Z) (mem : Memory) : Memory :=
  match n with
  | O => mem
  | S n' => copy_forwards n' d s (i + 1) (store_byte mem (d + i) (mem (s + i)))
  end.

(** [for (i = n; i > 0; --i) d[i - 1] = s[i - 1];] *)
Fixpoint copy_backwards (n : nat) (d s : Z) (mem : Memory) : Memory :=
  match n with
  | O => mem
  | S n' =>
      copy_backwards n' d s
        (store_byte mem (d + Z.of_nat n') (mem (s + Z.of_nat n')))
  end.

(** [kmemmove] (cstring.cpp:5). *)
Definition kmemmove (dest src count : Z) (mem : Memory) : Z * Memory :=
  if dest =? src then (dest, mem)
  else if dest <? src then (dest, copy_forwards (Z.to_nat count) dest src 0 mem)
  else (dest, copy_backwards (Z.to_nat count) dest src mem).

(** [kmemcpy] (cstring.cpp:27): always forwards. *)
Definition kmemcpy (dest src count : Z) (mem : Memory) : Z * Memory :=
  (dest, copy_forwards (Z.to_nat count) dest src 0 mem).

Fixpoint kmemcmp_loop (n : nat) (l r i : Z) (mem : Memory) : Z :=
  match n with
  | O => 0
  | S n' =>
      if mem (l + i) <? mem (r + i) then -1
      else if mem (r + i) <? mem (l + i) then 1
      else kmemcmp_loop n' l r (i + 1) mem
  end.

(** [kmemcmp] (cstring.cpp:48). *)
Definition kmemcmp (lhs rhs count : Z) (mem : Memory) : Z :=
  kmemcmp_loop (Z.to_nat count) lhs rhs 0 mem.

(** Sixteen bytes at [0x1000] holding [1, 2, ..., 16]; zero elsewhere. *)
Definition sample_memory : Memory :=
  fun a => if (0x1000 <=? a) && (a <? 0x1010) then a - 0x1000 + 1 else 0.

(** * Properties *)

(** Unfolds the monadic plumbing, leaving the machine state explicit. *)
Ltac run :=
  cbv beta iota zeta delta
    [mbind mret M_bind M_ret gets modify emit kprintf handler_slot
     store_handler_slot gicc_write gicc_read gicd_write gicd_read
     end_of_interrupt call mrs msr].

(** Reads a field through the updates made to the machine state. *)
Ltac simpl_world :=
  cbn [record put_slot set_gic set_timer set_sysreg set_page_tables
       g_gic_driver global_el1_timer_instance page_tables mmio sysreg trace
       gicd_base_addr gicc_base_addr handlers num_irq_lines
       user_handler user_context irq_number current_interval_ticks].

Lemma world_ext (w1 w2 : World) :
  g_gic_driver w1 = g_gic_driver w2 ->
  global_el1_timer_instance w1 = global_el1_timer_instance w2 ->
  page_tables w1 = page_tables w2 ->
  mmio w1 = mmio w2 ->
  sysreg w1 = sysreg w2 ->
  trace w1 = trace w2 ->
  w1 = w2.
Proof. destruct w1, w2; cbn. intros; subst; reflexivity. Qed.

(** Two outcomes with the same result and, field by field, the same state. *)
Ltac same_world :=
  lazymatch goal with
  | |- Ret _ _ = Ret _ _ => f_equal
  | |- Halt _ = Halt _ => f_equal
  | |- _ => idtac
  end;
  apply world_ext; simpl_world; rewrite <- ?app_assoc; reflexivity.

(** Reads calls and register writes off an extended trace. *)
Ltac trace_facts :=
  unfold calls_in, writes_to, msr_writes, record; cbn [trace];
  rewrite ?omap_app; cbn [omap list_omap app];
  rewrite ?Z.eqb_refl, ?app_nil_r; auto.

(** ** The handler table *)

Lemma table_ok_ctor dist_base cpu_if_base :
  table_ok (GICDriver_ctor dist_base cpu_if_base).
Proof. unfold table_ok, GICDriver_ctor. cbn [handlers]. apply length_replicate. Qed.

Lemma ctor_slot_empty dist_base cpu_if_base (irq_num : Z) :
  0 <= irq_num < MAX_IRQS ->
  handlers (GICDriver_ctor dist_base cpu_if_base) !!! Z.to_nat irq_num = empty_slot.
Proof.
  intros H. unfold GICDriver_ctor. cbn [handlers].
  apply lookup_total_replicate_2. unfold MAX_IRQS in *. lia.
Qed.

Lemma register_handler_taken w irq_num h ctx :
  irq_num < MAX_IRQS ->
  is_registered (slot_of w irq_num) = true ->
  register_handler irq_num h ctx w
  = Ret false
      (record [Kprintf "GIC: register_handler: IRQ %u already has a handler.\n" [irq_num]] w).
Proof.
  intros Hlt Hreg. unfold register_handler.
  destruct (Z.leb_spec MAX_IRQS irq_num) as [Hge|_]; [lia|].
  run. unfold slot_of in Hreg. rewrite Hreg. reflexivity.
Qed.

Lemma register_handler_free w irq_num h ctx :
  irq_num < MAX_IRQS ->
  is_registered (slot_of w irq_num) = false ->
  register_handler irq_num h ctx w
  = Ret true
      (put_slot irq_num {| handler := h; context := ctx; is_registered := true |} w).
Proof.
  intros Hlt Hreg. unfold register_handler.
  destruct (Z.leb_spec MAX_IRQS irq_num) as [Hge|_]; [lia|].
  run. unfold slot_of in Hreg. rewrite Hreg. reflexivity.
Qed.

Lemma register_handler_true_inv w irq_num h ctx w1 :
  register_handler irq_num h ctx w = Ret true w1 ->
  irq_num < MAX_IRQS
  /\ is_registered (slot_of w irq_num) = false
  /\ w1 = put_slot irq_num {| handler := h; context := ctx; is_registered := true |} w.
Proof.
  unfold register_handler.
  destruct (Z.leb_spec MAX_IRQS irq_num) as [Hge|Hlt].
  - run. discriminate.
  - run. fold (slot_of w irq_num).
    destruct (is_registered (slot_of w irq_num)) eqn:Hreg; [discriminate|].
    intros [= <-]. auto.
Qed.

Lemma slot_after_put w irq_num r :
  table_ok (g_gic_driver w) ->
  irq_num < MAX_IRQS ->
  slot_of (put_slot irq_num r w) irq_num = r
  /\ table_ok (g_gic_driver (put_slot irq_num r w)).
Proof.
  unfold table_ok. intros Hok Hrange.
  unfold slot_of, put_slot, set_gic; cbn [g_gic_driver handlers]. split.
  - apply list_lookup_total_insert_eq. rewrite Hok. unfold MAX_IRQS in *. lia.
  - rewrite length_insert. exact Hok.
Qed.

Lemma unregister_handler_taken w irq_num :
  irq_num < MAX_IRQS ->
  is_registered (slot_of w irq_num) = true ->
  unregister_handler irq_num w = Ret true (put_slot irq_num empty_slot w).
Proof.
  intros Hlt Hreg. unfold unregister_handler.
  destruct (Z.leb_spec MAX_IRQS irq_num) as [Hge|_]; [lia|].
  run. unfold slot_of in Hreg. rewrite Hreg. reflexivity.
Qed.

(** *** Calls that leave the table alone *)

Lemma keeps_ret {A} (a : A) : keeps_handlers (mret a).
Proof. intros w. exists a, w. split; reflexivity. Qed.

Lemma keeps_bind {A B} (m : M A) (f : A -> M B) :
  keeps_handlers m -> (forall a, keeps_handlers (f a)) -> keeps_handlers (m ≫= f).
Proof.
  intros Hm Hf w. destruct (Hm w) as (a & w1 & Hrun & Hsame).
  destruct (Hf a w1) as (b & w2 & Hrun' & Hsame').
  exists b, w2. unfold mbind, M_bind. rewrite Hrun, Hrun'.
  split; [reflexivity | congruence].
Qed.

Lemma keeps_gets {A} (f : World -> A) : keeps_handlers (gets f).
Proof. intros w. exists (f w), w. split; reflexivity. Qed.

Lemma keeps_emit e : keeps_handlers (emit e).
Proof. intros w. eexists _, _. split; reflexivity. Qed.

Lemma keeps_kprintf fmt args : keeps_handlers (kprintf fmt args).
Proof. apply keeps_emit. Qed.

Lemma keeps_if {A} (b : bool) (m1 m2 : M A) :
  keeps_handlers m1 -> keeps_handlers m2 -> keeps_handlers (if b then m1 else m2).
Proof. destruct b; auto. Qed.

Create HintDb keeps.
#[local] Hint Resolve keeps_ret keeps_gets keeps_emit keeps_kprintf : keeps.

(** Walks down a computation built from binds, conditionals and the
    primitives above. *)
Ltac keeps :=
  repeat first
    [ apply keeps_bind; [|intros ?]
    | apply keeps_if
    | solve [auto with keeps]
    | progress cbv zeta ].

Lemma keeps_gicd_write offset value : keeps_handlers (gicd_write offset value).
Proof. unfold gicd_write. keeps. Qed.

Lemma keeps_gicd_read offset : keeps_handlers (gicd_read offset).
Proof. unfold gicd_read. keeps. Qed.

Lemma keeps_gicc_write offset value : keeps_handlers (gicc_write offset value).
Proof. unfold gicc_write. keeps. Qed.

#[local] Hint Resolve keeps_gicd_write keeps_gicd_read keeps_gicc_write : keeps.

Lemma keeps_set_irq_target_cpu0 spi_num : keeps_handlers (set_irq_target_cpu0 spi_num).
Proof. unfold set_irq_target_cpu0. keeps. Qed.

Lemma keeps_configure_irq_trigger irq_num edge :
  keeps_handlers (configure_irq_trigger irq_num edge).
Proof. unfold configure_irq_trigger. keeps. Qed.

#[local] Hint Resolve keeps_set_irq_target_cpu0 keeps_configure_irq_trigger : keeps.

Lemma keeps_init_spi_loop fuel i : keeps_handlers (init_spi_loop fuel i).
Proof.
  revert i. induction fuel as [|fuel IH]; intros i; cbn [init_spi_loop]; keeps.
Qed.

#[local] Hint Resolve keeps_init_spi_loop : keeps.

Lemma keeps_GICDriver_init : keeps_handlers GICDriver_init.
Proof.
  unfold GICDriver_init. keeps.
  intros w. eexists _, _. split; reflexivity.
Qed.

Lemma keeps_enable_irq irq_num : keeps_handlers (enable_irq irq_num).
Proof. unfold enable_irq. keeps. Qed.

Lemma keeps_disable_irq irq_num : keeps_handlers (disable_irq irq_num).
Proof. unfold disable_irq. keeps. Qed.

Lemma keeps_end_of_interrupt irq_num : keeps_handlers (end_of_interrupt irq_num).
Proof. unfold end_of_interrupt. keeps. Qed.

(** The loop of [init] leaves by its own test: once the fuel covers the
    distance to [MAX_IRQS], more fuel changes nothing. *)
Lemma init_spi_loop_fuel fuel fuel' i w :
  (Z.to_nat (MAX_IRQS - i) <= fuel)%nat ->
  (Z.to_nat (MAX_IRQS - i) <= fuel')%nat ->
  init_spi_loop fuel i w = init_spi_loop fuel' i w.
Proof.
  revert fuel' i w. induction fuel as [|fuel IH]; intros fuel' i w Hf Hf'.
  - assert (Hi : (i <? MAX_IRQS) = false) by (apply Z.ltb_ge; lia).
    destruct fuel' as [|fuel']; [reflexivity|].
    cbn [init_spi_loop]. run. rewrite Hi, andb_false_r. reflexivity.
  - destruct fuel' as [|fuel'].
    + assert (Hi : (i <? MAX_IRQS) = false) by (apply Z.ltb_ge; lia).
      cbn [init_spi_loop]. run. rewrite Hi, andb_false_r. reflexivity.
    + cbn [init_spi_loop]. run.
      destruct (i <? num_irq_lines (g_gic_driver w)); [|reflexivity].
      destruct (Z.ltb_spec i MAX_IRQS) as [Hlt|_]; [|reflexivity].
      cbn [andb].
      destruct (configure_irq_trigger _ _ _) as [[] w1|]; [|reflexivity].
      destruct (set_irq_target_cpu0 _ _) as [[] w2|]; [|reflexivity].
      apply IH; lia.
Qed.

(** *** A registered line stays registered *)

Lemma line_holds_same_table line r w w' :
  handlers (g_gic_driver w') = handlers (g_gic_driver w) ->
  line_holds line r w -> line_holds line r w'.
Proof.
  unfold line_holds, table_ok, slot_of. intros ->. auto.
Qed.

Lemma line_holds_put_other line r irq_num r' w :
  0 <= line -> 0 <= irq_num -> irq_num <> line ->
  line_holds line r w -> line_holds line r (put_slot irq_num r' w).
Proof.
  unfold line_holds, table_ok, slot_of, put_slot, set_gic.
  cbn [g_gic_driver handlers]. intros Hl Hi Hne [Hok Hslot]. split.
  - rewrite length_insert. exact Hok.
  - rewrite list_lookup_total_insert_ne by lia. exact Hslot.
Qed.

(** Any call other than [unregister_handler(line)] returns and leaves a
    registered [line] as it is. *)
Lemma do_call_keeps_line line h ctx c w :
  0 <= line -> 0 <= line_of c -> unregisters line c = false ->
  line_holds line {| handler := h; context := ctx; is_registered := true |} w ->
  exists w',
    do_call c w = Ret tt w'
    /\ line_holds line {| handler := h; context := ctx; is_registered := true |} w'.
Proof.
  intros Hline Hc Hun Hw.
  assert (Hkept : forall m : M unit,
             keeps_handlers m ->
             exists w', m w = Ret tt w'
                        /\ line_holds line
                             {| handler := h; context := ctx; is_registered := true |} w').
  { intros m Hm. destruct (Hm w) as ([] & w' & Hrun & Hsame).
    exists w'. split; [exact Hrun|]. eapply line_holds_same_table; eauto. }
  destruct c as [|i|i|i|i h' ctx'|i]; cbn [do_call line_of unregisters] in *.
  - apply Hkept, keeps_GICDriver_init.
  - apply Hkept, keeps_enable_irq.
  - apply Hkept, keeps_disable_irq.
  - apply Hkept, keeps_end_of_interrupt.
  - unfold mbind, M_bind, mret, M_ret.
    destruct (Z.leb_spec MAX_IRQS i) as [Hge|Hlt].
    + unfold register_handler. destruct (Z.leb_spec MAX_IRQS i); [|lia].
      run. eexists. split; [reflexivity|].
      eapply line_holds_same_table; [|exact Hw]. reflexivity.
    + destruct (is_registered (slot_of w i)) eqn:Hreg.
      * rewrite register_handler_taken by assumption.
        eexists. split; [reflexivity|].
        eapply line_holds_same_table; [|exact Hw]. reflexivity.
      * rewrite register_handler_free by assumption.
        eexists. split; [reflexivity|].
        apply line_holds_put_other; try assumption.
        intros ->. destruct Hw as [_ Hslot]. rewrite Hslot in Hreg. discriminate.
  - apply Z.eqb_neq in Hun. unfold mbind, M_bind, mret, M_ret.
    destruct (Z.leb_spec MAX_IRQS i) as [Hge|Hlt].
    + unfold unregister_handler. destruct (Z.leb_spec MAX_IRQS i); [|lia].
      run. eexists. split; [reflexivity|]. exact Hw.
    + destruct (is_registered (slot_of w i)) eqn:Hreg.
      * rewrite unregister_handler_taken by assumption.
        eexists. split; [reflexivity|].
        apply line_holds_put_other; assumption.
      * unfold unregister_handler. destruct (Z.leb_spec MAX_IRQS i); [lia|].
        run. unfold slot_of in Hreg. rewrite Hreg. cbn [negb].
        eexists. split; [reflexivity|]. exact Hw.
Qed.

Lemma do_calls_keep_line line h ctx cs :
  0 <= line ->
  Forall (fun c => 0 <= line_of c /\ unregisters line c = false) cs ->
  forall w,
    line_holds line {| handler := h; context := ctx; is_registered := true |} w ->
    exists w',
      do_calls cs w = Ret tt w'
      /\ line_holds line {| handler := h; context := ctx; is_registered := true |} w'.
Proof.
  intros Hline Hcs. induction Hcs as [|c cs [Hc Hun] _ IH]; intros w Hw.
  - exists w. split; [reflexivity | exact Hw].
  - destruct (do_call_keeps_line line h ctx c w Hline Hc Hun Hw) as (w1 & Hrun & Hw1).
    destruct (IH w1 Hw1) as (w2 & Hrun' & Hw2).
    exists w2. cbn [do_calls]. unfold mbind, M_bind. rewrite Hrun. auto.
Qed.

(** C4. After a registration on [line] that succeeded, and any calls on the
    driver in between other than [unregister_handler(line)], a second
    registration on [line] returns [false] and changes nothing in the driver:
    the slot still holds exactly the first handler, the first context and
    the registered flag. *)
Theorem second_registration_rejected w w1 line h1 c1 h2 c2 cs :
  table_ok (g_gic_driver w) ->
  0 <= line ->
  register_handler line h1 c1 w = Ret true w1 ->
  Forall (fun c => 0 <= line_of c /\ unregisters line c = false) cs ->
  exists w2 w3,
    do_calls cs w1 = Ret tt w2
    /\ register_handler line h2 c2 w2 = Ret false w3
    /\ slot_of w3 line = {| handler := h1; context := c1; is_registered := true |}
    /\ g_gic_driver w3 = g_gic_driver w2.
Proof.
  intros Hok Hline Hfirst Hcs.
  destruct (register_handler_true_inv _ _ _ _ _ Hfirst) as (Hlt & _ & ->).
  destruct (slot_after_put w line
              {| handler := h1; context := c1; is_registered := true |} Hok Hlt)
    as [Hslot Hok1].
  destruct (do_calls_keep_line line h1 c1 cs Hline Hcs _ (conj Hok1 Hslot))
    as (w2 & Hrun & Hok2 & Hslot2).
  exists w2. eexists. split; [exact Hrun|]. split; [|split].
  - apply register_handler_taken; [exact Hlt|]. rewrite Hslot2. reflexivity.
  - exact Hslot2.
  - reflexivity.
Qed.

Lemma second_registration_rejected_witness :
  table_ok (g_gic_driver boot_world)
  /\ 0 <= 30
  /\ register_handler 30 0x1000 0x1008 boot_world
     = Ret true
         (put_slot 30 {| handler := 0x1000; context := 0x1008; is_registered := true |}
            boot_world)
  /\ Forall (fun c => 0 <= line_of c /\ unregisters 30 c = false)
       [DoEnableIrq 30; DoRegisterHandler 31 0x4000 0; DoUnregisterHandler 31]
  /\ exists w2 w3,
       do_calls [DoEnableIrq 30; DoRegisterHandler 31 0x4000 0; DoUnregisterHandler 31]
         (put_slot 30 {| handler := 0x1000; context := 0x1008; is_registered := true |}
            boot_world)
       = Ret tt w2
       /\ register_handler 30 0x2000 0x2008 w2 = Ret false w3
       /\ slot_of w3 30 = {| handler := 0x1000; context := 0x1008; is_registered := true |}
       /\ g_gic_driver w3 = g_gic_driver w2.
Proof.
  assert (Hok : table_ok (g_gic_driver boot_world)) by reflexivity.
  assert (Hline : 0 <= 30) by lia.
  assert (Hfirst : register_handler 30 0x1000 0x1008 boot_world
                   = Ret true
                       (put_slot 30
                          {| handler := 0x1000; context := 0x1008; is_registered := true |}
                          boot_world)) by reflexivity.
  assert (Hcs : Forall (fun c => 0 <= line_of c /\ unregisters 30 c = false)
                  [DoEnableIrq 30; DoRegisterHandler 31 0x4000 0; DoUnregisterHandler 31]).
  { repeat constructor; cbn [line_of]; lia. }
  split; [exact Hok|]. split; [exact Hline|]. split; [exact Hfirst|]. split; [exact Hcs|].
  exact (second_registration_rejected boot_world _ 30 0x1000 0x1008 0x2000 0x2008 _
           Hok Hline Hfirst Hcs).
Defined.

(** C5. From the constructor state, for every line in [[0, MAX_IRQS)],
    [register_handler] followed by [unregister_handler] both succeed and leave
    the line's slot (indeed the whole driver) as it was at construction:
    null handler, null context, not registered. *)
Theorem register_then_unregister_restores w line h ctx dist_base cpu_if_base :
  g_gic_driver w = GICDriver_ctor dist_base cpu_if_base ->
  0 <= line < MAX_IRQS ->
  exists w1 w2,
    register_handler line h ctx w = Ret true w1
    /\ unregister_handler line w1 = Ret true w2
    /\ slot_of w2 line = empty_slot
    /\ slot_of w2 line = slot_of w line
    /\ g_gic_driver w2 = g_gic_driver w.
Proof.
  intros Hctor Hrange.
  assert (Hok : table_ok (g_gic_driver w)) by (rewrite Hctor; apply table_ok_ctor).
  assert (Hempty : slot_of w line = empty_slot).
  { unfold slot_of. rewrite Hctor. apply ctor_slot_empty, Hrange. }
  assert (Hlt : line < MAX_IRQS) by lia.
  set (r := {| handler := h; context := ctx; is_registered := true |}).
  destruct (slot_after_put w line r Hok Hlt) as [Hslot Hok1].
  destruct (slot_after_put (put_slot line r w) line empty_slot Hok1 Hlt) as [Hslot2 _].
  assert (Hback : g_gic_driver (put_slot line empty_slot (put_slot line r w))
                  = g_gic_driver w).
  { unfold put_slot, set_gic; cbn [g_gic_driver handlers gicd_base_addr
                                    gicc_base_addr num_irq_lines].
    rewrite list_insert_insert_eq.
    rewrite list_insert_id.
    - destruct (g_gic_driver w); reflexivity.
    - rewrite <- Hempty. apply list_lookup_lookup_total_lt.
      unfold table_ok in Hok. rewrite Hok. unfold MAX_IRQS in *. lia. }
  exists (put_slot line r w), (put_slot line empty_slot (put_slot line r w)).
  split; [|split; [|split; [|split]]].
  - apply register_handler_free; [exact Hlt|]. rewrite Hempty. reflexivity.
  - apply unregister_handler_taken; [exact Hlt|]. rewrite Hslot. reflexivity.
  - exact Hslot2.
  - rewrite Hslot2, Hempty. reflexivity.
  - exact Hback.
Qed.

Lemma register_then_unregister_restores_witness :
  g_gic_driver boot_world = GICDriver_ctor GICD_BASE GICC_BASE
  /\ 0 <= 30 < MAX_IRQS
  /\ exists w1 w2,
       register_handler 30 0x1000 0x1008 boot_world = Ret true w1
       /\ unregister_handler 30 w1 = Ret true w2
       /\ slot_of w2 30 = empty_slot
       /\ slot_of w2 30 = slot_of boot_world 30
       /\ g_gic_driver w2 = g_gic_driver boot_world.
Proof.
  assert (Hctor : g_gic_driver boot_world = GICDriver_ctor GICD_BASE GICC_BASE)
    by reflexivity.
  assert (Hrange : 0 <= 30 < MAX_IRQS) by (unfold MAX_IRQS; lia).
  split; [exact Hctor|]. split; [exact Hrange|].
  exact (register_then_unregister_restores boot_world 30 0x1000 0x1008
           GICD_BASE GICC_BASE Hctor Hrange).
Defined.

(** ** Dispatch *)

Lemma record_record evs1 evs2 w :
  record evs2 (record evs1 w) = record (evs1 ++ evs2) w.
Proof. unfold record; cbn. rewrite <- app_assoc. reflexivity. Qed.

Section Dispatch.

Variable invoke : Z -> Z -> Z -> M unit.

(** [dispatch_interrupt], path by path, with the machine state explicit. *)
Lemma dispatch_interrupt_unfold dummy w :
  dispatch_interrupt invoke dummy w =
  let irq_id := pending_irq_id w in
  if (1020 <=? irq_id) && (irq_id <=? 1023) then
    Ret tt (record
              ([MmioRead (iar_addr w);
                Kprintf "GIC: Spurious interrupt or special ID %u. Ignoring.\n" [irq_id]]
               ++ if irq_id =? 1023 then [] else [MmioWrite (eoir_addr w) irq_id]) w)
  else if (num_irq_lines (g_gic_driver w) <=? irq_id) && (irq_id <? 1020) then
    Ret tt (record
              [MmioRead (iar_addr w);
               Kprintf "GIC: IRQ ID %u out of expected range (max %u from TYPER).\n"
                       [irq_id; num_irq_lines (g_gic_driver w)];
               MmioWrite (eoir_addr w) irq_id] w)
  else if MAX_IRQS <=? irq_id then
    Ret tt (record
              [MmioRead (iar_addr w);
               Kprintf "GIC: IRQ ID %u out of bounds for handler array (max %u).\n"
                       [irq_id; MAX_IRQS - 1];
               MmioWrite (eoir_addr w) irq_id] w)
  else if has_handler w irq_id then
    match invoke (handler (slot_of w irq_id)) irq_id (context (slot_of w irq_id))
            (record [MmioRead (iar_addr w);
                     Call (handler (slot_of w irq_id)) irq_id (context (slot_of w irq_id))] w)
    with
    | Ret _ w' =>
        if has_handler w' irq_id then Ret tt w'
        else Ret tt (record [MmioWrite (eoir_addr w') irq_id] w')
    | Halt w' => Halt w'
    end
  else
    Ret tt (record [MmioRead (iar_addr w);
                    Kprintf "GIC: Unhandled IRQ %u\n" [irq_id];
                    MmioWrite (eoir_addr w) irq_id] w).
Proof.
  unfold dispatch_interrupt. run.
  unfold has_handler, slot_of, eoir_addr.
  fold (iar_addr w). simpl_world.
  fold (pending_irq_id w).
  destruct ((1020 <=? pending_irq_id w) && (pending_irq_id w <=? 1023)).
  { destruct (pending_irq_id w =? 1023); cbn [negb]; same_world. }
  simpl_world.
  destruct ((num_irq_lines (g_gic_driver w) <=? pending_irq_id w)
            && (pending_irq_id w <? 1020)).
  { same_world. }
  destruct (MAX_IRQS <=? pending_irq_id w).
  { same_world. }
  simpl_world.
  destruct (is_registered (handlers (g_gic_driver w) !!! Z.to_nat (pending_irq_id w)))
    eqn:Hr;
    destruct (handler (handlers (g_gic_driver w) !!! Z.to_nat (pending_irq_id w)) =? nullptr)
      eqn:Hn;
    cbn [andb orb negb]; simpl_world; rewrite ?Hr, ?Hn; cbn [andb orb negb];
    try same_world.
  rewrite record_record. cbn [app].
  destruct (invoke _ _ _ _) as [[] w'|w']; [|reflexivity].
  destruct (is_registered (handlers (g_gic_driver w') !!! Z.to_nat (pending_irq_id w)));
    destruct (handler (handlers (g_gic_driver w') !!! Z.to_nat (pending_irq_id w)) =? nullptr);
    reflexivity.
Qed.

(** C3. For an ID in the reserved range [[1020, 1023]] the dispatcher reads
    [GICC_IAR], logs, and returns without calling any handler, whatever is
    registered; it writes [GICC_EOIR] once for 1020, 1021 and 1022 and not at
    all for 1023. *)
Theorem spurious_ids_dropped dummy w :
  1020 <= pending_irq_id w <= 1023 ->
  dispatch_interrupt invoke dummy w
  = Ret tt (record
              ([MmioRead (iar_addr w);
                Kprintf "GIC: Spurious interrupt or special ID %u. Ignoring.\n"
                        [pending_irq_id w]]
               ++ if pending_irq_id w =? 1023 then []
                  else [MmioWrite (eoir_addr w) (pending_irq_id w)]) w)
  /\ calls_in (trace (final (dispatch_interrupt invoke dummy w))) = calls_in (trace w)
  /\ writes_to (eoir_addr w) (trace (final (dispatch_interrupt invoke dummy w)))
     = writes_to (eoir_addr w) (trace w)
       ++ if pending_irq_id w =? 1023 then [] else [pending_irq_id w].
Proof.
  intros Hid. rewrite dispatch_interrupt_unfold. cbv zeta.
  destruct (Z.leb_spec 1020 (pending_irq_id w)); [|lia].
  destruct (Z.leb_spec (pending_irq_id w) 1023); [|lia].
  cbn [andb final]. split; [reflexivity|].
  destruct (pending_irq_id w =? 1023); trace_facts.
Qed.


End Dispatch.


Lemma spurious_ids_dropped_witness :
  1020 <= pending_irq_id (world_with_pending (gic_with_64_lines (handlers (g_gic_driver line30_handled))) 1021) <= 1023
  /\ dispatch_interrupt acking_handler 0
       (world_with_pending (gic_with_64_lines (handlers (g_gic_driver line30_handled))) 1021)
     = Ret tt (record
                 [MmioRead (GICC_BASE + GICC_IAR);
                  Kprintf "GIC: Spurious interrupt or special ID %u. Ignoring.\n" [1021];
                  MmioWrite (GICC_BASE + GICC_EOIR) 1021]
                 (world_with_pending
                    (gic_with_64_lines (handlers (g_gic_driver line30_handled))) 1021)).
Proof.
  assert (Hid : 1020 <= pending_irq_id
                          (world_with_pending
                             (gic_with_64_lines (handlers (g_gic_driver line30_handled)))
                             1021) <= 1023).
  { change (1020 <= 1021 <= 1023). lia. }
  split; [exact Hid|].
  exact (proj1 (spurious_ids_dropped acking_handler 0 _ Hid)).
Defined.

(** The sentinel 1023 is dropped without any write to the controller. *)
Example sentinel_1023_not_acknowledged :
  dispatch_interrupt acking_handler 0
    (world_with_pending (g_gic_driver line30_handled) 1023)
  = Ret tt (record [MmioRead (GICC_BASE + GICC_IAR);
                    Kprintf "GIC: Spurious interrupt or special ID %u. Ignoring.\n" [1023]]
              (world_with_pending (g_gic_driver line30_handled) 1023)).
Proof. reflexivity. Qed.


(** The scenario of section 8: the handler is called once, with line 30
    and its context, and [GICC_EOIR] is written once, by the handler. *)
Example scenario_line_30_result :
  returns (scenario_line_30 world_with_mock_gic) = true
  /\ num_irq_lines (g_gic_driver (final (scenario_line_30 world_with_mock_gic))) = 64
  /\ calls_in (trace (final (scenario_line_30 world_with_mock_gic)))
     = [(0x1000, 30, 0x1008)]
  /\ writes_to (GICC_BASE + GICC_EOIR) (trace (final (scenario_line_30 world_with_mock_gic)))
     = [30].
Proof. vm_compute. repeat split. Qed.

(** Why the handler must leave its line registered: the dispatcher looks at
    the slot again after the call, so after a handler that unregisters its
    own line it writes [GICC_EOIR] itself. *)
Example dispatch_after_one_shot_handler :
  dispatch_interrupt one_shot_handler 0 line30_handled
  = Ret tt (record [MmioRead (GICC_BASE + GICC_IAR);
                    Call 0x1000 30 0x1008;
                    MmioWrite (GICC_BASE + GICC_EOIR) 30] line30_unhandled).
Proof. reflexivity. Qed.


(** ** The generic timer *)

Section Timer.

Variable invoke : Z -> Z -> Z -> M unit.
Variable ld : LinkMap.
Variable msr_effect : SysReg -> Z -> (SysReg -> Z) -> SysReg -> Z.

(** C6, as the code has it. With [frequency_hz = 0], [GenericTimer::init]
    logs one diagnostic and returns to its caller: the halt routine is not
    entered, the timer object is not touched, nothing is registered with the
    controller and no timer register is written. *)
Theorem init_zero_frequency_returns h ctx w :
  GenericTimer_init ld msr_effect 0 h ctx w
  = Ret tt (record [Kprintf "GenericTimer: Cannot initialize with 0 Hz frequency.\n" []] w).
Proof. reflexivity. Qed.

(** C8. When the requested frequency [f] is not zero, the timer's line is
    free in the handler table and the counter frequency [cf] reads as
    non-zero, [GenericTimer::init] returns having stored and written to
    [CNTP_TVAL_EL0] exactly one reload value: [cf / f], or [1] when that
    quotient is zero. *)
Theorem init_programs_reload_value h ctx w f :
  0 < f ->
  irq_number (global_el1_timer_instance w) < MAX_IRQS ->
  is_registered (slot_of w (irq_number (global_el1_timer_instance w))) = false ->
  wrap64 (sysreg w CNTFRQ_EL0) <> 0 ->
  exists w',
    GenericTimer_init ld msr_effect f h ctx w = Ret tt w'
    /\ current_interval_ticks (global_el1_timer_instance w')
       = Z.max 1 (wrap64 (sysreg w CNTFRQ_EL0) / f)
    /\ msr_writes CNTP_TVAL_EL0 (trace w')
       = msr_writes CNTP_TVAL_EL0 (trace w)
         ++ [Z.max 1 (wrap64 (sysreg w CNTFRQ_EL0) / f)].
Proof.
  intros Hf Hirq Hfree Hcf.
  unfold GenericTimer_init.
  destruct (Z.eqb_spec f 0) as [->|_]; [lia|].
  unfold GenericTimer_get_timer_frequency_hz, GenericTimer_set_interval_ticks,
    GenericTimer_set_control, get_interrupt_controller, enable_irq.
  run.
  rewrite register_handler_free; [| exact Hirq | exact Hfree].
  cbn [negb]. simpl_world.
  destruct (Z.eqb_spec (wrap64 (sysreg w CNTFRQ_EL0)) 0) as [E|_]; [contradiction|].
  set (cf := wrap64 (sysreg w CNTFRQ_EL0)) in *.
  assert (Hcf0 : 0 <= cf) by (apply Z.mod_pos_bound; lia).
  assert (Hq : 0 <= cf / f) by (apply Z.div_pos; lia).
  destruct (Z.eqb_spec (cf / f) 0) as [Hz|Hnz]; simpl_world;
    destruct ((num_irq_lines (g_gic_driver w) <=? irq_number (global_el1_timer_instance w))
              || (MAX_IRQS <=? irq_number (global_el1_timer_instance w)));
    simpl_world; (eexists; split; [reflexivity|]); simpl_world;
    (split; [lia|]);
    unfold msr_writes; rewrite !omap_app; cbn [omap list_omap];
    destruct (decide (CNTP_TVAL_EL0 = CNTP_TVAL_EL0)); try congruence;
    destruct (decide (CNTP_CTL_EL0 = CNTP_TVAL_EL0)); try discriminate;
    cbn [app]; rewrite ?app_nil_r; do 2 f_equal; lia.
Qed.

(** The failures [init] does treat as fatal: a line that already has a
    handler, and a counter frequency that reads as zero. *)
Lemma init_halts_when_line_taken h ctx w f :
  f <> 0 ->
  irq_number (global_el1_timer_instance w) < MAX_IRQS ->
  is_registered (slot_of w (irq_number (global_el1_timer_instance w))) = true ->
  returns (GenericTimer_init ld msr_effect f h ctx w) = false.
Proof.
  intros Hf Hirq Htaken.
  unfold GenericTimer_init.
  destruct (Z.eqb_spec f 0) as [|_]; [contradiction|].
  unfold get_interrupt_controller. run.
  rewrite register_handler_taken; [| exact Hirq | exact Htaken].
  reflexivity.
Qed.

Lemma init_halts_when_counter_zero h ctx w f :
  f <> 0 ->
  irq_number (global_el1_timer_instance w) < MAX_IRQS ->
  is_registered (slot_of w (irq_number (global_el1_timer_instance w))) = false ->
  wrap64 (sysreg w CNTFRQ_EL0) = 0 ->
  returns (GenericTimer_init ld msr_effect f h ctx w) = false.
Proof.
  intros Hf Hirq Hfree Hcf.
  unfold GenericTimer_init.
  destruct (Z.eqb_spec f 0) as [|_]; [contradiction|].
  unfold GenericTimer_get_timer_frequency_hz, get_interrupt_controller. run.
  rewrite register_handler_free; [| exact Hirq | exact Hfree].
  cbn [negb]. simpl_world. rewrite Hcf. reflexivity.
Qed.

(** C7, as the code has it. With a stored reload value of zero,
    [handle_interrupt] writes [CNTP_CTL_EL0] with ENABLE clear and IMASK set
    and leaves [CNTP_TVAL_EL0] alone; it then goes on as on any tick: when a
    user callback is set it is called once with the timer's line and the
    user context, and end-of-interrupt is signalled after it returns; when
    none is set, end-of-interrupt is signalled at once. *)
Theorem handle_interrupt_zero_reload w :
  current_interval_ticks (global_el1_timer_instance w) = 0 ->
  (user_handler (global_el1_timer_instance w) = nullptr ->
   GenericTimer_handle_interrupt invoke msr_effect w
   = Ret tt
       (record [MmioWrite (eoir_addr w) (irq_number (global_el1_timer_instance w))]
          (set_sysreg (msr_effect CNTP_CTL_EL0 2)
             (record [Msr CNTP_CTL_EL0 2] w))))
  /\ (user_handler (global_el1_timer_instance w) <> nullptr ->
      GenericTimer_handle_interrupt invoke msr_effect w
      = (invoke (user_handler (global_el1_timer_instance w))
                (irq_number (global_el1_timer_instance w))
                (user_context (global_el1_timer_instance w));;
         irq ← gets (fun w => irq_number (global_el1_timer_instance w));
         end_of_interrupt irq)
          (record [Call (user_handler (global_el1_timer_instance w))
                        (irq_number (global_el1_timer_instance w))
                        (user_context (global_el1_timer_instance w))]
             (set_sysreg (msr_effect CNTP_CTL_EL0 2)
                (record [Msr CNTP_CTL_EL0 2] w)))).
Proof.
  intros Hzero.
  unfold GenericTimer_handle_interrupt, GenericTimer_set_control,
    get_interrupt_controller, eoir_addr.
  run. rewrite Hzero. cbn [Z.ltb Z.compare]. simpl_world.
  split.
  - intros Hnull. rewrite Hnull. cbn [Z.eqb nullptr negb]. reflexivity.
  - intros Hcb. apply Z.eqb_neq in Hcb. rewrite Hcb. cbn [negb]. reflexivity.
Qed.

End Timer.

(** C6 as the specification states it fails: at reset, [init] with a zero
    frequency returns to its caller, and the only thing it has done is log. *)
Lemma init_zero_frequency_does_not_halt :
  returns (GenericTimer_init sample_link_map latching_msr 0 0x3000 0x3008 boot_world) = true
  /\ trace (final (GenericTimer_init sample_link_map latching_msr 0 0x3000 0x3008 boot_world))
     = [Kprintf "GenericTimer: Cannot initialize with 0 Hz frequency.\n" []].
Proof. split; reflexivity. Qed.

(** C7 as the specification states it fails: with a zero reload value and a
    callback stored, the callback is called. *)
Lemma zero_reload_still_calls_back :
  current_interval_ticks (global_el1_timer_instance world_with_callback_no_reload) = 0
  /\ calls_in (trace (final (GenericTimer_handle_interrupt idle_handler latching_msr
                               world_with_callback_no_reload)))
     = [(0x3000, 30, 0x3008)].
Proof. split; reflexivity. Qed.

Lemma handle_interrupt_zero_reload_witness :
  current_interval_ticks (global_el1_timer_instance world_with_callback_no_reload) = 0
  /\ user_handler (global_el1_timer_instance world_with_callback_no_reload) <> nullptr
  /\ GenericTimer_handle_interrupt idle_handler latching_msr world_with_callback_no_reload
     = Ret tt
         (record [MmioWrite (GICC_BASE + GICC_EOIR) 30]
            (record [Call 0x3000 30 0x3008]
               (set_sysreg (latching_msr CNTP_CTL_EL0 2)
                  (record [Msr CNTP_CTL_EL0 2] world_with_callback_no_reload)))).
Proof.
  assert (Hzero : current_interval_ticks
                    (global_el1_timer_instance world_with_callback_no_reload) = 0)
    by reflexivity.
  assert (Hcb : user_handler (global_el1_timer_instance world_with_callback_no_reload)
                <> nullptr) by discriminate.
  split; [exact Hzero|]. split; [exact Hcb|].
  exact (proj2 (handle_interrupt_zero_reload idle_handler latching_msr
                  world_with_callback_no_reload Hzero) Hcb).
Defined.

Lemma init_programs_reload_value_witness :
  0 < 100
  /\ irq_number (global_el1_timer_instance (world_with_counter 1000000)) < MAX_IRQS
  /\ is_registered (slot_of (world_with_counter 1000000) 30) = false
  /\ wrap64 (sysreg (world_with_counter 1000000) CNTFRQ_EL0) <> 0
  /\ exists w',
       GenericTimer_init sample_link_map latching_msr 100 0x3000 0x3008
         (world_with_counter 1000000) = Ret tt w'
       /\ current_interval_ticks (global_el1_timer_instance w') = 10000
       /\ msr_writes CNTP_TVAL_EL0 (trace w') = [10000].
Proof.
  assert (Hf : 0 < 100) by lia.
  assert (Hirq : irq_number (global_el1_timer_instance (world_with_counter 1000000))
                 < MAX_IRQS) by (change (30 < 256); lia).
  assert (Hfree : is_registered
                    (slot_of (world_with_counter 1000000)
                       (irq_number (global_el1_timer_instance (world_with_counter 1000000))))
                  = false) by reflexivity.
  assert (Hcf : wrap64 (sysreg (world_with_counter 1000000) CNTFRQ_EL0) <> 0)
    by (change (1000000 <> 0); lia).
  split; [exact Hf|]. split; [exact Hirq|]. split; [exact Hfree|]. split; [exact Hcf|].
  exact (init_programs_reload_value sample_link_map latching_msr 0x3000 0x3008
           (world_with_counter 1000000) 100 Hf Hirq Hfree Hcf).
Defined.

(** ** The IRQ vector handler *)

(** C9 as the specification states it fails: at reset, before
    [gic_init_global] has run, the accessor already returns the driver, and
    the IRQ handler goes to the hardware: it reads [GICC_IAR] and, the line
    count still being zero, writes [GICC_EOIR]. *)
Lemma controller_present_at_reset :
  get_interrupt_controller = Some the_gic_driver
  /\ trace (final (c_irq_handler idle_handler boot_world))
     = [MmioRead (GICC_BASE + GICC_IAR);
        Kprintf "GIC: IRQ ID %u out of expected range (max %u from TYPER).\n" [0; 0];
        MmioWrite (GICC_BASE + GICC_EOIR) 0].
Proof. split; reflexivity. Qed.

(** C9, as the code has it. The accessor never returns null: it is the
    address of the statically constructed driver in every state, so
    [c_irq_handler] always runs that driver's [dispatch_interrupt]. Handed a
    null controller, the handler's body would log one warning and return
    without touching the hardware. *)
Theorem irq_handler_always_dispatches invoke w :
  get_interrupt_controller = Some the_gic_driver
  /\ c_irq_handler invoke w = dispatch_interrupt invoke 0 w
  /\ c_irq_handler_with invoke None w
     = Ret tt (record [Kprintf "IRQ: No interrupt controller available!\n" []] w).
Proof. repeat split. Qed.

(** ** The MMU *)

Lemma testbit_shiftl_1 k n : 0 <= k -> Z.testbit (Z.shiftl 1 k) n = (n =? k).
Proof.
  intros Hk. rewrite Z.shiftl_1_l, Z.pow2_bits_eqb by exact Hk. apply Z.eqb_sym.
Qed.

Section Mmu.

Variable ld : LinkMap.
Variable msr_effect : SysReg -> Z -> (SysReg -> Z) -> SysReg -> Z.

(** C10. [enable_mmu_and_caches] writes [SCTLR_EL1] once, with the value it
    read in which bits 0, 2 and 12 are set and every other bit is as read. *)
Theorem sctlr_write_sets_only_m_c_i w :
  msr_writes SCTLR_EL1 (trace (final (MMU_enable_mmu_and_caches msr_effect w)))
  = msr_writes SCTLR_EL1 (trace w)
    ++ [sctlr_with_mmu_and_caches (wrap64 (sysreg w SCTLR_EL1))]
  /\ forall n,
       Z.testbit (sctlr_with_mmu_and_caches (wrap64 (sysreg w SCTLR_EL1))) n
       = Z.testbit (wrap64 (sysreg w SCTLR_EL1)) n
         || (n =? 0) || (n =? 2) || (n =? 12).
Proof.
  split.
  - unfold MMU_enable_mmu_and_caches. run. simpl_world.
    set (v := sctlr_with_mmu_and_caches (wrap64 (sysreg w SCTLR_EL1))).
    destruct (Z.land _ 1 =? 0); unfold panic; cbn [final]; simpl_world;
      unfold msr_writes; rewrite !omap_app; cbn [omap list_omap];
      destruct (decide (SCTLR_EL1 = SCTLR_EL1)); try congruence;
      try (destruct (decide (DAIFSET = SCTLR_EL1)); [discriminate|]);
      cbn [app]; rewrite ?app_nil_r; reflexivity.
  - intros n. unfold sctlr_with_mmu_and_caches.
    rewrite !Z.lor_spec, !testbit_shiftl_1 by lia. reflexivity.
Qed.

(** The enable step is fatal exactly when the M bit reads back clear. *)
Lemma enable_mmu_halts_iff_m_clear w :
  returns (MMU_enable_mmu_and_caches msr_effect w)
  = negb (Z.land
            (wrap64 (msr_effect SCTLR_EL1
                       (sctlr_with_mmu_and_caches (wrap64 (sysreg w SCTLR_EL1)))
                       (sysreg w) SCTLR_EL1)) 1 =? 0).
Proof.
  unfold MMU_enable_mmu_and_caches. run. simpl_world.
  destruct (Z.land _ 1 =? 0); reflexivity.
Qed.

(** *** The store loop *)

Lemma fill_table_length entry n i table :
  length (fill_table entry n i table) = length table.
Proof.
  revert i table. induction n as [|n IH]; intros i table; cbn [fill_table].
  - reflexivity.
  - rewrite IH. apply length_insert.
Qed.

(** Slots below the loop counter are not written again. *)
Lemma fill_table_below entry n i table (j : nat) :
  0 <= i -> (j < Z.to_nat i)%nat ->
  fill_table entry n i table !! j = table !! j.
Proof.
  revert i table. induction n as [|n IH]; intros i table Hi Hj; cbn [fill_table].
  - reflexivity.
  - rewrite IH by lia. apply list_lookup_insert_ne. lia.
Qed.

(** Every slot the loop passes over holds its entry afterwards. *)
Lemma fill_table_lookup entry n i table k :
  0 <= i -> (Z.to_nat i + n <= length table)%nat ->
  i <= k < i + Z.of_nat n ->
  fill_table entry n i table !! Z.to_nat k = Some (entry k).
Proof.
  revert i table. induction n as [|n IH]; intros i table Hi Hlen Hk; cbn [fill_table].
  - lia.
  - destruct (Z.eq_dec k i) as [->|Hne].
    + rewrite fill_table_below by lia.
      apply list_lookup_insert_eq. lia.
    + apply IH; [lia| rewrite length_insert; lia | lia].
Qed.

(** *** Descriptors *)

(** A 2 MiB-aligned address below 2^48 is its own output-address field. *)
Lemma block_output_address_aligned A :
  0 <= A < 2 ^ 48 -> A mod PAGE_SIZE_2MB = 0 ->
  block_output_address A = A.
Proof.
  intros HA Hal. unfold block_output_address.
  change PAGE_SIZE_2MB with (2 ^ 21) in Hal.
  assert (HAq : A = Z.shiftl (A / 2 ^ 21) 21).
  { rewrite Z.shiftl_mul_pow2 by lia.
    rewrite (Z.div_mod A (2 ^ 21)) at 1 by lia. lia. }
  assert (Hq : 0 <= A / 2 ^ 21 < 2 ^ 27).
  { split; [apply Z.div_pos; lia|]. apply Z.div_lt_upper_bound; lia. }
  rewrite HAq at 1.
  change 0x0000FFFFFFE00000 with (Z.shiftl (Z.ones 27) 21).
  rewrite <- Z.shiftl_land, Z.land_ones by lia.
  rewrite Z.mod_small by exact Hq. symmetry. exact HAq.
Qed.

(** Flags that keep clear of bits 47:21 do not show in the output address. *)
Lemma block_output_address_lor A flags :
  0 <= A < 2 ^ 48 -> A mod PAGE_SIZE_2MB = 0 ->
  block_output_address flags = 0 ->
  block_output_address (Z.lor A flags) = A.
Proof.
  intros HA Hal Hfl. unfold block_output_address in *.
  rewrite Z.land_lor_distr_l, Hfl, Z.lor_0_r.
  apply block_output_address_aligned; assumption.
Qed.

Lemma device_flags_clear : block_output_address (device_flags block_flags) = 0.
Proof. reflexivity. Qed.

Lemma kernel_image_flags_clear : block_output_address (kernel_image_flags block_flags) = 0.
Proof. reflexivity. Qed.

Lemma general_ram_flags_clear : block_output_address (general_ram_flags block_flags) = 0.
Proof. reflexivity. Qed.

Lemma l2_table_0_entry_address i :
  0 <= i < PAGE_TABLE_ENTRIES ->
  block_output_address (l2_table_0_entry ld i) = i * PAGE_SIZE_2MB.
Proof.
  intros Hi. unfold l2_table_0_entry. fold block_flags.
  unfold PAGE_TABLE_ENTRIES in Hi.
  assert (Hpa : wrap64 (i * PAGE_SIZE_2MB) = i * PAGE_SIZE_2MB).
  { unfold wrap64, PAGE_SIZE_2MB. apply Z.mod_small. lia. }
  rewrite Hpa.
  assert (HA : 0 <= i * PAGE_SIZE_2MB < 2 ^ 48) by (unfold PAGE_SIZE_2MB; lia).
  assert (Hal : (i * PAGE_SIZE_2MB) mod PAGE_SIZE_2MB = 0) by apply Z_mod_mult.
  destruct (in_peripheral_window _); [|destruct (overlaps_kernel_image _ _)];
    apply block_output_address_lor; auto using device_flags_clear,
      kernel_image_flags_clear, general_ram_flags_clear.
Qed.

Lemma l2_table_1_entry_address i :
  0 <= i < PAGE_TABLE_ENTRIES ->
  block_output_address (l2_table_1_entry i) = PAGE_SIZE_1GB + i * PAGE_SIZE_2MB.
Proof.
  intros Hi. unfold l2_table_1_entry. fold block_flags. cbv zeta.
  unfold PAGE_TABLE_ENTRIES in Hi.
  assert (Hpa : wrap64 (PAGE_SIZE_1GB + wrap64 (i * PAGE_SIZE_2MB))
                = PAGE_SIZE_1GB + i * PAGE_SIZE_2MB).
  { unfold wrap64, PAGE_SIZE_2MB, PAGE_SIZE_1GB.
    rewrite (Z.mod_small (i * _)) by lia. apply Z.mod_small. lia. }
  rewrite Hpa.
  assert (HA : 0 <= PAGE_SIZE_1GB + i * PAGE_SIZE_2MB < 2 ^ 48)
    by (unfold PAGE_SIZE_2MB, PAGE_SIZE_1GB; lia).
  assert (Hal : (PAGE_SIZE_1GB + i * PAGE_SIZE_2MB) mod PAGE_SIZE_2MB = 0).
  { change PAGE_SIZE_1GB with (512 * PAGE_SIZE_2MB).
    rewrite <- Z.mul_add_distr_r. apply Z_mod_mult. }
  destruct (in_peripheral_window _);
    apply block_output_address_lor; auto using device_flags_clear, general_ram_flags_clear.
Qed.

(** The tables [setup_page_tables] leaves behind. *)
Lemma setup_page_tables_tables w :
  exists w',
    MMU_setup_page_tables ld w = Ret tt w'
    /\ l2_page_table_0 (page_tables w')
       = fill_table (l2_table_0_entry ld) (Z.to_nat PAGE_TABLE_ENTRIES) 0 zeroed_table
    /\ l2_page_table_1 (page_tables w')
       = fill_table l2_table_1_entry (Z.to_nat PAGE_TABLE_ENTRIES) 0 zeroed_table.
Proof.
  unfold MMU_setup_page_tables. run.
  eexists. split; [reflexivity|]. split; reflexivity.
Qed.

(** C2. After [setup_page_tables], whatever the kernel image bounds, entry
    [i] of the first second-level table is a descriptor whose output address
    is [i * 2 MiB] and entry [i] of the second one is a descriptor whose
    output address is [1 GiB + i * 2 MiB], for every [i] below 512: each
    block of the first two gigabytes is mapped onto itself. The flags of each
    of the three classification branches leave the output address of any
    2 MiB-aligned address as it is. *)
Theorem page_tables_identity_mapped w i :
  0 <= i < PAGE_TABLE_ENTRIES ->
  (exists d0 d1,
      l2_page_table_0 (page_tables (final (MMU_setup_page_tables ld w))) !! Z.to_nat i
      = Some d0
      /\ block_output_address d0 = i * PAGE_SIZE_2MB
      /\ l2_page_table_1 (page_tables (final (MMU_setup_page_tables ld w))) !! Z.to_nat i
         = Some d1
      /\ block_output_address d1 = PAGE_SIZE_1GB + i * PAGE_SIZE_2MB)
  /\ (forall A,
         0 <= A < 2 ^ 48 -> A mod PAGE_SIZE_2MB = 0 ->
         block_output_address (Z.lor A (device_flags block_flags)) = A
         /\ block_output_address (Z.lor A (kernel_image_flags block_flags)) = A
         /\ block_output_address (Z.lor A (general_ram_flags block_flags)) = A).
Proof.
  intros Hi. split.
  - destruct (setup_page_tables_tables w) as (w' & Hrun & H0 & H1).
    rewrite Hrun. cbn [final]. rewrite H0, H1.
    exists (l2_table_0_entry ld i), (l2_table_1_entry i).
    assert (Hlen : (Z.to_nat 0 + Z.to_nat PAGE_TABLE_ENTRIES <= length zeroed_table)%nat).
    { unfold zeroed_table. rewrite length_replicate. lia. }
    split; [|split; [|split]].
    + apply fill_table_lookup; [lia | exact Hlen | lia].
    + apply l2_table_0_entry_address, Hi.
    + apply fill_table_lookup; [lia | exact Hlen | lia].
    + apply l2_table_1_entry_address, Hi.
  - intros A HA Hal. repeat split;
      apply block_output_address_lor;
      auto using device_flags_clear, kernel_image_flags_clear, general_ram_flags_clear.
Qed.

End Mmu.

Lemma page_tables_identity_mapped_witness :
  0 <= 3 < PAGE_TABLE_ENTRIES
  /\ exists d0 d1,
       l2_page_table_0
         (page_tables (final (MMU_setup_page_tables sample_link_map boot_world))) !! 3%nat
       = Some d0
       /\ block_output_address d0 = 0x600000
       /\ l2_page_table_1
            (page_tables (final (MMU_setup_page_tables sample_link_map boot_world))) !! 3%nat
          = Some d1
       /\ block_output_address d1 = 0x40600000.
Proof.
  assert (Hi : 0 <= 3 < PAGE_TABLE_ENTRIES) by (unfold PAGE_TABLE_ENTRIES; lia).
  split; [exact Hi|].
  exact (proj1 (page_tables_identity_mapped sample_link_map boot_world 3 Hi)).
Defined.

(** With the kernel image at [[0x80000, 0x200000)], block 0 is a kernel
    block, block 3 general RAM, and both second-level tables are full. *)
Example sample_descriptors :
  let pt := page_tables (final (MMU_setup_page_tables sample_link_map boot_world)) in
  l2_page_table_0 pt !! 0%nat = Some 0x40000000000709
  /\ l2_page_table_0 pt !! 3%nat = Some 0x60000000600709
  /\ l2_page_table_1 pt !! 511%nat = Some 0x6000007FE00709
  /\ l1_page_table pt !! 0%nat = Some 0x101003
  /\ l1_page_table pt !! 1%nat = Some 0x102003
  /\ length (l2_page_table_0 pt) = 512%nat
  /\ length (l2_page_table_1 pt) = 512%nat.
Proof. vm_compute. repeat split. Qed.

(** A block in the peripheral window, had the tables reached it, would be a
    device block and still map onto itself. *)
Example device_block_identity :
  in_peripheral_window 0xFE000000 = true
  /\ block_output_address (Z.lor 0xFE000000 (device_flags block_flags)) = 0xFE000000.
Proof. split; reflexivity. Qed.

(** * Further properties of the driver, the timer and the MMU *)

(** ** The handler registry *)

Lemma unregister_handler_idle w irq_num :
  MAX_IRQS <= irq_num \/ is_registered (slot_of w irq_num) = false ->
  unregister_handler irq_num w = Ret false w.
Proof.
  intros H. unfold unregister_handler.
  destruct (Z.leb_spec MAX_IRQS irq_num) as [Hge|Hlt]; [reflexivity|].
  destruct H as [H|H]; [lia|].
  run. unfold slot_of in H. rewrite H. reflexivity.
Qed.

Lemma register_handler_beyond_table w irq_num h ctx :
  MAX_IRQS <= irq_num ->
  register_handler irq_num h ctx w
  = Ret false
      (record [Kprintf "GIC: register_handler: IRQ %u out of bounds for handler array (max %u)\n"
                       [irq_num; MAX_IRQS - 1]] w).
Proof.
  intros Hge. unfold register_handler.
  destruct (Z.leb_spec MAX_IRQS irq_num) as [_|Hlt]; [|lia].
  reflexivity.
Qed.

(** X1. [unregister_handler] on a line beyond the table, or on a line that
    has no handler, returns [false] and changes nothing at all: no slot, no
    log line, no hardware access. *)
Theorem unregister_handler_nothing_to_do w irq_num :
  MAX_IRQS <= irq_num \/ is_registered (slot_of w irq_num) = false ->
  unregister_handler irq_num w = Ret false w.
Proof. apply unregister_handler_idle. Qed.

Lemma unregister_handler_nothing_to_do_witness :
  (MAX_IRQS <= 300 \/ is_registered (slot_of boot_world 300) = false)
  /\ unregister_handler 300 boot_world = Ret false boot_world
  /\ (MAX_IRQS <= 30 \/ is_registered (slot_of boot_world 30) = false)
  /\ unregister_handler 30 boot_world = Ret false boot_world.
Proof.
  assert (H1 : MAX_IRQS <= 300 \/ is_registered (slot_of boot_world 300) = false)
    by (left; unfold MAX_IRQS; lia).
  assert (H2 : MAX_IRQS <= 30 \/ is_registered (slot_of boot_world 30) = false)
    by (right; reflexivity).
  split; [exact H1|]. split; [exact (unregister_handler_nothing_to_do boot_world 300 H1)|].
  split; [exact H2|]. exact (unregister_handler_nothing_to_do boot_world 30 H2).
Defined.

(** X2. [register_handler] on a line beyond the table returns [false]; it
    logs one line and leaves the driver object, every slot included, as it
    was. *)
Theorem register_handler_out_of_range w irq_num h ctx :
  MAX_IRQS <= irq_num ->
  register_handler irq_num h ctx w
  = Ret false
      (record [Kprintf "GIC: register_handler: IRQ %u out of bounds for handler array (max %u)\n"
                       [irq_num; MAX_IRQS - 1]] w)
  /\ g_gic_driver (final (register_handler irq_num h ctx w)) = g_gic_driver w.
Proof.
  intros Hge. rewrite register_handler_beyond_table by exact Hge.
  split; reflexivity.
Qed.

Lemma register_handler_out_of_range_witness :
  MAX_IRQS <= 256
  /\ register_handler 256 0x1000 0x1008 boot_world
     = Ret false
         (record [Kprintf "GIC: register_handler: IRQ %u out of bounds for handler array (max %u)\n"
                          [256; 255]] boot_world).
Proof.
  assert (H : MAX_IRQS <= 256) by (unfold MAX_IRQS; lia).
  split; [exact H|].
  exact (proj1 (register_handler_out_of_range boot_world 256 0x1000 0x1008 H)).
Defined.

(** X3. Whatever their arguments and whatever they return,
    [register_handler] and [unregister_handler] on line [i] leave the slot of
    every other line [j] as it was, keep the table at its 256 slots, and make
    no hardware access. *)
Theorem registry_calls_touch_one_slot w i h ctx j :
  0 <= i -> 0 <= j -> j <> i ->
  table_ok (g_gic_driver w) ->
  (slot_of (final (register_handler i h ctx w)) j = slot_of w j
   /\ table_ok (g_gic_driver (final (register_handler i h ctx w)))
   /\ hardware_accesses (trace (final (register_handler i h ctx w)))
      = hardware_accesses (trace w))
  /\ (slot_of (final (unregister_handler i w)) j = slot_of w j
      /\ table_ok (g_gic_driver (final (unregister_handler i w)))
      /\ hardware_accesses (trace (final (unregister_handler i w)))
         = hardware_accesses (trace w)).
Proof.
  intros Hi Hj Hne Hok.
  assert (Hput : forall r,
             slot_of (put_slot i r w) j = slot_of w j
             /\ table_ok (g_gic_driver (put_slot i r w))
             /\ hardware_accesses (trace (put_slot i r w)) = hardware_accesses (trace w)).
  { intros r. unfold slot_of, table_ok, put_slot, set_gic.
    cbn [g_gic_driver handlers trace]. split; [|split].
    - apply list_lookup_total_insert_ne. lia.
    - rewrite length_insert. exact Hok.
    - reflexivity. }
  assert (Hlog : forall e,
             is_hardware_access e = false ->
             slot_of (record [e] w) j = slot_of w j
             /\ table_ok (g_gic_driver (record [e] w))
             /\ hardware_accesses (trace (record [e] w)) = hardware_accesses (trace w)).
  { intros e He. split; [reflexivity|]. split; [exact Hok|].
    unfold hardware_accesses, record; cbn [trace].
    rewrite omap_app. cbn [omap list_omap]. rewrite He. apply app_nil_r. }
  split.
  - destruct (Z.leb_spec MAX_IRQS i) as [Hge|Hlt].
    + rewrite register_handler_beyond_table by exact Hge. cbn [final].
      apply Hlog. reflexivity.
    + destruct (is_registered (slot_of w i)) eqn:Hreg.
      * rewrite register_handler_taken by assumption. cbn [final].
        apply Hlog. reflexivity.
      * rewrite register_handler_free by assumption. cbn [final]. apply Hput.
  - destruct (Z.leb_spec MAX_IRQS i) as [Hge|Hlt].
    + rewrite unregister_handler_idle by (left; exact Hge). cbn [final]. auto.
    + destruct (is_registered (slot_of w i)) eqn:Hreg.
      * rewrite unregister_handler_taken by assumption. cbn [final]. apply Hput.
      * rewrite unregister_handler_idle by (right; exact Hreg). cbn [final]. auto.
Qed.

Lemma registry_calls_touch_one_slot_witness :
  0 <= 31 /\ 0 <= 30 /\ 30 <> 31
  /\ table_ok (g_gic_driver line30_handled)
  /\ slot_of (final (register_handler 31 0x2000 0x2008 line30_handled)) 30
     = slot_of line30_handled 30
  /\ slot_of (final (unregister_handler 31 line30_handled)) 30
     = slot_of line30_handled 30.
Proof.
  assert (Hi : 0 <= 31) by lia.
  assert (Hj : 0 <= 30) by lia.
  assert (Hne : 30 <> 31) by lia.
  assert (Hok : table_ok (g_gic_driver line30_handled)) by reflexivity.
  split; [exact Hi|]. split; [exact Hj|]. split; [exact Hne|]. split; [exact Hok|].
  destruct (registry_calls_touch_one_slot line30_handled 31 0x2000 0x2008 30 Hi Hj Hne Hok)
    as [[Hreg _] [Hunreg _]].
  split; [exact Hreg | exact Hunreg].
Defined.

(** ** Enabling and disabling lines *)

Lemma wrap32_one_hot s : 0 <= s < 32 -> wrap32 (Z.shiftl 1 s) = 2 ^ s.
Proof.
  intros Hs. unfold wrap32. rewrite Z.shiftl_1_l.
  apply Z.mod_small. split; [apply Z.pow_nonneg; lia|].
  apply Z.pow_lt_mono_r; lia.
Qed.

Lemma mod_32_range irq_num : 0 <= irq_num mod 32 < 32.
Proof. apply Z.mod_pos_bound. lia. Qed.

(** X4. [enable_irq] and [disable_irq] reject a line at or beyond the
    reported line count, or at or beyond [MAX_IRQS], with a log line and no
    hardware access. For an accepted line each makes exactly one write: the
    word [irq_num / 32] of the set-enable, respectively clear-enable,
    registers, with the single bit [irq_num mod 32] set, so that no other
    line is affected. *)
Theorem line_enable_guarded w irq_num :
  ((num_irq_lines (g_gic_driver w) <=? irq_num) || (MAX_IRQS <=? irq_num) = true ->
   enable_irq irq_num w
   = Ret tt (record [Kprintf "GIC: enable_irq: Invalid IRQ %u\n" [irq_num]] w)
   /\ disable_irq irq_num w
      = Ret tt (record [Kprintf "GIC: disable_irq: Invalid IRQ %u\n" [irq_num]] w))
  /\ ((num_irq_lines (g_gic_driver w) <=? irq_num) || (MAX_IRQS <=? irq_num) = false ->
      enable_irq irq_num w
      = Ret tt (record [MmioWrite (gicd_addr w (GICD_ISENABLER0 + irq_num / 32 * 4))
                                  (2 ^ (irq_num mod 32))] w)
      /\ disable_irq irq_num w
         = Ret tt (record [MmioWrite (gicd_addr w (GICD_ICENABLER0 + irq_num / 32 * 4))
                                     (2 ^ (irq_num mod 32))] w)
      /\ forall k, Z.testbit (2 ^ (irq_num mod 32)) k = (irq_num mod 32 =? k)).
Proof.
  split; intros Hguard; unfold enable_irq, disable_irq; run; rewrite Hguard.
  - split; reflexivity.
  - rewrite (wrap32_one_hot _ (mod_32_range irq_num)).
    split; [reflexivity|]. split; [reflexivity|].
    intros k. apply Z.pow2_bits_eqb. apply mod_32_range.
Qed.

Lemma line_enable_guarded_witness :
  (num_irq_lines (g_gic_driver line30_handled) <=? 70) || (MAX_IRQS <=? 70) = true
  /\ enable_irq 70 line30_handled
     = Ret tt (record [Kprintf "GIC: enable_irq: Invalid IRQ %u\n" [70]] line30_handled)
  /\ (num_irq_lines (g_gic_driver line30_handled) <=? 35) || (MAX_IRQS <=? 35) = false
  /\ enable_irq 35 line30_handled
     = Ret tt (record [MmioWrite (GICD_BASE + 0x104) 8] line30_handled).
Proof.
  assert (H70 : (num_irq_lines (g_gic_driver line30_handled) <=? 70) || (MAX_IRQS <=? 70)
                = true) by reflexivity.
  assert (H35 : (num_irq_lines (g_gic_driver line30_handled) <=? 35) || (MAX_IRQS <=? 35)
                = false) by reflexivity.
  split; [exact H70|].
  split; [exact (proj1 (proj1 (line_enable_guarded line30_handled 70) H70))|].
  split; [exact H35|].
  exact (proj1 (proj2 (line_enable_guarded line30_handled 35) H35)).
Defined.

(** ** Dispatch of an ID no line answers to *)

Section DispatchMore.

Variable invoke : Z -> Z -> Z -> M unit.

(** X5. An ID below the reserved range that is at or beyond the reported
    line count, or at or beyond [MAX_IRQS], is acknowledged and dropped: one
    read of [GICC_IAR], one log line, one write of the ID to [GICC_EOIR], and
    no handler is called, whatever the table holds for that ID. Before [init]
    has run the line count is zero, so this is the fate of every ID below
    1020; the IDs from 1020 to 1023 take the spurious branch instead. *)
Theorem dispatch_out_of_range dummy w :
  pending_irq_id w < 1020 ->
  num_irq_lines (g_gic_driver w) <= pending_irq_id w \/ MAX_IRQS <= pending_irq_id w ->
  exists fmt args,
    dispatch_interrupt invoke dummy w
    = Ret tt (record [MmioRead (iar_addr w);
                      Kprintf fmt args;
                      MmioWrite (eoir_addr w) (pending_irq_id w)] w).
Proof.
  intros Hlow Hout. rewrite dispatch_interrupt_unfold. cbv zeta.
  destruct (Z.leb_spec 1020 (pending_irq_id w)) as [|_]; [lia|]. cbn [andb].
  destruct (Z.ltb_spec (pending_irq_id w) 1020) as [_|]; [|lia].
  rewrite andb_true_r.
  destruct (Z.leb_spec (num_irq_lines (g_gic_driver w)) (pending_irq_id w)) as [Hn|Hn].
  - eexists _, _. reflexivity.
  - destruct Hout as [Hout|Hout]; [lia|].
    destruct (Z.leb_spec MAX_IRQS (pending_irq_id w)) as [_|]; [|lia].
    eexists _, _. reflexivity.
Qed.

End DispatchMore.

Lemma dispatch_out_of_range_witness :
  pending_irq_id (put_slot 30 {| handler := 0x1000; context := 0x1008;
                                 is_registered := true |}
                    (world_with_pending (GICDriver_ctor GICD_BASE GICC_BASE) 30)) < 1020
  /\ (num_irq_lines
        (g_gic_driver
           (put_slot 30 {| handler := 0x1000; context := 0x1008; is_registered := true |}
              (world_with_pending (GICDriver_ctor GICD_BASE GICC_BASE) 30)))
      <= 30 \/ MAX_IRQS <= 30)
  /\ exists fmt args,
       dispatch_interrupt acking_handler 0
         (put_slot 30 {| handler := 0x1000; context := 0x1008; is_registered := true |}
            (world_with_pending (GICDriver_ctor GICD_BASE GICC_BASE) 30))
       = Ret tt
           (record [MmioRead (GICC_BASE + GICC_IAR);
                    Kprintf fmt args;
                    MmioWrite (GICC_BASE + GICC_EOIR) 30]
              (put_slot 30 {| handler := 0x1000; context := 0x1008; is_registered := true |}
                 (world_with_pending (GICDriver_ctor GICD_BASE GICC_BASE) 30))).
Proof.
  assert (Hlow : pending_irq_id
                   (put_slot 30 {| handler := 0x1000; context := 0x1008;
                                   is_registered := true |}
                      (world_with_pending (GICDriver_ctor GICD_BASE GICC_BASE) 30)) < 1020)
    by (change (30 < 1020); lia).
  assert (Hout : num_irq_lines
                   (g_gic_driver
                      (put_slot 30 {| handler := 0x1000; context := 0x1008;
                                      is_registered := true |}
                         (world_with_pending (GICDriver_ctor GICD_BASE GICC_BASE) 30)))
                 <= 30 \/ MAX_IRQS <= 30)
    by (left; change (0 <= 30); lia).
  split; [exact Hlow|]. split; [exact Hout|].
  exact (dispatch_out_of_range acking_handler 0 _ Hlow Hout).
Defined.

(** ** Trigger type and target of a line *)

Lemma testbit_wrap32_high x k : 32 <= k -> Z.testbit (wrap32 x) k = false.
Proof. intros Hk. unfold wrap32. apply Z.mod_pow2_bits_high. lia. Qed.

Lemma testbit_not32 x k :
  Z.testbit (not32 x) k = xorb ((0 <=? k) && (k <? 32)) (Z.testbit x k).
Proof.
  unfold not32. rewrite Z.lxor_spec.
  destruct (Z.leb_spec 0 k) as [Hk|Hk].
  - rewrite Z.testbit_ones_nonneg by lia. reflexivity.
  - rewrite !Z.testbit_neg_r by lia. reflexivity.
Qed.

Lemma icfgr_bit_range irq_num : 0 <= icfgr_bit irq_num < 32.
Proof.
  unfold icfgr_bit. pose proof (Z.mod_pos_bound irq_num 16 ltac:(lia)). lia.
Qed.

Lemma itargetsr_shift_range spi_num : 0 <= itargetsr_shift spi_num <= 24.
Proof.
  unfold itargetsr_shift. pose proof (Z.mod_pos_bound spi_num 4 ltac:(lia)). lia.
Qed.

(** The word [configure_irq_trigger] writes back. *)
Lemma trigger_word_bits old s (edge : bool) k :
  0 <= s < 32 ->
  Z.testbit (if edge then Z.lor (wrap32 old) (wrap32 (Z.shiftl 1 s))
             else Z.land (wrap32 old) (not32 (wrap32 (Z.shiftl 1 s)))) k
  = if k =? s then edge else Z.testbit (wrap32 old) k.
Proof.
  intros Hs. rewrite (wrap32_one_hot s Hs).
  destruct edge.
  - rewrite Z.lor_spec, Z.pow2_bits_eqb by lia. rewrite (Z.eqb_sym s k).
    destruct (k =? s); [apply orb_true_r | apply orb_false_r].
  - rewrite Z.land_spec, testbit_not32, Z.pow2_bits_eqb by lia. rewrite (Z.eqb_sym s k).
    destruct (Z.eqb_spec k s) as [->|Hne].
    + destruct (Z.leb_spec 0 s); [|lia]. destruct (Z.ltb_spec s 32); [|lia].
      cbn. apply andb_false_r.
    + rewrite xorb_false_r.
      destruct (Z.leb_spec 0 k) as [Hk|Hk].
      * destruct (Z.ltb_spec k 32) as [Hk'|Hk'].
        -- apply andb_true_r.
        -- rewrite testbit_wrap32_high by lia. reflexivity.
      * rewrite Z.testbit_neg_r by lia. reflexivity.
Qed.

(** X6. [configure_irq_trigger] makes no hardware access for the private
    lines (IDs below 32). For a shared line it reads the line's
    configuration word and writes it back with one bit changed: bit
    [2 * (irq_num mod 16) + 1] is set for edge-triggered and cleared for
    level-sensitive, and every other bit is as it was read. *)
Theorem configure_irq_trigger_one_bit w irq_num edge :
  (irq_num < 32 -> configure_irq_trigger irq_num edge w = Ret tt w)
  /\ (32 <= irq_num ->
      exists new,
        configure_irq_trigger irq_num edge w
        = Ret tt (record [MmioRead (gicd_addr w (icfgr_offset irq_num));
                          MmioWrite (gicd_addr w (icfgr_offset irq_num)) new] w)
        /\ forall k,
             Z.testbit new k
             = if k =? icfgr_bit irq_num then edge
               else Z.testbit (gicd_value w (icfgr_offset irq_num)) k).
Proof.
  split; intros Hirq; unfold configure_irq_trigger.
  - destruct (Z.ltb_spec irq_num 16) as [|H16]; [reflexivity|].
    destruct (Z.ltb_spec irq_num 32) as [_|]; [|lia].
    destruct (Z.leb_spec 16 irq_num) as [_|]; [|lia]. reflexivity.
  - destruct (Z.ltb_spec irq_num 16) as [|_]; [lia|].
    destruct (Z.ltb_spec irq_num 32) as [|_]; [lia|]. cbn [andb].
    run. fold (icfgr_offset irq_num). fold (icfgr_bit irq_num).
    fold (gicd_addr w (icfgr_offset irq_num)). simpl_world.
    eexists. split; [same_world|].
    intros k. unfold gicd_value. apply trigger_word_bits, icfgr_bit_range.
Qed.

Lemma configure_irq_trigger_one_bit_witness :
  32 <= 35
  /\ exists new,
       configure_irq_trigger 35 true line30_handled
       = Ret tt (record [MmioRead (GICD_BASE + 0xC08); MmioWrite (GICD_BASE + 0xC08) new]
                   line30_handled)
       /\ forall k, Z.testbit new k = if k =? 7 then true else Z.testbit 0 k.
Proof.
  assert (H : 32 <= 35) by lia.
  split; [exact H|].
  exact (proj2 (configure_irq_trigger_one_bit line30_handled 35 true) H).
Defined.

(** The word [set_irq_target_cpu0] writes back. *)
Lemma target_word_bits old s k :
  0 <= s <= 24 ->
  Z.testbit (Z.lor (Z.land (wrap32 old) (not32 (wrap32 (Z.shiftl 0xFF s))))
                   (wrap32 (Z.shiftl 0x01 s))) k
  = if (s <=? k) && (k <? s + 8) then k =? s else Z.testbit (wrap32 old) k.
Proof.
  intros Hs.
  rewrite (wrap32_one_hot s) by lia.
  assert (Hff : wrap32 (Z.shiftl 0xFF s) = Z.shiftl (Z.ones 8) s).
  { unfold wrap32. change 0xFF with (Z.ones 8). apply Z.mod_small.
    rewrite Z.shiftl_mul_pow2 by lia. change (Z.ones 8) with 255.
    assert (0 < 2 ^ s) by (apply Z.pow_pos_nonneg; lia).
    assert (2 ^ s <= 2 ^ 24) by (apply Z.pow_le_mono_r; lia).
    lia. }
  rewrite Hff, Z.lor_spec, Z.land_spec, testbit_not32, Z.pow2_bits_eqb by lia.
  rewrite (Z.eqb_sym s k).
  destruct (Z.leb_spec 0 k) as [Hk|Hk].
  - rewrite Z.shiftl_spec by lia.
    destruct (Z.leb_spec s k) as [Hsk|Hsk]; cbn [andb].
    + rewrite Z.testbit_ones_nonneg by lia.
      destruct (Z.ltb_spec k (s + 8)) as [Hk8|Hk8].
      * destruct (Z.ltb_spec (k - s) 8); [|lia].
        destruct (Z.ltb_spec k 32); [|lia]. cbn. rewrite andb_false_r. reflexivity.
      * destruct (Z.ltb_spec (k - s) 8); [lia|].
        destruct (Z.eqb_spec k s); [lia|]. rewrite orb_false_r, xorb_false_r.
        destruct (Z.ltb_spec k 32).
        -- apply andb_true_r.
        -- rewrite testbit_wrap32_high by lia. reflexivity.
    + rewrite (Z.testbit_neg_r _ (k - s)) by lia.
      destruct (Z.eqb_spec k s); [lia|]. rewrite orb_false_r, xorb_false_r.
      destruct (Z.ltb_spec k 32); [|lia]. apply andb_true_r.
  - rewrite !(Z.testbit_neg_r _ k) by lia.
    destruct (Z.leb_spec s k); [lia|].
    destruct (Z.eqb_spec k s); [lia|]. reflexivity.
Qed.

(** X7. [set_irq_target_cpu0] makes no hardware access for the private
    lines. For a shared line it reads the line's target word and writes it
    back with the line's byte set to [0x01], CPU interface 0 alone; the bytes
    of the three neighbouring lines are as they were read. *)
Theorem set_irq_target_cpu0_one_byte w spi_num :
  (spi_num < 32 -> set_irq_target_cpu0 spi_num w = Ret tt w)
  /\ (32 <= spi_num ->
      exists new,
        set_irq_target_cpu0 spi_num w
        = Ret tt (record [MmioRead (gicd_addr w (itargetsr_offset spi_num));
                          MmioWrite (gicd_addr w (itargetsr_offset spi_num)) new] w)
        /\ forall k,
             Z.testbit new k
             = if (itargetsr_shift spi_num <=? k) && (k <? itargetsr_shift spi_num + 8)
               then k =? itargetsr_shift spi_num
               else Z.testbit (gicd_value w (itargetsr_offset spi_num)) k).
Proof.
  split; intros Hspi; unfold set_irq_target_cpu0.
  - destruct (Z.ltb_spec spi_num 32) as [_|]; [reflexivity|lia].
  - destruct (Z.ltb_spec spi_num 32) as [|_]; [lia|].
    run. fold (itargetsr_offset spi_num). fold (itargetsr_shift spi_num).
    fold (gicd_addr w (itargetsr_offset spi_num)). simpl_world.
    eexists. split; [same_world|].
    intros k. unfold gicd_value. apply target_word_bits, itargetsr_shift_range.
Qed.

Lemma set_irq_target_cpu0_one_byte_witness :
  32 <= 35
  /\ exists new,
       set_irq_target_cpu0 35 line30_handled
       = Ret tt (record [MmioRead (GICD_BASE + 0x820); MmioWrite (GICD_BASE + 0x820) new]
                   line30_handled)
       /\ forall k,
            Z.testbit new k
            = if (24 <=? k) && (k <? 24 + 8) then k =? 24 else Z.testbit 0 k.
Proof.
  assert (H : 32 <= 35) by lia.
  split; [exact H|].
  exact (proj2 (set_irq_target_cpu0_one_byte line30_handled 35) H).
Defined.

(** ** Bringing the controller up *)

Lemma record_nil w : record [] w = w.
Proof. apply world_ext; simpl_world; try reflexivity. apply app_nil_r. Qed.

Section Appends.

Variable P : GICDriver -> Event -> Prop.

Lemma appends_ret {A} (a : A) : appends P (mret a).
Proof.
  intros w. exists a, []. split; [|constructor].
  unfold mret, M_ret. now rewrite record_nil.
Qed.

Lemma appends_gets {A} (f : World -> A) : appends P (gets f).
Proof.
  intros w. exists (f w), []. split; [|constructor].
  unfold gets. now rewrite record_nil.
Qed.

Lemma appends_bind {A B} (m : M A) (f : A -> M B) :
  appends P m -> (forall a, appends P (f a)) -> appends P (m ≫= f).
Proof.
  intros Hm Hf w. destruct (Hm w) as (a & evs1 & Hrun1 & HP1).
  destruct (Hf a (record evs1 w)) as (b & evs2 & Hrun2 & HP2).
  exists b, (evs1 ++ evs2). unfold mbind, M_bind. rewrite Hrun1, Hrun2, record_record.
  split; [reflexivity|]. apply Forall_app. split; assumption.
Qed.

Lemma appends_if {A} (b : bool) (m1 m2 : M A) :
  appends P m1 -> appends P m2 -> appends P (if b then m1 else m2).
Proof. destruct b; auto. Qed.

Lemma appends_emit e : (forall d, P d e) -> appends P (emit e).
Proof.
  intros He w. exists tt, [e]. split; [reflexivity|].
  constructor; [apply He|constructor].
Qed.

Lemma appends_gicd_write offset value :
  (forall d, P d (MmioWrite (wrap64 (gicd_base_addr d + offset)) value)) ->
  appends P (gicd_write offset value).
Proof.
  intros He w. eexists tt, [_]. split; [reflexivity|].
  constructor; [apply He|constructor].
Qed.

Lemma appends_gicc_write offset value :
  (forall d, P d (MmioWrite (wrap64 (gicc_base_addr d + offset)) value)) ->
  appends P (gicc_write offset value).
Proof.
  intros He w. eexists tt, [_]. split; [reflexivity|].
  constructor; [apply He|constructor].
Qed.

Lemma appends_gicd_read offset :
  (forall d, P d (MmioRead (wrap64 (gicd_base_addr d + offset)))) ->
  appends P (gicd_read offset).
Proof.
  intros He w. eexists _, [_]. split; [reflexivity|].
  constructor; [apply He|constructor].
Qed.

End Appends.






Lemma appends_if_cond (P : GICDriver -> Event -> Prop) {A} (b : bool) (m1 m2 : M A) :
  (b = true -> appends P m1) -> (b = false -> appends P m2) ->
  appends P (if b then m1 else m2).
Proof. destruct b; auto. Qed.

(** On the platform's driver, a distributor write outside the set-enable
    block, and any write to the CPU interface, leaves the lines masked. *)
Lemma gicd_write_leaves_masked d offset value :
  0 <= offset < GICD_ISENABLER0 \/ GICD_ICENABLER0 <= offset < 2 ^ 32 ->
  leaves_lines_masked d (MmioWrite (wrap64 (gicd_base_addr d + offset)) value).
Proof.
  intros Hoff [Hd _]. rewrite Hd. unfold writes_set_enable, wrap64.
  unfold GICD_BASE, GICD_ISENABLER0, GICD_ICENABLER0 in *.
  rewrite Z.mod_small by lia.
  apply andb_false_iff.
  destruct Hoff; [left; apply Z.leb_gt | right; apply Z.ltb_ge]; lia.
Qed.

Lemma gicc_write_leaves_masked d offset value :
  0 <= offset < 2 ^ 32 ->
  leaves_lines_masked d (MmioWrite (wrap64 (gicc_base_addr d + offset)) value).
Proof.
  intros Hoff [_ Hc]. rewrite Hc. unfold writes_set_enable, wrap64.
  unfold GICC_BASE, GICD_BASE, GICD_ISENABLER0, GICD_ICENABLER0 in *.
  rewrite Z.mod_small by lia.
  apply andb_false_iff. right. apply Z.ltb_ge. lia.
Qed.

Lemma read_leaves_masked d addr : leaves_lines_masked d (MmioRead addr).
Proof. intros _. reflexivity. Qed.

Lemma kprintf_leaves_masked d fmt args : leaves_lines_masked d (Kprintf fmt args).
Proof. intros _. reflexivity. Qed.

Lemma appends_masked_configure_irq_trigger irq_num edge :
  0 <= irq_num < MAX_IRQS ->
  appends leaves_lines_masked (configure_irq_trigger irq_num edge).
Proof.
  intros Hirq. unfold configure_irq_trigger. cbv zeta. unfold MAX_IRQS in Hirq.
  assert (Hq : 0 <= irq_num / 16 < 16).
  { split; [apply Z.div_pos; lia | apply Z.div_lt_upper_bound; lia]. }
  repeat first [ apply appends_gicd_read; intros ?; apply read_leaves_masked
               | apply appends_gicd_write; intros ?; apply gicd_write_leaves_masked;
                 unfold GICD_ICFGR0, GICD_ISENABLER0, GICD_ICENABLER0; lia
               | apply appends_if | apply appends_ret
               | apply appends_bind; [|intros ?] ].
Qed.

Lemma appends_masked_set_irq_target_cpu0 spi_num :
  0 <= spi_num < MAX_IRQS ->
  appends leaves_lines_masked (set_irq_target_cpu0 spi_num).
Proof.
  intros Hspi. unfold set_irq_target_cpu0. cbv zeta. unfold MAX_IRQS in Hspi.
  assert (Hq : 0 <= spi_num / 4 < 64).
  { split; [apply Z.div_pos; lia | apply Z.div_lt_upper_bound; lia]. }
  repeat first [ apply appends_gicd_read; intros ?; apply read_leaves_masked
               | apply appends_gicd_write; intros ?; apply gicd_write_leaves_masked;
                 unfold GICD_ITARGETSR0, GICD_ISENABLER0, GICD_ICENABLER0; lia
               | apply appends_if | apply appends_ret
               | apply appends_bind; [|intros ?] ].
Qed.

Lemma appends_masked_init_spi_loop fuel i :
  0 <= i -> appends leaves_lines_masked (init_spi_loop fuel i).
Proof.
  revert i. induction fuel as [|fuel IH]; intros i Hi; cbn [init_spi_loop].
  - apply appends_ret.
  - apply appends_bind; [apply appends_gets|]. intros n.
    apply appends_if_cond; [|intros _; apply appends_ret].
    intros Hcond. apply andb_prop in Hcond. destruct Hcond as [_ Hmax].
    apply Z.ltb_lt in Hmax.
    assert (Hmax' : i < 256) by exact Hmax.
    assert (Hq4 : 0 <= i / 4 * 4 + i mod 4 < 256).
    { rewrite Z.mul_comm, <- Z.div_mod by lia. lia. }
    assert (Hq32 : 0 <= i / 32 < 8).
    { split; [apply Z.div_pos; lia | apply Z.div_lt_upper_bound; lia]. }
    repeat first
      [ apply IH; lia
      | apply appends_masked_configure_irq_trigger; split; assumption
      | apply appends_masked_set_irq_target_cpu0; split; assumption
      | apply appends_gicd_write; intros ?; apply gicd_write_leaves_masked;
        unfold GICD_IPRIORITYR0, GICD_ISENABLER0, GICD_ICENABLER0; lia
      | apply appends_bind; [|intros ?] ].
Qed.

Lemma masked_events d evs :
  at_platform_bases d ->
  Forall (leaves_lines_masked d) evs ->
  Forall (fun e => writes_set_enable e = false) evs.
Proof. intros Hd H. induction H; constructor; auto. Qed.

(** X9. On the platform's driver, [GICDriver::init] returns having written
    to no set-enable register: whatever [GICD_TYPER] reports, it enables no
    interrupt line. *)
Theorem init_enables_no_line w :
  at_platform_bases (g_gic_driver w) ->
  exists w' evs,
    GICDriver_init w = Ret tt w'
    /\ trace w' = trace w ++ evs
    /\ Forall (fun e => writes_set_enable e = false) evs.
Proof.
  intros Hbases.
  assert (Hctlr : forall v,
             writes_set_enable
               (MmioWrite (wrap64 (gicd_base_addr (g_gic_driver w) + GICD_CTLR)) v) = false).
  { intros v. apply gicd_write_leaves_masked; [|exact Hbases].
    left. unfold GICD_CTLR, GICD_ISENABLER0. lia. }
  assert (Hgicc : forall off v,
             0 <= off < 2 ^ 32 ->
             writes_set_enable
               (MmioWrite (wrap64 (gicc_base_addr (g_gic_driver w) + off)) v) = false).
  { intros off v Hoff. apply gicc_write_leaves_masked; [exact Hoff | exact Hbases]. }
  unfold GICDriver_init. run. simpl_world.
  destruct ((_ =? 0) || (_ <? _)); cbv beta;
    match goal with
    | |- context [init_spi_loop ?fuel ?i ?W] =>
        destruct (appends_masked_init_spi_loop fuel i ltac:(lia) W)
          as ([] & evs & Hloop & Hevs)
    end;
    rewrite Hloop; (eexists _, _; split; [reflexivity|]); simpl_world;
    rewrite <- !app_assoc; (split; [reflexivity|]);
    cbn [app];
    repeat (constructor; [first [reflexivity | apply Hctlr]|]);
    (apply Forall_app; split; [exact (masked_events _ _ Hbases Hevs)|]);
    repeat (constructor;
            [first [ reflexivity | apply Hctlr
                   | apply Hgicc; unfold GICC_PMR, GICC_BPR, GICC_CTLR; lia ]|]);
    constructor.
Qed.

Lemma init_enables_no_line_witness :
  at_platform_bases (g_gic_driver world_with_mock_gic)
  /\ exists w' evs,
       GICDriver_init world_with_mock_gic = Ret tt w'
       /\ trace w' = trace world_with_mock_gic ++ evs
       /\ Forall (fun e => writes_set_enable e = false) evs.
Proof.
  assert (H : at_platform_bases (g_gic_driver world_with_mock_gic))
    by (split; reflexivity).
  split; [exact H|]. exact (init_enables_no_line world_with_mock_gic H).
Defined.




(** ** The timer, beyond initialisation *)

Section TimerMore.

Variable invoke : Z -> Z -> Z -> M unit.
Variable ld : LinkMap.
Variable msr_effect : SysReg -> Z -> (SysReg -> Z) -> SysReg -> Z.

(** X11. With a stored reload value [T > 0], [handle_interrupt] first
    writes exactly [T] to [CNTP_TVAL_EL0] and does not touch the control
    register; only then does it call the user callback, if one is set, once,
    with the timer's line and the user context; end-of-interrupt follows the
    callback's return. *)
Theorem handle_interrupt_rearms w :
  0 < current_interval_ticks (global_el1_timer_instance w) ->
  (user_handler (global_el1_timer_instance w) = nullptr ->
   GenericTimer_handle_interrupt invoke msr_effect w
   = Ret tt
       (record [MmioWrite (eoir_addr w) (irq_number (global_el1_timer_instance w))]
          (set_sysreg
             (msr_effect CNTP_TVAL_EL0 (current_interval_ticks (global_el1_timer_instance w)))
             (record [Msr CNTP_TVAL_EL0
                          (current_interval_ticks (global_el1_timer_instance w))] w))))
  /\ (user_handler (global_el1_timer_instance w) <> nullptr ->
      GenericTimer_handle_interrupt invoke msr_effect w
      = (invoke (user_handler (global_el1_timer_instance w))
                (irq_number (global_el1_timer_instance w))
                (user_context (global_el1_timer_instance w));;
         irq ← gets (fun w => irq_number (global_el1_timer_instance w));
         end_of_interrupt irq)
          (record [Call (user_handler (global_el1_timer_instance w))
                        (irq_number (global_el1_timer_instance w))
                        (user_context (global_el1_timer_instance w))]
             (set_sysreg
                (msr_effect CNTP_TVAL_EL0
                   (current_interval_ticks (global_el1_timer_instance w)))
                (record [Msr CNTP_TVAL_EL0
                             (current_interval_ticks (global_el1_timer_instance w))] w)))).
Proof.
  intros Hpos.
  unfold GenericTimer_handle_interrupt, get_interrupt_controller, eoir_addr.
  run. destruct (Z.ltb_spec 0 (current_interval_ticks (global_el1_timer_instance w)));
    [|lia].
  simpl_world. split.
  - intros Hnull. rewrite Hnull. cbn [Z.eqb nullptr negb]. reflexivity.
  - intros Hcb. apply Z.eqb_neq in Hcb. rewrite Hcb. cbn [negb]. reflexivity.
Qed.

(** [stop], field by field. *)
Lemma stop_shape w :
  exists w',
    GenericTimer_stop msr_effect w = Ret tt w'
    /\ g_gic_driver w' = g_gic_driver w
    /\ global_el1_timer_instance w' = global_el1_timer_instance w
    /\ sysreg w' = msr_effect CNTP_CTL_EL0 2 (sysreg w)
    /\ exists evs,
         trace w' = trace w ++ Msr CNTP_CTL_EL0 2 :: evs
         /\ msr_writes CNTP_CTL_EL0 evs = []
         /\ msr_writes CNTP_TVAL_EL0 evs = []
         /\ calls_in evs = [].
Proof.
  unfold GenericTimer_stop, GenericTimer_set_control, get_interrupt_controller, disable_irq.
  run. simpl_world.
  destruct ((_ <=? _) || (_ <=? _));
    (eexists; split; [reflexivity|]); simpl_world;
    repeat (split; [reflexivity|]);
    rewrite <- app_assoc; eexists; (split; [reflexivity|]); repeat split.
Qed.

(** X12. [stop] always returns. It writes [CNTP_CTL_EL0] once, with ENABLE
    clear and IMASK set, never [CNTP_TVAL_EL0], and calls nothing; it leaves
    the timer object (callback, context, stored interval) and the whole
    driver object as they were, so the timer's handler stays registered on
    its line. *)
Theorem stop_keeps_registration w :
  exists w',
    GenericTimer_stop msr_effect w = Ret tt w'
    /\ g_gic_driver w' = g_gic_driver w
    /\ global_el1_timer_instance w' = global_el1_timer_instance w
    /\ msr_writes CNTP_CTL_EL0 (trace w') = msr_writes CNTP_CTL_EL0 (trace w) ++ [2]
    /\ msr_writes CNTP_TVAL_EL0 (trace w') = msr_writes CNTP_TVAL_EL0 (trace w)
    /\ calls_in (trace w') = calls_in (trace w).
Proof.
  destruct (stop_shape w) as (w' & Hrun & Hgic & Htimer & _ & evs & Htr & Hctl & Htval & Hcalls).
  exists w'. split; [exact Hrun|]. split; [exact Hgic|]. split; [exact Htimer|].
  rewrite Htr. unfold msr_writes, calls_in in *.
  rewrite !omap_app. cbn [omap list_omap].
  rewrite Hctl, Htval, Hcalls.
  destruct (decide (CNTP_CTL_EL0 = CNTP_CTL_EL0)); [|congruence].
  destruct (decide (CNTP_CTL_EL0 = CNTP_TVAL_EL0)); [discriminate|].
  rewrite !app_nil_r. auto.
Qed.

(** A successful [init], field by field. *)
Lemma init_success_shape h ctx w f :
  0 < f ->
  irq_number (global_el1_timer_instance w) < MAX_IRQS ->
  is_registered (slot_of w (irq_number (global_el1_timer_instance w))) = false ->
  wrap64 (sysreg w CNTFRQ_EL0) <> 0 ->
  exists w' evs,
    GenericTimer_init ld msr_effect f h ctx w = Ret tt w'
    /\ g_gic_driver w'
       = g_gic_driver
           (put_slot (irq_number (global_el1_timer_instance w))
              {| handler := generic_timer_irq_trampoline ld;
                 context := global_el1_timer_instance_addr ld;
                 is_registered := true |} w)
    /\ global_el1_timer_instance w'
       = {| user_handler := h; user_context := ctx;
            irq_number := irq_number (global_el1_timer_instance w);
            current_interval_ticks := Z.max 1 (wrap64 (sysreg w CNTFRQ_EL0) / f) |}
    /\ trace w' = trace w ++ evs
    /\ hardware_accesses evs
       = [Mrs CNTFRQ_EL0;
          Msr CNTP_TVAL_EL0 (Z.max 1 (wrap64 (sysreg w CNTFRQ_EL0) / f));
          Msr CNTP_CTL_EL0 1]
         ++ if (num_irq_lines (g_gic_driver w) <=? irq_number (global_el1_timer_instance w))
               || (MAX_IRQS <=? irq_number (global_el1_timer_instance w))
            then []
            else [MmioWrite
                    (gicd_addr w (GICD_ISENABLER0
                                  + irq_number (global_el1_timer_instance w) / 32 * 4))
                    (2 ^ (irq_number (global_el1_timer_instance w) mod 32))].
Proof.
  intros Hf Hirq Hfree Hcf.
  unfold GenericTimer_init.
  destruct (Z.eqb_spec f 0) as [->|_]; [lia|].
  unfold GenericTimer_get_timer_frequency_hz, GenericTimer_set_interval_ticks,
    GenericTimer_set_control, get_interrupt_controller, enable_irq.
  run.
  rewrite register_handler_free; [| exact Hirq | exact Hfree].
  cbn [negb]. simpl_world.
  destruct (Z.eqb_spec (wrap64 (sysreg w CNTFRQ_EL0)) 0) as [E|_]; [contradiction|].
  set (cf := wrap64 (sysreg w CNTFRQ_EL0)) in *.
  assert (Hcf0 : 0 <= cf) by (apply Z.mod_pos_bound; lia).
  assert (Hq : 0 <= cf / f) by (apply Z.div_pos; lia).
  rewrite (wrap32_one_hot _ (mod_32_range (irq_number (global_el1_timer_instance w)))).
  fold (gicd_addr w (GICD_ISENABLER0 + irq_number (global_el1_timer_instance w) / 32 * 4)).
  destruct (Z.eqb_spec (cf / f) 0) as [Hz|Hnz]; simpl_world;
    [replace (Z.max 1 (cf / f)) with 1 by lia
    |replace (Z.max 1 (cf / f)) with (cf / f) by lia];
    destruct ((num_irq_lines (g_gic_driver w) <=? irq_number (global_el1_timer_instance w))
              || (MAX_IRQS <=? irq_number (global_el1_timer_instance w)));
    simpl_world; (eexists _, _; split; [reflexivity|]); simpl_world;
    rewrite <- !app_assoc;
    repeat (split; [reflexivity|]); reflexivity.
Qed.

(** X13. After a successful [init], the controller holds the timer's
    trampoline, with the timer object as context, on the timer's line; the
    timer holds the caller's callback and context. Its hardware accesses are,
    in this order: the read of [CNTFRQ_EL0], the write of the reload value,
    the write of [CNTP_CTL_EL0] with ENABLE set and IMASK clear, and the
    set-enable write for its line. That last write is missing when the
    controller does not accept the line (its count of lines is too small, as
    before [GICDriver::init]): [init] then succeeds all the same, with the
    line still masked. *)
Theorem init_registers_trampoline h ctx w f :
  0 < f ->
  table_ok (g_gic_driver w) ->
  irq_number (global_el1_timer_instance w) < MAX_IRQS ->
  is_registered (slot_of w (irq_number (global_el1_timer_instance w))) = false ->
  wrap64 (sysreg w CNTFRQ_EL0) <> 0 ->
  exists w' evs,
    GenericTimer_init ld msr_effect f h ctx w = Ret tt w'
    /\ slot_of w' (irq_number (global_el1_timer_instance w))
       = {| handler := generic_timer_irq_trampoline ld;
            context := global_el1_timer_instance_addr ld;
            is_registered := true |}
    /\ user_handler (global_el1_timer_instance w') = h
    /\ user_context (global_el1_timer_instance w') = ctx
    /\ trace w' = trace w ++ evs
    /\ hardware_accesses evs
       = [Mrs CNTFRQ_EL0;
          Msr CNTP_TVAL_EL0 (Z.max 1 (wrap64 (sysreg w CNTFRQ_EL0) / f));
          Msr CNTP_CTL_EL0 1]
         ++ if (num_irq_lines (g_gic_driver w) <=? irq_number (global_el1_timer_instance w))
               || (MAX_IRQS <=? irq_number (global_el1_timer_instance w))
            then []
            else [MmioWrite
                    (gicd_addr w (GICD_ISENABLER0
                                  + irq_number (global_el1_timer_instance w) / 32 * 4))
                    (2 ^ (irq_number (global_el1_timer_instance w) mod 32))].
Proof.
  intros Hf Hok Hirq Hfree Hcf.
  destruct (init_success_shape h ctx w f Hf Hirq Hfree Hcf)
    as (w' & evs & Hrun & Hgic & Htimer & Htr & Hhw).
  exists w', evs. split; [exact Hrun|].
  split.
  { unfold slot_of at 1. rewrite Hgic. apply (slot_after_put w _ _ Hok Hirq). }
  rewrite Htimer. cbn [user_handler user_context]. auto.
Qed.

(** X14. The timer can be brought up once. After a successful [init], a
    second [init] with a non-zero frequency ends in the halt routine, because
    the timer's line still has its handler; this is so even when [stop] was
    called in between, since [stop] does not unregister. *)
Theorem second_init_halts h ctx w f f2 h2 ctx2 :
  0 < f -> f2 <> 0 ->
  table_ok (g_gic_driver w) ->
  irq_number (global_el1_timer_instance w) < MAX_IRQS ->
  is_registered (slot_of w (irq_number (global_el1_timer_instance w))) = false ->
  wrap64 (sysreg w CNTFRQ_EL0) <> 0 ->
  returns ((GenericTimer_init ld msr_effect f h ctx;;
            GenericTimer_init ld msr_effect f2 h2 ctx2) w) = false
  /\ returns ((GenericTimer_init ld msr_effect f h ctx;;
               GenericTimer_stop msr_effect;;
               GenericTimer_init ld msr_effect f2 h2 ctx2) w) = false.
Proof.
  intros Hf Hf2 Hok Hirq Hfree Hcf.
  destruct (init_success_shape h ctx w f Hf Hirq Hfree Hcf)
    as (w' & evs & Hrun & Hgic & Htimer & _).
  assert (Hirq' : irq_number (global_el1_timer_instance w')
                  = irq_number (global_el1_timer_instance w))
    by (rewrite Htimer; reflexivity).
  assert (Htaken : is_registered (slot_of w' (irq_number (global_el1_timer_instance w')))
                   = true).
  { rewrite Hirq'. unfold slot_of at 1. rewrite Hgic.
    fold (slot_of (put_slot (irq_number (global_el1_timer_instance w))
                     {| handler := generic_timer_irq_trampoline ld;
                        context := global_el1_timer_instance_addr ld;
                        is_registered := true |} w)
            (irq_number (global_el1_timer_instance w))).
    rewrite (proj1 (slot_after_put w _ _ Hok Hirq)). reflexivity. }
  unfold mbind, M_bind. rewrite Hrun. split.
  - apply init_halts_when_line_taken; [exact Hf2 | lia | exact Htaken].
  - destruct (stop_shape w') as (w'' & Hstop & Hgic' & Htimer' & _).
    rewrite Hstop.
    apply init_halts_when_line_taken; [exact Hf2 | rewrite Htimer'; lia |].
    unfold slot_of. rewrite Hgic', Htimer'. exact Htaken.
Qed.

End TimerMore.

Lemma handle_interrupt_rearms_witness :
  0 < current_interval_ticks (global_el1_timer_instance world_with_timer_running)
  /\ user_handler (global_el1_timer_instance world_with_timer_running) <> nullptr
  /\ GenericTimer_handle_interrupt idle_handler latching_msr world_with_timer_running
     = Ret tt
         (record [MmioWrite (GICC_BASE + GICC_EOIR) 30]
            (record [Call 0x3000 30 0x3008]
               (set_sysreg (latching_msr CNTP_TVAL_EL0 10000)
                  (record [Msr CNTP_TVAL_EL0 10000] world_with_timer_running)))).
Proof.
  assert (Hpos : 0 < current_interval_ticks
                       (global_el1_timer_instance world_with_timer_running))
    by (vm_compute; reflexivity).
  assert (Hcb : user_handler (global_el1_timer_instance world_with_timer_running)
                <> nullptr) by (vm_compute; discriminate).
  split; [exact Hpos|]. split; [exact Hcb|].
  exact (proj2 (handle_interrupt_rearms idle_handler latching_msr
                  world_with_timer_running Hpos) Hcb).
Defined.

Lemma init_registers_trampoline_witness :
  0 < 100
  /\ table_ok (g_gic_driver world_before_timer_init)
  /\ irq_number (global_el1_timer_instance world_before_timer_init) < MAX_IRQS
  /\ is_registered (slot_of world_before_timer_init 30) = false
  /\ wrap64 (sysreg world_before_timer_init CNTFRQ_EL0) <> 0
  /\ exists w' evs,
       GenericTimer_init sample_link_map latching_msr 100 0x3000 0x3008
         world_before_timer_init = Ret tt w'
       /\ slot_of w' 30
          = {| handler := 0x90000; context := 0x180000; is_registered := true |}
       /\ user_handler (global_el1_timer_instance w') = 0x3000
       /\ user_context (global_el1_timer_instance w') = 0x3008
       /\ trace w' = trace world_before_timer_init ++ evs
       /\ hardware_accesses evs
          = [Mrs CNTFRQ_EL0; Msr CNTP_TVAL_EL0 10000; Msr CNTP_CTL_EL0 1;
             MmioWrite (GICD_BASE + GICD_ISENABLER0) (2 ^ 30)].
Proof.
  assert (Hf : 0 < 100) by lia.
  assert (Hok : table_ok (g_gic_driver world_before_timer_init)) by reflexivity.
  assert (Hirq : irq_number (global_el1_timer_instance world_before_timer_init)
                 < MAX_IRQS) by (change (30 < 256); lia).
  assert (Hfree : is_registered
                    (slot_of world_before_timer_init
                       (irq_number (global_el1_timer_instance world_before_timer_init)))
                  = false) by reflexivity.
  assert (Hcf : wrap64 (sysreg world_before_timer_init CNTFRQ_EL0) <> 0)
    by (change (1000000 <> 0); lia).
  split; [exact Hf|]. split; [exact Hok|]. split; [exact Hirq|].
  split; [exact Hfree|]. split; [exact Hcf|].
  exact (init_registers_trampoline sample_link_map latching_msr 0x3000 0x3008
           world_before_timer_init 100 Hf Hok Hirq Hfree Hcf).
Defined.

Lemma second_init_halts_witness :
  0 < 100 /\ 50 <> 0
  /\ table_ok (g_gic_driver world_before_timer_init)
  /\ irq_number (global_el1_timer_instance world_before_timer_init) < MAX_IRQS
  /\ is_registered (slot_of world_before_timer_init 30) = false
  /\ wrap64 (sysreg world_before_timer_init CNTFRQ_EL0) <> 0
  /\ returns ((GenericTimer_init sample_link_map latching_msr 100 0x3000 0x3008;;
               GenericTimer_init sample_link_map latching_msr 50 0x4000 0x4008)
                world_before_timer_init) = false
  /\ returns ((GenericTimer_init sample_link_map latching_msr 100 0x3000 0x3008;;
               GenericTimer_stop latching_msr;;
               GenericTimer_init sample_link_map latching_msr 50 0x4000 0x4008)
                world_before_timer_init) = false.
Proof.
  assert (Hf : 0 < 100) by lia.
  assert (Hf2 : 50 <> 0) by lia.
  assert (Hok : table_ok (g_gic_driver world_before_timer_init)) by reflexivity.
  assert (Hirq : irq_number (global_el1_timer_instance world_before_timer_init)
                 < MAX_IRQS) by (change (30 < 256); lia).
  assert (Hfree : is_registered
                    (slot_of world_before_timer_init
                       (irq_number (global_el1_timer_instance world_before_timer_init)))
                  = false) by reflexivity.
  assert (Hcf : wrap64 (sysreg world_before_timer_init CNTFRQ_EL0) <> 0)
    by (change (1000000 <> 0); lia).
  split; [exact Hf|]. split; [exact Hf2|]. split; [exact Hok|]. split; [exact Hirq|].
  split; [exact Hfree|]. split; [exact Hcf|].
  exact (second_init_halts sample_link_map latching_msr 0x3000 0x3008
           world_before_timer_init 100 50 0x4000 0x4008 Hf Hf2 Hok Hirq Hfree Hcf).
Defined.

(** ** A timer tick, from the IRQ vector to the callback *)

Section TickPath.

Variable user_code : Z -> Z -> Z -> M unit.
Variable ld : LinkMap.
Variable msr_effect : SysReg -> Z -> (SysReg -> Z) -> SysReg -> Z.

(** X15. A tick, end to end. The timer's line is pending, valid, and holds
    the trampoline with the timer object as context (as [init] leaves it);
    the stored interval is positive and a user callback, other than the
    trampoline, is set. Then [c_irq_handler] reads [GICC_IAR], calls the
    trampoline, which re-arms [CNTP_TVAL_EL0] with the stored interval and
    calls the user callback with the timer's line and the user context. If
    the callback halts, so does the handler. If it returns and has left the
    line registered, the handler returns after exactly one further access:
    the end-of-interrupt write made by the timer; the dispatcher adds none
    of its own. *)
Theorem timer_tick_path w :
  pending_irq_id w = irq_number (global_el1_timer_instance w) ->
  irq_number (global_el1_timer_instance w) < num_irq_lines (g_gic_driver w) ->
  irq_number (global_el1_timer_instance w) < MAX_IRQS ->
  slot_of w (irq_number (global_el1_timer_instance w))
  = {| handler := generic_timer_irq_trampoline ld;
       context := global_el1_timer_instance_addr ld;
       is_registered := true |} ->
  generic_timer_irq_trampoline ld <> nullptr ->
  global_el1_timer_instance_addr ld <> nullptr ->
  0 < current_interval_ticks (global_el1_timer_instance w) ->
  user_handler (global_el1_timer_instance w) <> nullptr ->
  user_handler (global_el1_timer_instance w) <> generic_timer_irq_trampoline ld ->
  forall w1,
    w1 = record [Call (user_handler (global_el1_timer_instance w))
                      (irq_number (global_el1_timer_instance w))
                      (user_context (global_el1_timer_instance w))]
           (set_sysreg
              (msr_effect CNTP_TVAL_EL0
                 (current_interval_ticks (global_el1_timer_instance w)))
              (record [Msr CNTP_TVAL_EL0
                           (current_interval_ticks (global_el1_timer_instance w))]
                 (record [MmioRead (iar_addr w);
                          Call (generic_timer_irq_trampoline ld)
                               (irq_number (global_el1_timer_instance w))
                               (global_el1_timer_instance_addr ld)] w))) ->
    (forall w2,
        user_code (user_handler (global_el1_timer_instance w))
                  (irq_number (global_el1_timer_instance w))
                  (user_context (global_el1_timer_instance w)) w1 = Halt w2 ->
        c_irq_handler (code_at user_code ld msr_effect) w = Halt w2)
    /\ (forall w2,
           user_code (user_handler (global_el1_timer_instance w))
                     (irq_number (global_el1_timer_instance w))
                     (user_context (global_el1_timer_instance w)) w1 = Ret tt w2 ->
           has_handler w2 (irq_number (global_el1_timer_instance w)) = true ->
           c_irq_handler (code_at user_code ld msr_effect) w
           = Ret tt (record [MmioWrite (eoir_addr w2)
                                       (irq_number (global_el1_timer_instance w2))] w2)).
Proof.
  intros Hpend Hline Hmax Hslot Htramp Hthis Hticks Hcb _ w1 ->.
  assert (Hrun :
    c_irq_handler (code_at user_code ld msr_effect) w
    = match
        (user_code (user_handler (global_el1_timer_instance w))
                   (irq_number (global_el1_timer_instance w))
                   (user_context (global_el1_timer_instance w));;
         irq ← gets (fun w => irq_number (global_el1_timer_instance w));
         end_of_interrupt irq)
          (record [Call (user_handler (global_el1_timer_instance w))
                        (irq_number (global_el1_timer_instance w))
                        (user_context (global_el1_timer_instance w))]
             (set_sysreg
                (msr_effect CNTP_TVAL_EL0
                   (current_interval_ticks (global_el1_timer_instance w)))
                (record [Msr CNTP_TVAL_EL0
                             (current_interval_ticks (global_el1_timer_instance w))]
                   (record [MmioRead (iar_addr w);
                            Call (generic_timer_irq_trampoline ld)
                                 (irq_number (global_el1_timer_instance w))
                                 (global_el1_timer_instance_addr ld)] w))))
      with
      | Ret _ w' =>
          if has_handler w' (irq_number (global_el1_timer_instance w)) then Ret tt w'
          else Ret tt (record [MmioWrite (eoir_addr w')
                                 (irq_number (global_el1_timer_instance w))] w')
      | Halt w' => Halt w'
      end).
  { change (c_irq_handler (code_at user_code ld msr_effect) w)
      with (dispatch_interrupt (code_at user_code ld msr_effect) 0 w).
    rewrite dispatch_interrupt_unfold. cbv zeta. rewrite Hpend.
    unfold MAX_IRQS in *.
    destruct (Z.leb_spec 1020 (irq_number (global_el1_timer_instance w))); [lia|].
    cbn [andb].
    destruct (Z.leb_spec (num_irq_lines (g_gic_driver w))
                (irq_number (global_el1_timer_instance w))); [lia|].
    cbn [andb].
    destruct (Z.leb_spec 256 (irq_number (global_el1_timer_instance w))); [lia|].
    unfold has_handler at 1. rewrite Hslot. cbn [is_registered handler context andb].
    apply Z.eqb_neq in Htramp, Hthis, Hcb. rewrite Htramp. cbn [negb].
    unfold code_at at 1. rewrite Z.eqb_refl.
    unfold generic_timer_irq_trampoline_code. rewrite Hthis, Z.eqb_refl.
    unfold GenericTimer_handle_interrupt, get_interrupt_controller. run. simpl_world.
    destruct (Z.ltb_spec 0 (current_interval_ticks (global_el1_timer_instance w)));
      [|lia].
    simpl_world. rewrite Hcb. cbn [negb]. reflexivity. }
  rewrite Hrun. unfold mbind, M_bind.
  split; intros w2 Hu; rewrite Hu; [reflexivity|].
  intros Hkeeps. run.
  assert (Hh : has_handler
                 (record [MmioWrite (wrap64 (gicc_base_addr (g_gic_driver w2) + GICC_EOIR))
                            (irq_number (global_el1_timer_instance w2))] w2)
                 (irq_number (global_el1_timer_instance w))
               = has_handler w2 (irq_number (global_el1_timer_instance w)))
    by reflexivity.
  rewrite Hh, Hkeeps. reflexivity.
Qed.

End TickPath.

Lemma timer_tick_path_witness :
  pending_irq_id world_with_timer_running = 30
  /\ 30 < num_irq_lines (g_gic_driver world_with_timer_running)
  /\ slot_of world_with_timer_running 30
     = {| handler := 0x90000; context := 0x180000; is_registered := true |}
  /\ current_interval_ticks (global_el1_timer_instance world_with_timer_running) = 10000
  /\ user_handler (global_el1_timer_instance world_with_timer_running) = 0x3000
  /\ c_irq_handler (code_at idle_handler sample_link_map latching_msr)
       world_with_timer_running
     = Ret tt
         (record [MmioWrite (GICC_BASE + GICC_EOIR) 30]
            (record [Call 0x3000 30 0x3008]
               (set_sysreg (latching_msr CNTP_TVAL_EL0 10000)
                  (record [Msr CNTP_TVAL_EL0 10000]
                     (record [MmioRead (GICC_BASE + GICC_IAR); Call 0x90000 30 0x180000]
                        world_with_timer_running))))).
Proof.
  assert (Hpend : pending_irq_id world_with_timer_running
                  = irq_number (global_el1_timer_instance world_with_timer_running))
    by (vm_compute; reflexivity).
  assert (Hline : irq_number (global_el1_timer_instance world_with_timer_running)
                  < num_irq_lines (g_gic_driver world_with_timer_running))
    by (vm_compute; reflexivity).
  assert (Hmax : irq_number (global_el1_timer_instance world_with_timer_running)
                 < MAX_IRQS) by (vm_compute; reflexivity).
  assert (Hslot : slot_of world_with_timer_running
                    (irq_number (global_el1_timer_instance world_with_timer_running))
                  = {| handler := generic_timer_irq_trampoline sample_link_map;
                       context := global_el1_timer_instance_addr sample_link_map;
                       is_registered := true |})
    by (vm_compute; reflexivity).
  assert (Htramp : generic_timer_irq_trampoline sample_link_map <> nullptr)
    by (vm_compute; discriminate).
  assert (Hthis : global_el1_timer_instance_addr sample_link_map <> nullptr)
    by (vm_compute; discriminate).
  assert (Hticks : 0 < current_interval_ticks
                         (global_el1_timer_instance world_with_timer_running))
    by (vm_compute; reflexivity).
  assert (Hcb : user_handler (global_el1_timer_instance world_with_timer_running)
                <> nullptr) by (vm_compute; discriminate).
  assert (Hne : user_handler (global_el1_timer_instance world_with_timer_running)
                <> generic_timer_irq_trampoline sample_link_map)
    by (vm_compute; discriminate).
  split; [vm_compute; reflexivity|]. split; [vm_compute; reflexivity|].
  split; [vm_compute; reflexivity|]. split; [vm_compute; reflexivity|].
  split; [vm_compute; reflexivity|].
  exact (proj2 (timer_tick_path idle_handler sample_link_map latching_msr
                  world_with_timer_running
                  Hpend Hline Hmax Hslot Htramp Hthis Hticks Hcb Hne _ eq_refl)
           _ eq_refl eq_refl).
Defined.

(** ** The translation tables, field by field *)

Lemma land_1_testbit a : Z.land a 1 = Z.b2z (Z.testbit a 0).
Proof. change 1 with (Z.ones 1). rewrite Z.land_ones by lia. symmetry. apply Z.bit0_mod. Qed.

(** A field of the low 21 bits of a block descriptor comes from its flags. *)
Lemma block_field pa flags m :
  pa mod PAGE_SIZE_2MB = 0 -> Z.land (Z.ones 21) m = m ->
  Z.land (Z.lor pa flags) m = Z.land flags m.
Proof.
  intros Hal Hm. rewrite <- Hm, !Z.land_assoc, Z.land_lor_distr_l.
  rewrite (Z.land_ones pa 21) by lia.
  change (2 ^ 21) with PAGE_SIZE_2MB. rewrite Hal. reflexivity.
Qed.

(** So does every bit above the output address. *)
Lemma block_high_bit pa flags n :
  0 <= pa < 2 ^ 48 -> 48 <= n ->
  Z.testbit (Z.lor pa flags) n = Z.testbit flags n.
Proof.
  intros Hpa Hn. rewrite Z.lor_spec.
  rewrite <- (Z.mod_small pa (2 ^ 48)) by exact Hpa.
  rewrite Z.mod_pow2_bits_high by lia. reflexivity.
Qed.

Lemma not_in_peripheral_window pa :
  pa < RPI4_PERIPHERAL_BASE_PHYS -> in_peripheral_window pa = false.
Proof.
  intros H. unfold in_peripheral_window.
  destruct (Z.leb_spec RPI4_PERIPHERAL_BASE_PHYS pa); [lia|]. reflexivity.
Qed.

Lemma msr_writes_app r evs1 evs2 :
  msr_writes r (evs1 ++ evs2) = msr_writes r evs1 ++ msr_writes r evs2.
Proof. apply omap_app. Qed.

(** Register writes are hardware accesses. *)
Lemma msr_writes_hardware r evs :
  msr_writes r evs = msr_writes r (hardware_accesses evs).
Proof.
  induction evs as [|e evs IH]; [reflexivity|].
  unfold msr_writes, hardware_accesses in *.
  destruct e; cbn [omap list_omap is_hardware_access]; try exact IH.
  destruct (decide (_ = _)); rewrite IH; reflexivity.
Qed.

Section MmuMore.

Variable ld : LinkMap.
Variable msr_effect : SysReg -> Z -> (SysReg -> Z) -> SysReg -> Z.

(** Below 2 GiB no block reaches the peripheral window: the device branch of
    either loop is never taken. *)
Lemma l2_table_0_entry_form i :
  0 <= i < PAGE_TABLE_ENTRIES ->
  l2_table_0_entry ld i
  = Z.lor (i * PAGE_SIZE_2MB)
      (if overlaps_kernel_image ld (i * PAGE_SIZE_2MB)
       then kernel_image_flags block_flags else general_ram_flags block_flags).
Proof.
  intros Hi. unfold l2_table_0_entry. fold block_flags. cbv zeta.
  unfold PAGE_TABLE_ENTRIES in Hi.
  assert (Hpa : wrap64 (i * PAGE_SIZE_2MB) = i * PAGE_SIZE_2MB)
    by (unfold wrap64, PAGE_SIZE_2MB; apply Z.mod_small; lia).
  rewrite Hpa, not_in_peripheral_window; [reflexivity|].
  unfold RPI4_PERIPHERAL_BASE_PHYS, PAGE_SIZE_2MB. lia.
Qed.

Lemma l2_table_1_entry_form i :
  0 <= i < PAGE_TABLE_ENTRIES ->
  l2_table_1_entry i
  = Z.lor (PAGE_SIZE_1GB + i * PAGE_SIZE_2MB) (general_ram_flags block_flags).
Proof.
  intros Hi. unfold l2_table_1_entry. fold block_flags. cbv zeta.
  unfold PAGE_TABLE_ENTRIES in Hi.
  assert (Hpa : wrap64 (PAGE_SIZE_1GB + wrap64 (i * PAGE_SIZE_2MB))
                = PAGE_SIZE_1GB + i * PAGE_SIZE_2MB).
  { unfold wrap64, PAGE_SIZE_2MB, PAGE_SIZE_1GB.
    rewrite (Z.mod_small (i * _)) by lia. apply Z.mod_small. lia. }
  rewrite Hpa, not_in_peripheral_window; [reflexivity|].
  unfold RPI4_PERIPHERAL_BASE_PHYS, PAGE_SIZE_2MB, PAGE_SIZE_1GB. lia.
Qed.

(** What [setup_page_tables] leaves behind, and what it leaves alone. *)
Lemma setup_page_tables_shape w :
  exists w' evs,
    MMU_setup_page_tables ld w = Ret tt w'
    /\ page_tables w'
       = {| l1_page_table :=
              <[1%nat := Z.lor (Z.lor (l2_page_table_1_addr ld) PTE_VALID) PTE_TABLE_OR_PAGE]>
                (<[0%nat := Z.lor (Z.lor (l2_page_table_0_addr ld) PTE_VALID)
                              PTE_TABLE_OR_PAGE]> zeroed_table);
            l2_page_table_0 :=
              fill_table (l2_table_0_entry ld) (Z.to_nat PAGE_TABLE_ENTRIES) 0 zeroed_table;
            l2_page_table_1 :=
              fill_table l2_table_1_entry (Z.to_nat PAGE_TABLE_ENTRIES) 0 zeroed_table |}
    /\ g_gic_driver w' = g_gic_driver w
    /\ global_el1_timer_instance w' = global_el1_timer_instance w
    /\ sysreg w' = sysreg w
    /\ mmio w' = mmio w
    /\ trace w' = trace w ++ evs
    /\ hardware_accesses evs = [].
Proof.
  unfold MMU_setup_page_tables. run.
  eexists _, _. split; [reflexivity|]. simpl_world.
  rewrite <- !app_assoc. repeat (split; [reflexivity|]). reflexivity.
Qed.

Lemma setup_page_tables_entries w i :
  0 <= i < PAGE_TABLE_ENTRIES ->
  l2_page_table_0 (page_tables (final (MMU_setup_page_tables ld w))) !! Z.to_nat i
  = Some (l2_table_0_entry ld i)
  /\ l2_page_table_1 (page_tables (final (MMU_setup_page_tables ld w))) !! Z.to_nat i
     = Some (l2_table_1_entry i).
Proof.
  intros Hi.
  destruct (setup_page_tables_shape w) as (w' & evs & Hrun & Hpt & _).
  rewrite Hrun. cbn [final]. rewrite Hpt. cbn [l2_page_table_0 l2_page_table_1].
  assert (Hlen : (Z.to_nat 0 + Z.to_nat PAGE_TABLE_ENTRIES <= length zeroed_table)%nat).
  { unfold zeroed_table. rewrite length_replicate. lia. }
  split; apply fill_table_lookup; try exact Hlen; lia.
Qed.

Lemma block_aligned_0 i : (i * PAGE_SIZE_2MB) mod PAGE_SIZE_2MB = 0.
Proof. apply Z_mod_mult. Qed.

Lemma block_aligned_1 i : (PAGE_SIZE_1GB + i * PAGE_SIZE_2MB) mod PAGE_SIZE_2MB = 0.
Proof.
  change PAGE_SIZE_1GB with (512 * PAGE_SIZE_2MB).
  rewrite <- Z.mul_add_distr_r. apply Z_mod_mult.
Qed.

(** X16. Every one of the 1024 descriptors [setup_page_tables] stores in the
    two second-level tables is a valid block descriptor (bits 1:0 are 01)
    with the access flag set, attribute index [MAIR_IDX_NORMAL_C] and
    unprivileged-execute-never set: no block below 2 GiB is device memory,
    the peripheral window starting at [0xFE000000]. Privileged execution is
    forbidden in every block of the second table, and in a block of the
    first table exactly when the kernel-image test of the loop fails for
    it. *)
Theorem l2_blocks_are_normal_memory w i :
  0 <= i < PAGE_TABLE_ENTRIES ->
  exists d0 d1,
    l2_page_table_0 (page_tables (final (MMU_setup_page_tables ld w))) !! Z.to_nat i = Some d0
    /\ l2_page_table_1 (page_tables (final (MMU_setup_page_tables ld w))) !! Z.to_nat i
       = Some d1
    /\ Z.land d0 3 = 1 /\ Z.land d1 3 = 1
    /\ attr_indx d0 = MAIR_IDX_NORMAL_C /\ attr_indx d1 = MAIR_IDX_NORMAL_C
    /\ Z.testbit d0 10 = true /\ Z.testbit d1 10 = true
    /\ Z.testbit d0 54 = true /\ Z.testbit d1 54 = true
    /\ Z.testbit d0 53 = negb (overlaps_kernel_image ld (i * PAGE_SIZE_2MB))
    /\ Z.testbit d1 53 = true.
Proof.
  intros Hi.
  destruct (setup_page_tables_entries w i Hi) as [H0 H1].
  exists (l2_table_0_entry ld i), (l2_table_1_entry i).
  split; [exact H0|]. split; [exact H1|].
  rewrite (l2_table_0_entry_form i Hi), (l2_table_1_entry_form i Hi).
  pose proof (block_aligned_0 i) as Ha0. pose proof (block_aligned_1 i) as Ha1.
  unfold PAGE_TABLE_ENTRIES in Hi.
  assert (Hr0 : 0 <= i * PAGE_SIZE_2MB < 2 ^ 48) by (unfold PAGE_SIZE_2MB; lia).
  assert (Hr1 : 0 <= PAGE_SIZE_1GB + i * PAGE_SIZE_2MB < 2 ^ 48)
    by (unfold PAGE_SIZE_2MB, PAGE_SIZE_1GB; lia).
  assert (Hbit10 : forall pa flags, pa mod PAGE_SIZE_2MB = 0 ->
             Z.testbit (Z.lor pa flags) 10 = Z.testbit flags 10).
  { intros pa flags Hal. rewrite Z.lor_spec.
    assert (Hz : Z.land pa (Z.ones 21) = 0)
      by (rewrite Z.land_ones by lia; exact Hal).
    apply (f_equal (fun x => Z.testbit x 10)) in Hz.
    rewrite Z.land_spec, Z.testbit_ones_nonneg, Z.bits_0 in Hz by lia.
    rewrite andb_true_r in Hz. rewrite Hz. reflexivity. }
  unfold attr_indx.
  change 7 with (Z.shiftr 28 2). rewrite <- !Z.shiftr_land.
  rewrite !(block_field _ _ 3), !(block_field _ _ 28), !Hbit10 by (assumption || reflexivity).
  rewrite !block_high_bit by (assumption || lia).
  destruct (overlaps_kernel_image ld (i * PAGE_SIZE_2MB)); repeat split; reflexivity.
Qed.

(** X17. A kernel image that lies inside one 2 MiB block without touching
    the block's first or last byte is found by neither half of the overlap
    test, which looks at those two bytes only. Every block of both tables is
    then mapped privileged-execute-never, the block holding the image
    included. *)
Theorem image_inside_one_block_not_executable w i j :
  0 <= i < PAGE_TABLE_ENTRIES ->
  i * PAGE_SIZE_2MB < KERNEL_START ld ->
  KERNEL_END ld <= i * PAGE_SIZE_2MB + PAGE_SIZE_2MB - 1 ->
  0 <= j < PAGE_TABLE_ENTRIES ->
  exists d0 d1,
    l2_page_table_0 (page_tables (final (MMU_setup_page_tables ld w))) !! Z.to_nat j = Some d0
    /\ l2_page_table_1 (page_tables (final (MMU_setup_page_tables ld w))) !! Z.to_nat j
       = Some d1
    /\ Z.testbit d0 53 = true
    /\ Z.testbit d1 53 = true.
Proof.
  intros Hi Hstart Hend Hj.
  destruct (setup_page_tables_entries w j Hj) as [H0 H1].
  exists (l2_table_0_entry ld j), (l2_table_1_entry j).
  split; [exact H0|]. split; [exact H1|].
  rewrite (l2_table_0_entry_form j Hj), (l2_table_1_entry_form j Hj).
  unfold PAGE_TABLE_ENTRIES in *.
  assert (Hr0 : 0 <= j * PAGE_SIZE_2MB < 2 ^ 48) by (unfold PAGE_SIZE_2MB; lia).
  assert (Hr1 : 0 <= PAGE_SIZE_1GB + j * PAGE_SIZE_2MB < 2 ^ 48)
    by (unfold PAGE_SIZE_2MB, PAGE_SIZE_1GB; lia).
  rewrite !block_high_bit by (assumption || lia).
  assert (Hno : overlaps_kernel_image ld (j * PAGE_SIZE_2MB) = false).
  { unfold overlaps_kernel_image.
    assert (Hw : wrap64 (j * PAGE_SIZE_2MB + PAGE_SIZE_2MB - 1)
                 = j * PAGE_SIZE_2MB + PAGE_SIZE_2MB - 1)
      by (unfold wrap64, PAGE_SIZE_2MB; apply Z.mod_small; lia).
    rewrite Hw. unfold PAGE_SIZE_2MB in *.
    apply orb_false_iff. split; apply andb_false_iff.
    - destruct (Z.leb_spec (KERNEL_START ld) (j * (2 * 1024 * 1024))); [|auto].
      right. apply Z.ltb_ge. lia.
    - destruct (Z.leb_spec (KERNEL_START ld) (j * (2 * 1024 * 1024) + 2 * 1024 * 1024 - 1));
        [|auto].
      right. apply Z.ltb_ge. lia. }
  rewrite Hno. split; reflexivity.
Qed.

(** X18. The first-level table has two entries: entries 0 and 1 are the
    addresses of the two second-level tables with the valid and table bits
    OR-ed in, and every entry from 2 to 511 is zero. Nothing at or above
    2 GiB has a descriptor; entry 3, in whose gigabyte [GICD_BASE],
    [GICC_BASE] and the peripheral window fall, is among the zero ones. *)
Theorem l1_table_two_entries w k :
  2 <= k < PAGE_TABLE_ENTRIES ->
  exists w',
    MMU_setup_page_tables ld w = Ret tt w'
    /\ length (l1_page_table (page_tables w')) = Z.to_nat PAGE_TABLE_ENTRIES
    /\ l1_page_table (page_tables w') !! 0%nat
       = Some (Z.lor (Z.lor (l2_page_table_0_addr ld) PTE_VALID) PTE_TABLE_OR_PAGE)
    /\ l1_page_table (page_tables w') !! 1%nat
       = Some (Z.lor (Z.lor (l2_page_table_1_addr ld) PTE_VALID) PTE_TABLE_OR_PAGE)
    /\ l1_page_table (page_tables w') !! Z.to_nat k = Some 0.
Proof.
  intros Hk.
  destruct (setup_page_tables_shape w) as (w' & evs & Hrun & Hpt & _).
  exists w'. split; [exact Hrun|]. rewrite Hpt. cbn [l1_page_table].
  unfold PAGE_TABLE_ENTRIES in *. unfold zeroed_table, PAGE_TABLE_ENTRIES.
  split; [rewrite !length_insert, length_replicate; reflexivity|].
  split; [reflexivity|]. split; [reflexivity|].
  rewrite !list_lookup_insert_ne by lia.
  apply lookup_replicate_2. lia.
Qed.

(** What [configure_translation_control] does. *)
Lemma configure_translation_control_shape w :
  exists w' evs,
    MMU_configure_translation_control ld msr_effect w = Ret tt w'
    /\ page_tables w' = page_tables w
    /\ sysreg w'
       = msr_effect TTBR0_EL1 (l1_page_table_addr ld)
           (msr_effect TCR_EL1 0x200803510 (msr_effect MAIR_EL1 0xFF4400 (sysreg w)))
    /\ trace w' = trace w ++ evs
    /\ hardware_accesses evs
       = [Msr MAIR_EL1 0xFF4400; Msr TCR_EL1 0x200803510;
          Msr TTBR0_EL1 (l1_page_table_addr ld)].
Proof.
  unfold MMU_configure_translation_control. run.
  eexists _, _. split; [reflexivity|]. simpl_world.
  rewrite <- !app_assoc. repeat (split; [reflexivity|]). reflexivity.
Qed.

(** X19. The tables and [MAIR_EL1] agree: after [setup_page_tables] and
    [configure_translation_control], [MAIR_EL1] has been written once, and
    the attribute index of each second-level descriptor selects in the
    written value the byte [MAIR_ATTR_NORMAL_C], write-back cacheable normal
    memory. *)
Theorem descriptors_select_write_back w i :
  0 <= i < PAGE_TABLE_ENTRIES ->
  exists w' d0 d1 mair_val,
    (MMU_setup_page_tables ld;; MMU_configure_translation_control ld msr_effect) w
    = Ret tt w'
    /\ l2_page_table_0 (page_tables w') !! Z.to_nat i = Some d0
    /\ l2_page_table_1 (page_tables w') !! Z.to_nat i = Some d1
    /\ msr_writes MAIR_EL1 (trace w') = msr_writes MAIR_EL1 (trace w) ++ [mair_val]
    /\ mair_attr mair_val (attr_indx d0) = MAIR_ATTR_NORMAL_C
    /\ mair_attr mair_val (attr_indx d1) = MAIR_ATTR_NORMAL_C.
Proof.
  intros Hi.
  pose proof (setup_page_tables_entries w i Hi) as [H0 H1].
  destruct (setup_page_tables_shape w) as (w1 & evs1 & Hrun1 & _ & _ & _ & _ & _ & Htr1 & Hhw1).
  rewrite Hrun1 in H0, H1. cbn [final] in H0, H1.
  destruct (configure_translation_control_shape w1)
    as (w2 & evs2 & Hrun2 & Hpt2 & _ & Htr2 & Hhw2).
  exists w2, (l2_table_0_entry ld i), (l2_table_1_entry i), 0xFF4400.
  split; [unfold mbind, M_bind; rewrite Hrun1; exact Hrun2|].
  rewrite Hpt2. split; [exact H0|]. split; [exact H1|].
  split.
  { rewrite Htr2, Htr1, !msr_writes_app.
    rewrite (msr_writes_hardware _ evs1), (msr_writes_hardware _ evs2), Hhw1, Hhw2.
    cbn. rewrite app_nil_r. reflexivity. }
  rewrite (l2_table_0_entry_form i Hi), (l2_table_1_entry_form i Hi).
  unfold attr_indx. change 7 with (Z.shiftr 28 2). rewrite <- !Z.shiftr_land.
  rewrite !(block_field _ _ 28)
    by (apply block_aligned_0 || apply block_aligned_1 || reflexivity).
  destruct (overlaps_kernel_image ld (i * PAGE_SIZE_2MB)); split; reflexivity.
Qed.

(** What [enable_mmu_and_caches] does when the M bit reads back set. *)
Lemma enable_mmu_shape w :
  Z.land (wrap64 (msr_effect SCTLR_EL1
                    (sctlr_with_mmu_and_caches (wrap64 (sysreg w SCTLR_EL1)))
                    (sysreg w) SCTLR_EL1)) 1 = 1 ->
  exists w' evs,
    MMU_enable_mmu_and_caches msr_effect w = Ret tt w'
    /\ page_tables w' = page_tables w
    /\ trace w' = trace w ++ evs
    /\ hardware_accesses evs
       = [DsbIsh; Isb; TlbiVmalle1is; DsbIsh; Isb;
          Mrs SCTLR_EL1; Mrs SCTLR_EL1;
          Msr SCTLR_EL1 (sctlr_with_mmu_and_caches (wrap64 (sysreg w SCTLR_EL1)));
          Isb; Mrs SCTLR_EL1].
Proof.
  intros Hm. unfold MMU_enable_mmu_and_caches. run. simpl_world.
  rewrite Hm. cbn [Z.eqb].
  eexists _, _. split; [reflexivity|]. simpl_world.
  rewrite <- !app_assoc. repeat (split; [reflexivity|]). reflexivity.
Qed.

(** X20. On a core where a write of [SCTLR_EL1] with the M bit set reads
    back with the M bit set, [init_and_enable] returns. Its hardware
    accesses are, in this order: the read of [SCTLR_EL1] for the warning;
    the writes of [MAIR_EL1], [TCR_EL1] (T0SZ 16, 4 KiB granule, inner
    shareable write-back walks, TTBR1 walks off, 40-bit physical addresses)
    and [TTBR0_EL1] (the first-level table); DSB, ISB, the TLB invalidate,
    DSB, ISB; two reads of [SCTLR_EL1], its one write, ISB, and the read
    back. The tables are those of [setup_page_tables], complete before the
    first register is written; an MMU found already enabled changes nothing
    but the log. *)
Theorem init_and_enable_sequence w :
  (forall v regs,
      Z.land v 1 = 1 -> Z.land (wrap64 (msr_effect SCTLR_EL1 v regs SCTLR_EL1)) 1 = 1) ->
  exists w' evs s,
    MMU_init_and_enable ld msr_effect w = Ret tt w'
    /\ page_tables w' = page_tables (final (MMU_setup_page_tables ld w))
    /\ trace w' = trace w ++ evs
    /\ hardware_accesses evs
       = [Mrs SCTLR_EL1;
          Msr MAIR_EL1 0xFF4400; Msr TCR_EL1 0x200803510;
          Msr TTBR0_EL1 (l1_page_table_addr ld);
          DsbIsh; Isb; TlbiVmalle1is; DsbIsh; Isb;
          Mrs SCTLR_EL1; Mrs SCTLR_EL1;
          Msr SCTLR_EL1 (sctlr_with_mmu_and_caches s);
          Isb; Mrs SCTLR_EL1].
Proof.
  intros Hlatch.
  assert (Hm : forall s, Z.land (sctlr_with_mmu_and_caches s) 1 = 1).
  { intros s. rewrite land_1_testbit. unfold sctlr_with_mmu_and_caches.
    rewrite !Z.lor_spec, !testbit_shiftl_1 by lia. cbn.
    rewrite orb_true_r. reflexivity. }
  destruct (setup_page_tables_shape w) as (wt & evst & Hrunt & Hptt & _).
  rewrite Hrunt. cbn [final]. rewrite Hptt. clear Hrunt Hptt wt evst.
  unfold MMU_init_and_enable. run. simpl_world.
  destruct (negb (Z.land (wrap64 (sysreg w SCTLR_EL1)) 1 =? 0)); cbv beta;
    match goal with
    | |- context [MMU_setup_page_tables ld ?W] =>
        destruct (setup_page_tables_shape W)
          as (w1 & evs1 & Hrun1 & Hpt1 & _ & _ & _ & _ & Htr1 & Hhw1)
    end;
    rewrite Hrun1;
    destruct (configure_translation_control_shape w1)
      as (w2 & evs2 & Hrun2 & Hpt2 & _ & Htr2 & Hhw2);
    rewrite Hrun2;
    destruct (enable_mmu_shape w2 (Hlatch _ _ (Hm _)))
      as (w3 & evs3 & Hrun3 & Hpt3 & Htr3 & Hhw3);
    rewrite Hrun3;
    (eexists _, _, _; split; [reflexivity|]); simpl_world;
    rewrite Hpt3, Hpt2, Hpt1, Htr3, Htr2, Htr1; simpl_world;
    (split; [reflexivity|]);
    rewrite <- !app_assoc; (split; [reflexivity|]);
    unfold hardware_accesses in *; rewrite !omap_app, Hhw1, Hhw2, Hhw3; reflexivity.
Qed.

End MmuMore.

Lemma latching_msr_keeps_m v regs :
  Z.land v 1 = 1 -> Z.land (wrap64 (latching_msr SCTLR_EL1 v regs SCTLR_EL1)) 1 = 1.
Proof.
  intros Hv. unfold latching_msr.
  destruct (decide (SCTLR_EL1 = SCTLR_EL1)); [|congruence].
  rewrite land_1_testbit in *. unfold wrap64.
  rewrite Z.mod_pow2_bits_low by lia. exact Hv.
Qed.

Lemma l2_blocks_are_normal_memory_witness :
  0 <= 0 < PAGE_TABLE_ENTRIES
  /\ exists d0 d1,
       l2_page_table_0
         (page_tables (final (MMU_setup_page_tables sample_link_map boot_world))) !! 0%nat
       = Some d0
       /\ l2_page_table_1
            (page_tables (final (MMU_setup_page_tables sample_link_map boot_world))) !! 0%nat
          = Some d1
       /\ Z.land d0 3 = 1 /\ Z.land d1 3 = 1
       /\ attr_indx d0 = 2 /\ attr_indx d1 = 2
       /\ Z.testbit d0 10 = true /\ Z.testbit d1 10 = true
       /\ Z.testbit d0 54 = true /\ Z.testbit d1 54 = true
       /\ Z.testbit d0 53 = false
       /\ Z.testbit d1 53 = true.
Proof.
  assert (Hi : 0 <= 0 < PAGE_TABLE_ENTRIES) by (unfold PAGE_TABLE_ENTRIES; lia).
  split; [exact Hi|].
  exact (l2_blocks_are_normal_memory sample_link_map boot_world 0 Hi).
Defined.

Lemma image_inside_one_block_not_executable_witness :
  0 <= 0 < PAGE_TABLE_ENTRIES
  /\ 0 * PAGE_SIZE_2MB < KERNEL_START small_image_link_map
  /\ KERNEL_END small_image_link_map <= 0 * PAGE_SIZE_2MB + PAGE_SIZE_2MB - 1
  /\ exists d0 d1,
       l2_page_table_0
         (page_tables (final (MMU_setup_page_tables small_image_link_map boot_world)))
         !! 0%nat = Some d0
       /\ l2_page_table_1
            (page_tables (final (MMU_setup_page_tables small_image_link_map boot_world)))
            !! 0%nat = Some d1
       /\ Z.testbit d0 53 = true
       /\ Z.testbit d1 53 = true.
Proof.
  assert (Hi : 0 <= 0 < PAGE_TABLE_ENTRIES) by (unfold PAGE_TABLE_ENTRIES; lia).
  assert (Hs : 0 * PAGE_SIZE_2MB < KERNEL_START small_image_link_map)
    by (vm_compute; reflexivity).
  assert (He : KERNEL_END small_image_link_map <= 0 * PAGE_SIZE_2MB + PAGE_SIZE_2MB - 1)
    by (vm_compute; discriminate).
  split; [exact Hi|]. split; [exact Hs|]. split; [exact He|].
  exact (image_inside_one_block_not_executable small_image_link_map boot_world 0 0
           Hi Hs He Hi).
Defined.

Lemma l1_table_two_entries_witness :
  2 <= 3 < PAGE_TABLE_ENTRIES
  /\ GICD_BASE / PAGE_SIZE_1GB = 3
  /\ exists w',
       MMU_setup_page_tables sample_link_map boot_world = Ret tt w'
       /\ length (l1_page_table (page_tables w')) = 512%nat
       /\ l1_page_table (page_tables w') !! 0%nat = Some 0x101003
       /\ l1_page_table (page_tables w') !! 1%nat = Some 0x102003
       /\ l1_page_table (page_tables w') !! 3%nat = Some 0.
Proof.
  assert (Hk : 2 <= 3 < PAGE_TABLE_ENTRIES) by (unfold PAGE_TABLE_ENTRIES; lia).
  split; [exact Hk|]. split; [reflexivity|].
  exact (l1_table_two_entries sample_link_map boot_world 3 Hk).
Defined.

Lemma descriptors_select_write_back_witness :
  0 <= 7 < PAGE_TABLE_ENTRIES
  /\ exists w' d0 d1 mair_val,
       (MMU_setup_page_tables sample_link_map;;
        MMU_configure_translation_control sample_link_map latching_msr) boot_world
       = Ret tt w'
       /\ l2_page_table_0 (page_tables w') !! 7%nat = Some d0
       /\ l2_page_table_1 (page_tables w') !! 7%nat = Some d1
       /\ msr_writes MAIR_EL1 (trace w') = [mair_val]
       /\ mair_attr mair_val (attr_indx d0) = 0xFF
       /\ mair_attr mair_val (attr_indx d1) = 0xFF.
Proof.
  assert (Hi : 0 <= 7 < PAGE_TABLE_ENTRIES) by (unfold PAGE_TABLE_ENTRIES; lia).
  split; [exact Hi|].
  exact (descriptors_select_write_back sample_link_map latching_msr boot_world 7 Hi).
Defined.

Lemma init_and_enable_sequence_witness :
  (forall v regs,
      Z.land v 1 = 1 -> Z.land (wrap64 (latching_msr SCTLR_EL1 v regs SCTLR_EL1)) 1 = 1)
  /\ exists w' evs s,
       MMU_init_and_enable sample_link_map latching_msr boot_world = Ret tt w'
       /\ page_tables w'
          = page_tables (final (MMU_setup_page_tables sample_link_map boot_world))
       /\ trace w' = evs
       /\ hardware_accesses evs
          = [Mrs SCTLR_EL1;
             Msr MAIR_EL1 0xFF4400; Msr TCR_EL1 0x200803510; Msr TTBR0_EL1 0x100000;
             DsbIsh; Isb; TlbiVmalle1is; DsbIsh; Isb;
             Mrs SCTLR_EL1; Mrs SCTLR_EL1;
             Msr SCTLR_EL1 (sctlr_with_mmu_and_caches s);
             Isb; Mrs SCTLR_EL1].
Proof.
  split; [exact latching_msr_keeps_m|].
  exact (init_and_enable_sequence sample_link_map latching_msr boot_world
           latching_msr_keeps_m).
Defined.

(** ** Bring-up in the order of [kernel_main] *)





Section BringUp.

Variable ld : LinkMap.
Variable msr_effect : SysReg -> Z -> (SysReg -> Z) -> SysReg -> Z.


End BringUp.


(** ** What a failed timer initialisation leaves behind *)

Section TimerFailures.

Variable ld : LinkMap.
Variable msr_effect : SysReg -> Z -> (SysReg -> Z) -> SysReg -> Z.

(** X22. When the timer's line already has a handler, [init] with a
    non-zero frequency halts before it reads or writes any timer register:
    its one hardware access is the interrupt mask of the halt routine. The
    controller is as it was, but the timer object already holds the new
    callback and context, stored before the registration was attempted. *)
Theorem init_line_taken_state h ctx w f :
  f <> 0 ->
  irq_number (global_el1_timer_instance w) < MAX_IRQS ->
  is_registered (slot_of w (irq_number (global_el1_timer_instance w))) = true ->
  exists w' evs,
    GenericTimer_init ld msr_effect f h ctx w = Halt w'
    /\ g_gic_driver w' = g_gic_driver w
    /\ user_handler (global_el1_timer_instance w') = h
    /\ user_context (global_el1_timer_instance w') = ctx
    /\ current_interval_ticks (global_el1_timer_instance w')
       = current_interval_ticks (global_el1_timer_instance w)
    /\ sysreg w' = sysreg w
    /\ trace w' = trace w ++ evs
    /\ hardware_accesses evs = [Msr DAIFSET 0xf].
Proof.
  intros Hf Hirq Htaken.
  unfold GenericTimer_init.
  destruct (Z.eqb_spec f 0) as [|_]; [contradiction|].
  unfold get_interrupt_controller. run. simpl_world.
  rewrite register_handler_taken; [| exact Hirq | exact Htaken].
  cbn [negb]. unfold panic.
  eexists _, _. split; [reflexivity|]. simpl_world.
  rewrite <- !app_assoc. repeat (split; [reflexivity|]). reflexivity.
Qed.

(** X23. When the line is free but [CNTFRQ_EL0] reads as zero, [init] halts
    after the registration: the trampoline stays registered on the timer's
    line, the callback and context are stored, and the hardware accesses are
    the read of [CNTFRQ_EL0] and the interrupt mask of the halt routine;
    neither [CNTP_TVAL_EL0] nor [CNTP_CTL_EL0] is written and the line is not
    enabled. *)
Theorem init_dead_counter_state h ctx w f :
  f <> 0 ->
  table_ok (g_gic_driver w) ->
  irq_number (global_el1_timer_instance w) < MAX_IRQS ->
  is_registered (slot_of w (irq_number (global_el1_timer_instance w))) = false ->
  wrap64 (sysreg w CNTFRQ_EL0) = 0 ->
  exists w' evs,
    GenericTimer_init ld msr_effect f h ctx w = Halt w'
    /\ slot_of w' (irq_number (global_el1_timer_instance w))
       = {| handler := generic_timer_irq_trampoline ld;
            context := global_el1_timer_instance_addr ld;
            is_registered := true |}
    /\ user_handler (global_el1_timer_instance w') = h
    /\ user_context (global_el1_timer_instance w') = ctx
    /\ current_interval_ticks (global_el1_timer_instance w')
       = current_interval_ticks (global_el1_timer_instance w)
    /\ sysreg w' = sysreg w
    /\ trace w' = trace w ++ evs
    /\ hardware_accesses evs = [Mrs CNTFRQ_EL0; Msr DAIFSET 0xf].
Proof.
  intros Hf Hok Hirq Hfree Hcf.
  unfold GenericTimer_init.
  destruct (Z.eqb_spec f 0) as [|_]; [contradiction|].
  unfold GenericTimer_get_timer_frequency_hz, get_interrupt_controller. run. simpl_world.
  rewrite register_handler_free; [| exact Hirq | exact Hfree].
  cbn [negb]. simpl_world. rewrite Hcf. cbn [Z.eqb]. unfold panic.
  eexists _, _. split; [reflexivity|]. simpl_world.
  split.
  { match goal with
    | |- slot_of ?W _ = _ =>
        change (slot_of W (irq_number (global_el1_timer_instance w)))
          with (slot_of
                  (put_slot (irq_number (global_el1_timer_instance w))
                     {| handler := generic_timer_irq_trampoline ld;
                        context := global_el1_timer_instance_addr ld;
                        is_registered := true |} w)
                  (irq_number (global_el1_timer_instance w)))
    end.
    apply (slot_after_put w _ _ Hok Hirq). }
  rewrite <- !app_assoc. repeat (split; [reflexivity|]). reflexivity.
Qed.

End TimerFailures.

Lemma init_line_taken_state_witness :
  50 <> 0
  /\ irq_number (global_el1_timer_instance world_with_timer_running) < MAX_IRQS
  /\ is_registered (slot_of world_with_timer_running 30) = true
  /\ exists w' evs,
       GenericTimer_init sample_link_map latching_msr 50 0x4000 0x4008
         world_with_timer_running = Halt w'
       /\ g_gic_driver w' = g_gic_driver world_with_timer_running
       /\ user_handler (global_el1_timer_instance w') = 0x4000
       /\ user_context (global_el1_timer_instance w') = 0x4008
       /\ current_interval_ticks (global_el1_timer_instance w') = 10000
       /\ sysreg w' = sysreg world_with_timer_running
       /\ trace w' = trace world_with_timer_running ++ evs
       /\ hardware_accesses evs = [Msr DAIFSET 0xf].
Proof.
  assert (Hf : 50 <> 0) by lia.
  assert (Hirq : irq_number (global_el1_timer_instance world_with_timer_running)
                 < MAX_IRQS) by (vm_compute; reflexivity).
  assert (Htaken : is_registered
                     (slot_of world_with_timer_running
                        (irq_number (global_el1_timer_instance world_with_timer_running)))
                   = true) by (vm_compute; reflexivity).
  split; [exact Hf|]. split; [exact Hirq|]. split; [exact Htaken|].
  exact (init_line_taken_state sample_link_map latching_msr 0x4000 0x4008
           world_with_timer_running 50 Hf Hirq Htaken).
Defined.

Lemma init_dead_counter_state_witness :
  100 <> 0
  /\ table_ok (g_gic_driver line30_unhandled)
  /\ irq_number (global_el1_timer_instance line30_unhandled) < MAX_IRQS
  /\ is_registered (slot_of line30_unhandled 30) = false
  /\ wrap64 (sysreg line30_unhandled CNTFRQ_EL0) = 0
  /\ exists w' evs,
       GenericTimer_init sample_link_map latching_msr 100 0x3000 0x3008
         line30_unhandled = Halt w'
       /\ slot_of w' 30
          = {| handler := 0x90000; context := 0x180000; is_registered := true |}
       /\ user_handler (global_el1_timer_instance w') = 0x3000
       /\ user_context (global_el1_timer_instance w') = 0x3008
       /\ current_interval_ticks (global_el1_timer_instance w') = 0
       /\ sysreg w' = sysreg line30_unhandled
       /\ trace w' = trace line30_unhandled ++ evs
       /\ hardware_accesses evs = [Mrs CNTFRQ_EL0; Msr DAIFSET 0xf].
Proof.
  assert (Hf : 100 <> 0) by lia.
  assert (Hok : table_ok (g_gic_driver line30_unhandled)) by reflexivity.
  assert (Hirq : irq_number (global_el1_timer_instance line30_unhandled) < MAX_IRQS)
    by (change (30 < 256); lia).
  assert (Hfree : is_registered
                    (slot_of line30_unhandled
                       (irq_number (global_el1_timer_instance line30_unhandled)))
                  = false) by reflexivity.
  assert (Hcf : wrap64 (sysreg line30_unhandled CNTFRQ_EL0) = 0) by reflexivity.
  split; [exact Hf|]. split; [exact Hok|]. split; [exact Hirq|].
  split; [exact Hfree|]. split; [exact Hcf|].
  exact (init_dead_counter_state sample_link_map latching_msr 0x3000 0x3008
           line30_unhandled 100 Hf Hok Hirq Hfree Hcf).
Defined.

(** ** The memory functions of [kstd] *)

Lemma kmemset_loop_spec n d val i mem a :
  kmemset_loop n d val i mem a
  = if (d + i <=? a) && (a <? d + i + Z.of_nat n) then val else mem a.
Proof.
  revert i mem. induction n as [|n IH]; intros i mem; cbn [kmemset_loop].
  - destruct (Z.leb_spec (d + i) a), (Z.ltb_spec a (d + i + Z.of_nat 0));
      cbn [andb]; try reflexivity; lia.
  - rewrite IH. unfold store_byte.
    destruct (Z.leb_spec (d + (i + 1)) a), (Z.ltb_spec a (d + (i + 1) + Z.of_nat n)),
      (Z.leb_spec (d + i) a), (Z.ltb_spec a (d + i + Z.of_nat (S n))),
      (Z.eqb_spec a (d + i)); cbn [andb]; try reflexivity; lia.
Qed.

(** X24. [kmemset] returns [dest]; afterwards each of the [count] bytes
    from [dest] on holds the value reduced to an [unsigned char], and every
    other byte of memory is as before. A count of zero changes nothing. *)
Theorem kmemset_fills dest ch count mem a :
  0 <= count ->
  fst (kmemset dest ch count mem) = dest
  /\ snd (kmemset dest ch count mem) a
     = if (dest <=? a) && (a <? dest + count) then ch mod 256 else mem a.
Proof.
  intros Hc. unfold kmemset. cbn [fst snd]. split; [reflexivity|].
  rewrite kmemset_loop_spec, Z2Nat.id, Z.add_0_r by exact Hc. reflexivity.
Qed.

Lemma kmemset_fills_witness :
  0 <= 4
  /\ fst (kmemset 0x1004 (-1) 4 sample_memory) = 0x1004
  /\ snd (kmemset 0x1004 (-1) 4 sample_memory) 0x1007
     = if (0x1004 <=? 0x1007) && (0x1007 <? 0x1004 + 4) then (-1) mod 256
       else sample_memory 0x1007.
Proof.
  assert (Hc : 0 <= 4) by lia.
  split; [exact Hc|].
  exact (kmemset_fills 0x1004 (-1) 4 sample_memory 0x1007 Hc).
Defined.

(** Bytes outside the destination are not written. *)
Lemma copy_forwards_frame n d s i mem a :
  a < d + i \/ d + i + Z.of_nat n <= a ->
  copy_forwards n d s i mem a = mem a.
Proof.
  revert i mem. induction n as [|n IH]; intros i mem Ha; cbn [copy_forwards].
  - reflexivity.
  - rewrite IH by lia. unfold store_byte.
    destruct (Z.eqb_spec a (d + i)); [lia | reflexivity].
Qed.

(** Copying forwards is a copy when no source byte still to be read lies in
    the part of the destination already written: the destination begins at
    or below the source, or at or beyond its end. *)
Lemma copy_forwards_spec n d s i mem j :
  d <= s \/ s + i + Z.of_nat n <= d + i ->
  i <= j < i + Z.of_nat n ->
  copy_forwards n d s i mem (d + j) = mem (s + j).
Proof.
  revert i mem. induction n as [|n IH]; intros i mem Hds Hj; cbn [copy_forwards].
  - lia.
  - destruct (Z.eq_dec j i) as [->|Hne].
    + rewrite copy_forwards_frame by lia. unfold store_byte.
      rewrite Z.eqb_refl. reflexivity.
    + rewrite IH by lia. unfold store_byte.
      destruct (Z.eqb_spec (s + j) (d + i)); [lia | reflexivity].
Qed.

Lemma copy_backwards_frame n d s mem a :
  a < d \/ d + Z.of_nat n <= a ->
  copy_backwards n d s mem a = mem a.
Proof.
  revert mem. induction n as [|n IH]; intros mem Ha; cbn [copy_backwards].
  - reflexivity.
  - rewrite IH by lia. unfold store_byte.
    destruct (Z.eqb_spec a (d + Z.of_nat n)); [lia | reflexivity].
Qed.

Lemma copy_backwards_spec n d s mem j :
  s <= d ->
  0 <= j < Z.of_nat n ->
  copy_backwards n d s mem (d + j) = mem (s + j).
Proof.
  revert mem. induction n as [|n IH]; intros mem Hds Hj; cbn [copy_backwards].
  - lia.
  - destruct (Z.eq_dec j (Z.of_nat n)) as [->|Hne].
    + rewrite copy_backwards_frame by lia. unfold store_byte.
      rewrite Z.eqb_refl. reflexivity.
    + rewrite IH by lia. unfold store_byte.
      destruct (Z.eqb_spec (s + j) (d + Z.of_nat n)); [lia | reflexivity].
Qed.

(** X25. [kmemmove] returns [dest] and copies correctly whether or not the
    two ranges overlap: afterwards byte [j] of the destination holds what
    byte [j] of the source held before the call, for every [j] below
    [count], and no byte outside the destination has changed. *)
Theorem kmemmove_copies dest src count mem j :
  0 <= j < count ->
  fst (kmemmove dest src count mem) = dest
  /\ snd (kmemmove dest src count mem) (dest + j) = mem (src + j)
  /\ forall a, a < dest \/ dest + count <= a ->
               snd (kmemmove dest src count mem) a = mem a.
Proof.
  intros Hj. unfold kmemmove.
  destruct (Z.eqb_spec dest src) as [->|Hne]; cbn [fst snd]; [auto|].
  destruct (Z.ltb_spec dest src); cbn [fst snd].
  - split; [reflexivity|]. split.
    + apply copy_forwards_spec; rewrite ?Z2Nat.id; lia.
    + intros a Ha. apply copy_forwards_frame. rewrite Z2Nat.id; lia.
  - split; [reflexivity|]. split.
    + apply copy_backwards_spec; rewrite ?Z2Nat.id; lia.
    + intros a Ha. apply copy_backwards_frame. rewrite Z2Nat.id; lia.
Qed.

Lemma kmemmove_copies_witness :
  0 <= 5 < 8
  /\ fst (kmemmove 0x1002 0x1000 8 sample_memory) = 0x1002
  /\ snd (kmemmove 0x1002 0x1000 8 sample_memory) (0x1002 + 5) = sample_memory (0x1000 + 5)
  /\ forall a, a < 0x1002 \/ 0x1002 + 8 <= a ->
               snd (kmemmove 0x1002 0x1000 8 sample_memory) a = sample_memory a.
Proof.
  assert (Hj : 0 <= 5 < 8) by lia.
  split; [exact Hj|].
  exact (kmemmove_copies 0x1002 0x1000 8 sample_memory 5 Hj).
Defined.

(** X26. [kmemcpy] copies correctly when the destination begins at or below
    the source or at or beyond the source's end; it then leaves memory
    exactly as [kmemmove] does. *)
Theorem kmemcpy_copies dest src count mem j :
  0 <= j < count ->
  dest <= src \/ src + count <= dest ->
  fst (kmemcpy dest src count mem) = dest
  /\ snd (kmemcpy dest src count mem) (dest + j) = mem (src + j)
  /\ forall a, a < dest \/ dest + count <= a ->
               snd (kmemcpy dest src count mem) a = mem a.
Proof.
  intros Hj Hds. unfold kmemcpy. cbn [fst snd].
  split; [reflexivity|]. split.
  - apply copy_forwards_spec; rewrite ?Z2Nat.id; lia.
  - intros a Ha. apply copy_forwards_frame. rewrite Z2Nat.id; lia.
Qed.

Lemma kmemcpy_copies_witness :
  0 <= 5 < 8
  /\ (0x1000 <= 0x1002 \/ 0x1002 + 8 <= 0x1000)
  /\ fst (kmemcpy 0x1000 0x1002 8 sample_memory) = 0x1000
  /\ snd (kmemcpy 0x1000 0x1002 8 sample_memory) (0x1000 + 5) = sample_memory (0x1002 + 5)
  /\ forall a, a < 0x1000 \/ 0x1000 + 8 <= a ->
               snd (kmemcpy 0x1000 0x1002 8 sample_memory) a = sample_memory a.
Proof.
  assert (Hj : 0 <= 5 < 8) by lia.
  assert (Hds : 0x1000 <= 0x1002 \/ 0x1002 + 8 <= 0x1000) by (left; lia).
  split; [exact Hj|]. split; [exact Hds|].
  exact (kmemcpy_copies 0x1000 0x1002 8 sample_memory 5 Hj Hds).
Defined.

(** Forwards into a destination [k] bytes above the source, the loop reads
    back what it wrote [k] bytes earlier. *)
Lemma copy_forwards_above n s k i mem j :
  0 < k ->
  0 <= i ->
  (forall j', k <= j' < k + i -> mem (s + j') = mem (s + j' mod k)) ->
  i <= j < i + Z.of_nat n ->
  copy_forwards n (s + k) s i mem (s + k + j) = mem (s + j mod k).
Proof.
  revert i mem. induction n as [|n IH]; intros i mem Hk Hi Hdone Hj; cbn [copy_forwards].
  - lia.
  - assert (Hsi : mem (s + i) = mem (s + i mod k)).
    { destruct (Z.lt_ge_cases i k) as [Hlt|Hge].
      - rewrite Z.mod_small by lia. reflexivity.
      - apply Hdone. lia. }
    assert (Hlow : forall x, 0 <= x -> s + x mod k <> s + k + i).
    { intros x Hx. pose proof (Z.mod_pos_bound x k Hk). lia. }
    destruct (Z.eq_dec j i) as [->|Hne].
    + rewrite copy_forwards_frame by lia. unfold store_byte.
      rewrite Z.eqb_refl. exact Hsi.
    + rewrite IH; try lia.
      * unfold store_byte.
        destruct (Z.eqb_spec (s + j mod k) (s + k + i)) as [E|_]; [|reflexivity].
        exfalso. apply (Hlow j); [lia | exact E].
      * intros j' Hj'. unfold store_byte.
        destruct (Z.eqb_spec (s + j' mod k) (s + k + i)) as [E|_];
          [exfalso; apply (Hlow j'); [lia | exact E]|].
        destruct (Z.eqb_spec (s + j') (s + k + i)) as [E|Hother].
        -- assert (j' = k + i) by lia. subst j'.
           rewrite Hsi.
           replace (k + i) with (i + 1 * k) by lia. rewrite Z.mod_add by lia.
           reflexivity.
        -- apply Hdone. lia.
Qed.

(** X27. [kmemcpy] into a destination that begins [k > 0] bytes above the
    source and overlaps it does not copy: the first [k] source bytes are
    repeated through the destination, byte [j] of which ends up holding what
    source byte [j mod k] held. With [k = 1] the whole destination is filled
    with the first source byte. *)
Theorem kmemcpy_overlap_repeats src k count mem j :
  0 < k ->
  0 <= j < count ->
  snd (kmemcpy (src + k) src count mem) (src + k + j) = mem (src + j mod k).
Proof.
  intros Hk Hj. unfold kmemcpy. cbn [snd].
  apply copy_forwards_above; rewrite ?Z2Nat.id; try lia.
Qed.

Lemma kmemcpy_overlap_repeats_witness :
  0 < 1 /\ 0 <= 5 < 8
  /\ snd (kmemcpy (0x1000 + 1) 0x1000 8 sample_memory) (0x1000 + 1 + 5) = 1
  /\ sample_memory (0x1000 + 5) = 6.
Proof.
  assert (Hk : 0 < 1) by lia.
  assert (Hj : 0 <= 5 < 8) by lia.
  split; [exact Hk|]. split; [exact Hj|].
  split; [|reflexivity].
  exact (kmemcpy_overlap_repeats 0x1000 1 8 sample_memory 5 Hk Hj).
Defined.

Lemma kmemcmp_loop_zero n l r i mem :
  kmemcmp_loop n l r i mem = 0
  <-> forall j, i <= j < i + Z.of_nat n -> mem (l + j) = mem (r + j).
Proof.
  revert i. induction n as [|n IH]; intros i; cbn [kmemcmp_loop].
  - split; [intros _ j Hj; lia | reflexivity].
  - destruct (Z.ltb_spec (mem (l + i)) (mem (r + i))) as [Hlt|Hge].
    { split; [discriminate|]. intros H. specialize (H i). lia. }
    destruct (Z.ltb_spec (mem (r + i)) (mem (l + i))) as [Hgt|Hle].
    { split; [discriminate|]. intros H. specialize (H i). lia. }
    rewrite IH. split.
    + intros H j Hj. destruct (Z.eq_dec j i) as [->|]; [lia | apply H; lia].
    + intros H j Hj. apply H. lia.
Qed.

Lemma kmemcmp_loop_swap n l r i mem :
  kmemcmp_loop n r l i mem = - kmemcmp_loop n l r i mem.
Proof.
  revert i. induction n as [|n IH]; intros i; cbn [kmemcmp_loop]; [reflexivity|].
  destruct (Z.ltb_spec (mem (l + i)) (mem (r + i))),
    (Z.ltb_spec (mem (r + i)) (mem (l + i))); try reflexivity; try lia.
  apply IH.
Qed.

Lemma kmemcmp_loop_range n l r i mem : -1 <= kmemcmp_loop n l r i mem <= 1.
Proof.
  revert i. induction n as [|n IH]; intros i; cbn [kmemcmp_loop]; [lia|].
  destruct (_ <? _); [lia|]. destruct (_ <? _); [lia|]. apply IH.
Qed.

(** X28. [kmemcmp] returns [-1], [0] or [1]. It returns [0] exactly when
    the two ranges agree byte for byte, and swapping its arguments negates
    the result. *)
Theorem kmemcmp_compares lhs rhs count mem :
  0 <= count ->
  (kmemcmp lhs rhs count mem = 0
   <-> forall j, 0 <= j < count -> mem (lhs + j) = mem (rhs + j))
  /\ kmemcmp rhs lhs count mem = - kmemcmp lhs rhs count mem
  /\ -1 <= kmemcmp lhs rhs count mem <= 1.
Proof.
  intros Hc. unfold kmemcmp. split; [|split].
  - rewrite kmemcmp_loop_zero, Z2Nat.id by exact Hc.
    split; intros H j Hj; apply H; lia.
  - apply kmemcmp_loop_swap.
  - apply kmemcmp_loop_range.
Qed.

Lemma kmemcmp_compares_witness :
  0 <= 4
  /\ (kmemcmp 0x1000 0x1004 4 sample_memory = 0
      <-> forall j, 0 <= j < 4 -> sample_memory (0x1000 + j) = sample_memory (0x1004 + j))
  /\ kmemcmp 0x1004 0x1000 4 sample_memory = - kmemcmp 0x1000 0x1004 4 sample_memory
  /\ -1 <= kmemcmp 0x1000 0x1004 4 sample_memory <= 1.
Proof.
  assert (Hc : 0 <= 4) by lia.
  split; [exact Hc|].
  exact (kmemcmp_compares 0x1000 0x1004 4 sample_memory Hc).
Defined.
